(** * Acta backend: the analytics aggregation pipeline

    A shallow embedding of
    - [tasks/models.py]  ([Task.save]) and [tasks/signals.py]
      (the pre-save and post-save receivers: the incremental updater),
    - [analytics/management/commands/calculate_analytics.py]
      (the batch aggregator),
    - [analytics/management/commands/cleanup_analytics.py]
      (the retention pruner),
    - [analytics/views.py] (the read side: the overview, the lists of
      daily and weekly stats, the productivity trend), the
      [toggle_complete] action of [tasks/views.py] and the two properties
      of [Task],
    over the tables declared in [analytics/models.py] and [tasks/models.py].

    Conventions of the embedding.
    - A [datetime.date] is its proleptic Gregorian ordinal ([date.toordinal],
      0001-01-01 is 1), so that [d - timedelta(days=i)] is [d - i]; a
      [datetime] is a date and a second of the day, and [__date] lookups
      compare the date.
    - A [DecimalField(decimal_places=2)] column holds its value in hundredths
      (a [Z]); the float expression [completed / created * 100] is read as
      the exact quotient, rounded half-even to two places when the row is
      written.  Writing a value that needs more than [max_digits] digits
      raises.
    - A table with a [unique_together] key is a finite map from that key to
      the remaining columns, the [auto_now_add] and [auto_now] timestamps
      among them.  The surrogate [id] column (a random UUID that is never
      rewritten) is left out.
    - Code runs in a monad with the database as state, the clock and the
      failures of the database layer as environment, and Python exceptions
      as the second kind of outcome.  A write is committed when it is made:
      an exception later on does not undo it. *)

From stdpp Require Import gmap strings list fin_maps sorting.
From Stdlib Require Import ZArith Lia.

(* ===================================================================== *)
(** ** Python's [datetime.date] on ordinals *)
(* ===================================================================== *)

Module PyDate.

Definition is_leap (year : Z) : bool :=
  ((year mod 4 =? 0) && (negb (year mod 100 =? 0) || (year mod 400 =? 0)))%Z.

Definition days_before_year (year : Z) : Z :=
  (let y := year - 1 in y * 365 + y / 4 - y / 100 + y / 400)%Z.

Definition days_before_month (year month : Z) : Z :=
  (nth (Z.to_nat month) [0; 0; 31; 59; 90; 120; 151; 181; 212; 243; 273; 304; 334] 0
   + (if (2 <? month) && is_leap year then 1 else 0))%Z.

(** [_ymd2ord]: the ordinal of a calendar date. *)
Definition ymd2ord (year month day : Z) : Z :=
  (days_before_year year + days_before_month year month + day)%Z.

(** The year component of [_ord2ymd], that is [date.year]. *)
Definition year (n : Z) : Z :=
  (let n := n - 1 in
   let n400 := n / 146097 in
   let n := n mod 146097 in
   let n100 := n / 36524 in
   let n := n mod 36524 in
   let n4 := n / 1461 in
   let n := n mod 1461 in
   let n1 := n / 365 in
   let y := n400 * 400 + 1 + n100 * 100 + n4 * 4 + n1 in
   if (n1 =? 4) || (n100 =? 4) then y - 1 else y)%Z.

(** [date.weekday()]: Monday is 0. *)
Definition weekday (n : Z) : Z := ((n + 6) mod 7)%Z.

Definition isoweek1monday (y : Z) : Z :=
  (let firstday := ymd2ord y 1 1 in
   let firstweekday := (firstday + 6) mod 7 in
   let week1monday := firstday - firstweekday in
   if 3 <? firstweekday then week1monday + 7 else week1monday)%Z.

(** [date.isocalendar()]: (ISO year, ISO week, ISO weekday). *)
Definition isocalendar (n : Z) : Z * Z * Z :=
  (let y := year n in
   let week1monday := isoweek1monday y in
   let week := (n - week1monday) / 7 in
   let day := (n - week1monday) mod 7 in
   if week <? 0 then
     let y := y - 1 in
     let week1monday := isoweek1monday y in
     (y, (n - week1monday) / 7 + 1, (n - week1monday) mod 7 + 1)
   else if (52 <=? week) && (isoweek1monday (y + 1) <=? n) then
     (y + 1, 1, day + 1)
   else (y, week + 1, day + 1))%Z.

Definition iso_year (n : Z) : Z := (isocalendar n).1.1.
Definition iso_week (n : Z) : Z := (isocalendar n).1.2.

End PyDate.

(** A [datetime]: the date and the second of the day. *)
Record datetime := { dt_date : Z; dt_secs : Z }.

#[export] Instance datetime_eq_dec : EqDecision datetime.
Proof. solve_decision. Defined.

(** Midnight of a day. *)
Definition at_day (d : Z) : datetime := {| dt_date := d; dt_secs := 0 |}.

(* ===================================================================== *)
(** ** The tables *)
(* ===================================================================== *)

Record User := { u_id : nat; u_email : string }.

Record Category := { c_id : nat; c_name : string; c_color : string }.

(** [Task.Status]: the four choices of the [status] column.  The column
    is a string; a value outside the choices, which only a write that
    skips validation ([QuerySet.update]) can store, is not modelled. *)
Inductive Status := PENDING | IN_PROGRESS | COMPLETED | CANCELLED.

#[export] Instance Status_eq_dec : EqDecision Status.
Proof. solve_decision. Defined.

(** The columns of [tasks.Task] that the analytics code reads. *)
Record Task := {
  t_id : nat;
  t_user : nat;
  t_status : Status;
  t_category : option Category;
  t_due_date : option datetime;
  t_actual_hours : option Z;
  t_completed_at : option datetime;
  t_created_at : datetime;
}.

(** One entry of the [categories_data] JSON object. *)
Record CatEntry := {
  ce_name : string;
  ce_color : string;
  ce_tasks_created : nat;
  ce_tasks_completed : nat;
}.

(** [analytics.DailyStats], keyed by [(user, date)]. *)
Record DailyStats := {
  tasks_created : nat;
  tasks_completed : nat;
  tasks_overdue : nat;
  hours_worked : Z;
  productivity_score : Z;
  categories_data : gmap nat CatEntry;
  ds_created_at : datetime;
  ds_updated_at : datetime;
}.

(** One entry of the [daily_breakdown] JSON list. *)
Record DayEntry := {
  de_date : Z;
  de_tasks_created : nat;
  de_tasks_completed : nat;
  de_productivity_score : Z;
}.

(** [analytics.WeeklyStats], keyed by [(user, year, week_number)]. *)
Record WeeklyStats := {
  start_date : Z;
  end_date : Z;
  total_tasks_created : nat;
  total_tasks_completed : nat;
  total_tasks_overdue : nat;
  total_hours_worked : Z;
  average_productivity_score : Z;
  weekly_categories_data : gmap nat CatEntry;
  daily_breakdown : list DayEntry;
  ws_created_at : datetime;
  ws_updated_at : datetime;
}.

(** What the commands write to [self.stdout]. *)
Inductive message :=
| MsgCalculating (total_users : nat)
| MsgCreatedDaily (user : nat) (calc_date : Z)
| MsgUpdatedDaily (user : nat) (calc_date : Z)
| MsgCreatedWeekly (user : nat) (week_number year : Z)
| MsgUpdatedWeekly (user : nat) (week_number year : Z)
| MsgCalculated (total_users : nat)
| MsgNeedFlag
| MsgFoundDaily (daily_count : nat) (cutoff : Z)
| MsgFoundWeekly (weekly_count : nat) (cutoff : Z)
| MsgDryRun
| MsgWouldDeleteDaily (daily_count : nat)
| MsgWouldDeleteWeekly (weekly_count : nat)
| MsgDeletedDaily (n : nat)
| MsgDeletedWeekly (n : nat)
| MsgNothingToDelete
| MsgCleanupCompleted (deleted_daily deleted_weekly : nat).

(** [WARNING] for the messages written with [self.style.WARNING]. *)
Definition is_warning (m : message) : bool :=
  match m with MsgNeedFlag | MsgDryRun => true | _ => false end.

Record db := {
  users : list User;
  tasks : list Task;
  daily : gmap (nat * Z) DailyStats;
  weekly : gmap (nat * Z * Z) WeeklyStats;
  stdout : list message;
}.

Definition set_tasks (f : list Task -> list Task) (s : db) : db :=
  {| users := users s; tasks := f (tasks s); daily := daily s;
     weekly := weekly s; stdout := stdout s |}.

Definition set_daily (f : gmap (nat * Z) DailyStats -> gmap (nat * Z) DailyStats)
    (s : db) : db :=
  {| users := users s; tasks := tasks s; daily := f (daily s);
     weekly := weekly s; stdout := stdout s |}.

Definition set_weekly
    (f : gmap (nat * Z * Z) WeeklyStats -> gmap (nat * Z * Z) WeeklyStats)
    (s : db) : db :=
  {| users := users s; tasks := tasks s; daily := daily s;
     weekly := f (weekly s); stdout := stdout s |}.

Definition set_stdout (f : list message -> list message) (s : db) : db :=
  {| users := users s; tasks := tasks s; daily := daily s;
     weekly := weekly s; stdout := f (stdout s) |}.

(* ===================================================================== *)
(** ** Exceptions, the environment and the monad *)
(* ===================================================================== *)

(** The exceptions the code can meet.  [NumericOverflow] is what writing a
    decimal with more digits than the column's [max_digits] raises;
    [OperationalError] stands for a failure of the database layer. *)
Inductive exn :=
| Task_DoesNotExist
| DailyStats_DoesNotExist
| Category_DoesNotExist
| NumericOverflow
| OperationalError.

#[export] Instance exn_eq_dec : EqDecision exn.
Proof. solve_decision. Defined.

(** The calls into the ORM, by table and kind. *)
Inductive orm_op :=
| op_User_query
| op_Task_get (pk : nat)
| op_Task_write (pk : nat)
| op_Task_query (user : nat)
| op_Category_fetch (pk : nat)
| op_DailyStats_get_or_create (user : nat) (date : Z)
| op_DailyStats_get (user : nat) (date : Z)
| op_DailyStats_save (user : nat) (date : Z)
| op_DailyStats_query
| op_DailyStats_delete
| op_WeeklyStats_get_or_create (user : nat) (year week_number : Z)
| op_WeeklyStats_save (user : nat) (year week_number : Z)
| op_WeeklyStats_query
| op_WeeklyStats_delete.

(** The environment of a run: [timezone.now()] and, for every call into
    the ORM, the exception the database layer raises there, if any. *)
Record env := {
  now : datetime;
  fault : orm_op -> option exn;
}.

Definition no_fault : orm_op -> option exn := fun _ => None.

(** An environment in which the database layer never fails. *)
Definition calm (t : datetime) : env := {| now := t; fault := no_fault |}.

Inductive outcome (A : Type) :=
| Ok (a : A) (s : db)
| Raise (e : exn) (s : db).
Arguments Ok {A} a s.
Arguments Raise {A} e s.

(** The database an outcome leaves behind (every write is committed at
    once: nothing wraps the code in a transaction). *)
Definition final {A} (o : outcome A) : db :=
  match o with Ok _ s => s | Raise _ s => s end.

Definition raised {A} (o : outcome A) : option exn :=
  match o with Ok _ _ => None | Raise e _ => Some e end.

Definition M (A : Type) : Type := env -> db -> outcome A.

Definition ret {A} (a : A) : M A := fun _ s => Ok a s.

Definition bind {A B} (m : M A) (k : A -> M B) : M B :=
  fun E s => match m E s with
             | Ok a s' => k a E s'
             | Raise e s' => Raise e s'
             end.

Definition raise {A} (e : exn) : M A := fun _ s => Raise e s.

(** [try: m  except e: h]. *)
Definition try_except {A} (m : M A) (e : exn) (h : M A) : M A :=
  fun E s => match m E s with
             | Ok a s' => Ok a s'
             | Raise e' s' => if decide (e' = e) then h E s' else Raise e' s'
             end.

Definition get : M db := fun _ s => Ok s s.
Definition modify (f : db -> db) : M unit := fun _ s => Ok tt (f s).
Definition ask_now : M datetime := fun E s => Ok (now E) s.

Notation "'let*' x ':=' m 'in' k" := (bind m (fun x => k))
  (at level 10, x pattern, m at level 100, k at level 200).
Notation "m ;; k" := (bind m (fun _ => k))
  (at level 100, k at level 200, right associativity).

(** [for x in l: body x]. *)
Fixpoint for_each {X} (l : list X) (body : X -> M unit) : M unit :=
  match l with
  | [] => ret tt
  | x :: l' => body x ;; for_each l' body
  end.

(** A call into the ORM: it raises what the environment says. *)
Definition orm (op : orm_op) : M unit :=
  fun E s => match fault E op with
             | Some e => Raise e s
             | None => Ok tt s
             end.

Definition write (m : message) : M unit :=
  modify (set_stdout (fun out => out ++ [m])).

(** [timezone.now().date()]. *)
Definition today : M Z := let* t := ask_now in ret (dt_date t).

(* ===================================================================== *)
(** ** The ORM calls the code makes *)
(* ===================================================================== *)

(** [DecimalField(max_digits, decimal_places=2)]: the value, in hundredths,
    must be written with at most [max_digits] digits. *)
Definition decimal_fits (max_digits : Z) (v : Z) : bool :=
  (Z.abs v <? 10 ^ max_digits)%Z.

Definition stamp_daily (created updated : datetime) (r : DailyStats) : DailyStats :=
  {| tasks_created := tasks_created r; tasks_completed := tasks_completed r;
     tasks_overdue := tasks_overdue r; hours_worked := hours_worked r;
     productivity_score := productivity_score r;
     categories_data := categories_data r;
     ds_created_at := created; ds_updated_at := updated |}.

Definition stamp_weekly (created updated : datetime) (r : WeeklyStats) : WeeklyStats :=
  {| start_date := start_date r; end_date := end_date r;
     total_tasks_created := total_tasks_created r;
     total_tasks_completed := total_tasks_completed r;
     total_tasks_overdue := total_tasks_overdue r;
     total_hours_worked := total_hours_worked r;
     average_productivity_score := average_productivity_score r;
     weekly_categories_data := weekly_categories_data r;
     daily_breakdown := daily_breakdown r;
     ws_created_at := created; ws_updated_at := updated |}.

(** [User.objects.all()] and [User.objects.filter(email=...)]. *)
Definition User_all : M (list User) :=
  orm op_User_query ;; let* s := get in ret (users s).

Definition User_filter_email (email : string) : M (list User) :=
  orm op_User_query ;;
  let* s := get in
  ret (List.filter (fun u => bool_decide (u_email u = email)) (users s)).

(** [Task.objects.filter(user=user).filter(...)], evaluated. *)
Definition Task_filter (user : nat) (P : Task -> bool) : M (list Task) :=
  orm (op_Task_query user) ;;
  let* s := get in
  ret (List.filter (fun t => (t_user t =? user) && P t) (tasks s)).

Definition Task_count (user : nat) (P : Task -> bool) : M nat :=
  let* l := Task_filter user P in ret (length l).

(** [DailyStats.objects.get_or_create(user=, date=, defaults=)].  The
    timestamps of a row it inserts are [auto_now_add] and [auto_now]. *)
Definition DailyStats_get_or_create (user : nat) (date : Z) (defaults : DailyStats)
  : M (DailyStats * bool) :=
  orm (op_DailyStats_get_or_create user date) ;;
  let* s := get in
  match daily s !! (user, date) with
  | Some r => ret (r, false)
  | None =>
      let* t := ask_now in
      let r := stamp_daily t t defaults in
      modify (set_daily (insert (user, date) r)) ;;
      ret (r, true)
  end.

(** [DailyStats.objects.get(user=, date=)]. *)
Definition DailyStats_get (user : nat) (date : Z) : M DailyStats :=
  orm (op_DailyStats_get user date) ;;
  let* s := get in
  match daily s !! (user, date) with
  | Some r => ret r
  | None => raise DailyStats_DoesNotExist
  end.

(** [daily_stats.save()]: [updated_at] is [auto_now]; the two decimal
    columns are [max_digits=5]. *)
Definition DailyStats_save (user : nat) (date : Z) (r : DailyStats) : M unit :=
  orm (op_DailyStats_save user date) ;;
  if decimal_fits 5 (hours_worked r) && decimal_fits 5 (productivity_score r) then
    let* t := ask_now in
    modify (set_daily (insert (user, date) (stamp_daily (ds_created_at r) t r)))
  else raise NumericOverflow.

(** [DailyStats.objects.filter(user=user, date__range=[a, b])], evaluated:
    the rows with their dates, in the model's ordering [-date]. *)
Definition DailyStats_range (user : nat) (a b : Z) : M (list (Z * DailyStats)) :=
  orm op_DailyStats_query ;;
  let* s := get in
  ret (omap (fun d => (fun r => (d, r)) <$> daily s !! (user, d))
            (reverse (seqZ a (b - a + 1)))).

(** [daily_stats_qs.filter(date=check_date).first()] *)
Definition DailyStats_first (user : nat) (a b check_date : Z) : M (option DailyStats) :=
  orm op_DailyStats_query ;;
  let* s := get in
  ret (if (a <=? check_date)%Z && (check_date <=? b)%Z
       then daily s !! (user, check_date) else None).

Definition WeeklyStats_get_or_create (user : nat) (year week_number : Z)
    (defaults : WeeklyStats) : M (WeeklyStats * bool) :=
  orm (op_WeeklyStats_get_or_create user year week_number) ;;
  let* s := get in
  match weekly s !! (user, year, week_number) with
  | Some r => ret (r, false)
  | None =>
      let* t := ask_now in
      let r := stamp_weekly t t defaults in
      modify (set_weekly (insert (user, year, week_number) r)) ;;
      ret (r, true)
  end.

(** [weekly_stats.save()]: [total_hours_worked] is [max_digits=6],
    [average_productivity_score] is [max_digits=5]. *)
Definition WeeklyStats_save (user : nat) (year week_number : Z) (r : WeeklyStats)
  : M unit :=
  orm (op_WeeklyStats_save user year week_number) ;;
  if decimal_fits 6 (total_hours_worked r)
     && decimal_fits 5 (average_productivity_score r) then
    let* t := ask_now in
    modify (set_weekly (insert (user, year, week_number)
                               (stamp_weekly (ws_created_at r) t r)))
  else raise NumericOverflow.

(* ===================================================================== *)
(** ** Query filters and arithmetic shared by the three components *)
(* ===================================================================== *)

(** The query filters of [calculate_daily_stats]. *)
Definition on_date (d : Z) (t : option datetime) : bool :=
  match t with Some t => (dt_date t =? d)%Z | None => false end.

(** [created_at__date=calc_date] *)
Definition created_on (calc_date : Z) (t : Task) : bool :=
  (dt_date (t_created_at t) =? calc_date)%Z.

(** [status=COMPLETED, completed_at__date=calc_date] *)
Definition completed_on (calc_date : Z) (t : Task) : bool :=
  bool_decide (t_status t = COMPLETED) && on_date calc_date (t_completed_at t).

(** [due_date__date__lt=calc_date, status__in=[PENDING, IN_PROGRESS]] *)
Definition overdue_on (calc_date : Z) (t : Task) : bool :=
  match t_due_date t with
  | Some due => (dt_date due <? calc_date)%Z
  | None => false
  end
  && (bool_decide (t_status t = PENDING) || bool_decide (t_status t = IN_PROGRESS)).

(** [... , actual_hours__isnull=False] *)
Definition completed_with_hours (calc_date : Z) (t : Task) : bool :=
  completed_on calc_date t && bool_decide (is_Some (t_actual_hours t)).

(** [sum(task.actual_hours for task in completed_tasks if task.actual_hours)] *)
Definition sum_hours (completed_tasks : list Task) : Z :=
  foldr Z.add 0%Z
    (omap (fun t => match t_actual_hours t with
                    | Some h => if (h =? 0)%Z then None else Some h
                    | None => None
                    end) completed_tasks).

(** Rounding of the quotient [num / den] ([0 < den]) to an integer, half to
    even: how a decimal is quantized to the column's two places. *)
Definition round_half_even (num den : Z) : Z :=
  (let q := num / den in
   let r := num mod den in
   if 2 * r <? den then q
   else if den <? 2 * r then q + 1
   else if Z.even q then q else q + 1)%Z.

(** [Decimal(str(min(completed / created * 100, 100.0)))] for
    [0 < created], in hundredths.  The quotient is the exact one: where
    it lies halfway between two hundredths the float of the code can fall
    on the other side (23 of 160 is 14.375, the float is stored as
    14.37), so what is stated of a stored score is its bounds, its zero
    case and [near_rate], which hold either way. *)
Definition score_of (completed created : nat) : Z :=
  if completed <=? created
  then round_half_even (10000 * Z.of_nat completed) (Z.of_nat created)
  else 10000%Z.

Definition new_entry (c : Category) : CatEntry :=
  {| ce_name := c_name c; ce_color := c_color c;
     ce_tasks_created := 0; ce_tasks_completed := 0 |}.

Definition add_created (n : nat) (e : CatEntry) : CatEntry :=
  {| ce_name := ce_name e; ce_color := ce_color e;
     ce_tasks_created := ce_tasks_created e + n;
     ce_tasks_completed := ce_tasks_completed e |}.

Definition add_completed (n : nat) (e : CatEntry) : CatEntry :=
  {| ce_name := ce_name e; ce_color := ce_color e;
     ce_tasks_created := ce_tasks_created e;
     ce_tasks_completed := ce_tasks_completed e + n |}.

Definition set_completed (n : nat) (e : CatEntry) : CatEntry :=
  {| ce_name := ce_name e; ce_color := ce_color e;
     ce_tasks_created := ce_tasks_created e;
     ce_tasks_completed := n |}.

(** The [defaults] of both [get_or_create] calls on [DailyStats]; the ORM
    sets the two timestamps. *)
Definition daily_defaults : DailyStats :=
  {| tasks_created := 0; tasks_completed := 0; tasks_overdue := 0;
     hours_worked := 0; productivity_score := 0; categories_data := ∅;
     ds_created_at := {| dt_date := 0; dt_secs := 0 |};
     ds_updated_at := {| dt_date := 0; dt_secs := 0 |} |}.

(* ===================================================================== *)
(** ** The batch aggregator: [calculate_analytics.Command] *)
(* ===================================================================== *)

Module calculate_analytics.

(** The body of the first loop over the tasks created on [calc_date]. *)
Definition seed_category (categories_data : gmap nat CatEntry) (task : Task)
  : gmap nat CatEntry :=
  match t_category task with
  | Some c =>
      let categories_data :=
        match categories_data !! c_id c with
        | None => <[c_id c := new_entry c]> categories_data
        | Some _ => categories_data
        end in
      alter (add_created 1) (c_id c) categories_data
  | None => categories_data
  end.

(** The body of the second loop, over the tasks completed on [calc_date]. *)
Definition count_category (categories_data : gmap nat CatEntry) (task : Task)
  : gmap nat CatEntry :=
  match t_category task with
  | Some c =>
      match categories_data !! c_id c with
      | Some _ => alter (add_completed 1) (c_id c) categories_data
      | None => categories_data
      end
  | None => categories_data
  end.

(** The body of [for user in users] in [calculate_daily_stats]. *)
Definition daily_stats_for (calc_date : Z) (user : User) : M unit :=
  let* (daily_stats, created) :=
    DailyStats_get_or_create (u_id user) calc_date daily_defaults in
  let* n_created := Task_count (u_id user) (created_on calc_date) in
  let* n_completed := Task_count (u_id user) (completed_on calc_date) in
  let* n_overdue := Task_count (u_id user) (overdue_on calc_date) in
  let* completed_tasks := Task_filter (u_id user) (completed_with_hours calc_date) in
  let total_hours := sum_hours completed_tasks in
  let score := if 0 <? n_created then score_of n_completed n_created else 0%Z in
  let* created_tasks := Task_filter (u_id user) (created_on calc_date) in
  let categories_data := foldl seed_category ∅ created_tasks in
  let* done_tasks := Task_filter (u_id user) (completed_on calc_date) in
  let categories_data := foldl count_category categories_data done_tasks in
  DailyStats_save (u_id user) calc_date
    {| tasks_created := n_created; tasks_completed := n_completed;
       tasks_overdue := n_overdue; hours_worked := total_hours;
       productivity_score := score; categories_data := categories_data;
       ds_created_at := ds_created_at daily_stats;
       ds_updated_at := ds_updated_at daily_stats |} ;;
  write (if created then MsgCreatedDaily (u_id user) calc_date
         else MsgUpdatedDaily (u_id user) calc_date).

Definition calculate_daily_stats (users : list User) (calc_date : Z) : M unit :=
  for_each users (daily_stats_for calc_date).

Definition sum_nat (l : list nat) : nat := foldr Nat.add 0 l.
Definition sum_Z (l : list Z) : Z := foldr Z.add 0%Z l.

(** The body of the loop over [daily_stat.categories_data.items()]. *)
Definition merge_category (weekly_categories : gmap nat CatEntry)
    (item : nat * CatEntry) : gmap nat CatEntry :=
  let '(cat_id, cat_data) := item in
  let weekly_categories :=
    match weekly_categories !! cat_id with
    | None => <[cat_id := {| ce_name := ce_name cat_data; ce_color := ce_color cat_data;
                             ce_tasks_created := 0; ce_tasks_completed := 0 |}]>
                weekly_categories
    | Some _ => weekly_categories
    end in
  alter (fun e => add_completed (ce_tasks_completed cat_data)
                    (add_created (ce_tasks_created cat_data) e))
        cat_id weekly_categories.

Definition merge_day (weekly_categories : gmap nat CatEntry) (daily_stat : DailyStats)
  : gmap nat CatEntry :=
  foldl merge_category weekly_categories (map_to_list (categories_data daily_stat)).

Definition breakdown_entry (check_date : Z) (daily_stat : option DailyStats) : DayEntry :=
  match daily_stat with
  | Some ds => {| de_date := check_date; de_tasks_created := tasks_created ds;
                  de_tasks_completed := tasks_completed ds;
                  de_productivity_score := productivity_score ds |}
  | None => {| de_date := check_date; de_tasks_created := 0;
               de_tasks_completed := 0; de_productivity_score := 0 |}
  end.

(** [for i in range(7)] of [calculate_weekly_stats], one query a day. *)
Fixpoint breakdown (user : nat) (week_start week_end : Z) (days : list Z)
  : M (list DayEntry) :=
  match days with
  | [] => ret []
  | i :: days' =>
      let check_date := (week_start + i)%Z in
      let* daily_stat := DailyStats_first user week_start week_end check_date in
      let* rest := breakdown user week_start week_end days' in
      ret (breakdown_entry check_date daily_stat :: rest)
  end.

(** The body of [for user in users] in [calculate_weekly_stats]. *)
Definition weekly_stats_for (week_start week_end year week_number : Z) (user : User)
  : M unit :=
  let* (weekly_stats, created) :=
    WeeklyStats_get_or_create (u_id user) year week_number
      {| start_date := week_start; end_date := week_end;
         total_tasks_created := 0; total_tasks_completed := 0;
         total_tasks_overdue := 0; total_hours_worked := 0;
         average_productivity_score := 0; weekly_categories_data := ∅;
         daily_breakdown := [];
         ws_created_at := {| dt_date := 0; dt_secs := 0 |};
         ws_updated_at := {| dt_date := 0; dt_secs := 0 |} |} in
  let* daily_stats_qs := DailyStats_range (u_id user) week_start week_end in
  let rows := snd <$> daily_stats_qs in
  let productivity_scores :=
    List.filter (fun x => (0 <? x)%Z) (productivity_score <$> rows) in
  let average :=
    match productivity_scores with
    | [] => 0%Z
    | _ => round_half_even (sum_Z productivity_scores)
                           (Z.of_nat (length productivity_scores))
    end in
  let weekly_categories := foldl merge_day ∅ rows in
  let* daily_breakdown := breakdown (u_id user) week_start week_end (seqZ 0 7) in
  WeeklyStats_save (u_id user) year week_number
    {| start_date := start_date weekly_stats; end_date := end_date weekly_stats;
       total_tasks_created := sum_nat (tasks_created <$> rows);
       total_tasks_completed := sum_nat (tasks_completed <$> rows);
       total_tasks_overdue := sum_nat (tasks_overdue <$> rows);
       total_hours_worked := sum_Z (hours_worked <$> rows);
       average_productivity_score := average;
       weekly_categories_data := weekly_categories;
       daily_breakdown := daily_breakdown;
       ws_created_at := ws_created_at weekly_stats;
       ws_updated_at := ws_updated_at weekly_stats |} ;;
  write (if created then MsgCreatedWeekly (u_id user) week_number year
         else MsgUpdatedWeekly (u_id user) week_number year).

Definition calculate_weekly_stats (users : list User) (end_date : Z) : M unit :=
  let week_start := (end_date - PyDate.weekday end_date)%Z in
  let week_end := (week_start + 6)%Z in
  let year := PyDate.year end_date in
  let week_number := PyDate.iso_week end_date in
  for_each users (weekly_stats_for week_start week_end year week_number).

(** [Command.handle] of [calculate_analytics]; [date] is the parsed
    [--date] option, [user_email] the [--user] option. *)
Definition handle (date : option Z) (user_email : option string) (days : Z)
    (calculate_weekly : bool) : M unit :=
  let* target_date := match date with Some d => ret d | None => today end in
  let* users := match user_email with
                | Some email => User_filter_email email
                | None => User_all
                end in
  let total_users := length users in
  write (MsgCalculating total_users) ;;
  for_each (seqZ 0 days)
    (fun i => calculate_daily_stats users (target_date - i)%Z) ;;
  (if calculate_weekly then calculate_weekly_stats users target_date else ret tt) ;;
  write (MsgCalculated total_users).

End calculate_analytics.

(* ===================================================================== *)
(** ** The retention pruner: [cleanup_analytics.Command] *)
(* ===================================================================== *)

Module cleanup_analytics.

(** [DailyStats.objects.filter(date__lt=daily_cutoff_date)] *)
Definition old_daily (cutoff : Z) (m : gmap (nat * Z) DailyStats)
  : gmap (nat * Z) DailyStats :=
  filter (fun kr => (kr.1.2 < cutoff)%Z) m.

(** [WeeklyStats.objects.filter(start_date__lt=weekly_cutoff_date)] *)
Definition old_weekly (cutoff : Z) (m : gmap (nat * Z * Z) WeeklyStats)
  : gmap (nat * Z * Z) WeeklyStats :=
  filter (fun kr => (start_date kr.2 < cutoff)%Z) m.

Definition DailyStats_count_old (cutoff : Z) : M nat :=
  orm op_DailyStats_query ;;
  let* s := get in ret (size (old_daily cutoff (daily s))).

Definition WeeklyStats_count_old (cutoff : Z) : M nat :=
  orm op_WeeklyStats_query ;;
  let* s := get in ret (size (old_weekly cutoff (weekly s))).

(** [old_daily_stats.delete()]: the number of rows deleted. *)
Definition DailyStats_delete_old (cutoff : Z) : M nat :=
  orm op_DailyStats_delete ;;
  let* s := get in
  modify (set_daily (filter (fun kr => ¬ (kr.1.2 < cutoff)%Z))) ;;
  ret (size (old_daily cutoff (daily s))).

Definition WeeklyStats_delete_old (cutoff : Z) : M nat :=
  orm op_WeeklyStats_delete ;;
  let* s := get in
  modify (set_weekly (filter (fun kr => ¬ (start_date kr.2 < cutoff)%Z))) ;;
  ret (size (old_weekly cutoff (weekly s))).

Definition when (b : bool) (m : M unit) : M unit := if b then m else ret tt.

(** [Command.handle]; [timedelta(weeks=w)] is [7 * w] days. *)
Definition handle (days_to_keep weeks_to_keep : Z) (dry_run confirm : bool) : M unit :=
  if negb dry_run && negb confirm then write MsgNeedFlag
  else
    let* today := today in
    let daily_cutoff_date := (today - days_to_keep)%Z in
    let weekly_cutoff_date := (today - 7 * (weeks_to_keep * 7))%Z in
    let* daily_count := DailyStats_count_old daily_cutoff_date in
    let* weekly_count := WeeklyStats_count_old weekly_cutoff_date in
    write (MsgFoundDaily daily_count daily_cutoff_date) ;;
    write (MsgFoundWeekly weekly_count weekly_cutoff_date) ;;
    if dry_run then
      write MsgDryRun ;;
      when (0 <? daily_count) (write (MsgWouldDeleteDaily daily_count)) ;;
      when (0 <? weekly_count) (write (MsgWouldDeleteWeekly weekly_count))
    else if negb confirm then ret tt
    else
      let* deleted_daily :=
        if 0 <? daily_count then
          let* n := DailyStats_delete_old daily_cutoff_date in
          write (MsgDeletedDaily n) ;; ret n
        else ret 0 in
      let* deleted_weekly :=
        if 0 <? weekly_count then
          let* n := WeeklyStats_delete_old weekly_cutoff_date in
          write (MsgDeletedWeekly n) ;; ret n
        else ret 0 in
      if (deleted_daily =? 0) && (deleted_weekly =? 0)
      then write MsgNothingToDelete
      else write (MsgCleanupCompleted deleted_daily deleted_weekly).

End cleanup_analytics.

(* ===================================================================== *)
(** ** The incremental updater: [Task.save] and [tasks/signals.py] *)
(* ===================================================================== *)

Module signals.

Definition set_completed_at (c : option datetime) (t : Task) : Task :=
  {| t_id := t_id t; t_user := t_user t; t_status := t_status t;
     t_category := t_category t; t_due_date := t_due_date t;
     t_actual_hours := t_actual_hours t; t_completed_at := c;
     t_created_at := t_created_at t |}.

Definition set_created_at (c : datetime) (t : Task) : Task :=
  {| t_id := t_id t; t_user := t_user t; t_status := t_status t;
     t_category := t_category t; t_due_date := t_due_date t;
     t_actual_hours := t_actual_hours t; t_completed_at := t_completed_at t;
     t_created_at := c |}.

(** [Task.objects.get(pk=pk)] *)
Definition Task_get (pk : nat) : M Task :=
  orm (op_Task_get pk) ;;
  let* s := get in
  match List.find (fun t => t_id t =? pk) (tasks s) with
  | Some t => ret t
  | None => raise Task_DoesNotExist
  end.

(** The write of [Model.save]: an UPDATE of the row with this primary
    key, or else an INSERT ([created_at] is [auto_now_add]).  Returns the
    instance and the [created] flag of [post_save]. *)
Definition Task_write (instance : Task) : M (Task * bool) :=
  orm (op_Task_write (t_id instance)) ;;
  let* s := get in
  if existsb (fun t => t_id t =? t_id instance) (tasks s) then
    modify (set_tasks (map (fun t => if t_id t =? t_id instance then instance else t))) ;;
    ret (instance, false)
  else
    let* t := ask_now in
    let instance := set_created_at t instance in
    modify (set_tasks (fun l => instance :: l)) ;;
    ret (instance, true).

(** The [pre_save] receiver.  The primary key is a UUID with a default,
    so [instance.pk] is always set. *)
Definition handle_task_completion (instance : Task) : M Task :=
  try_except
    (let* old_task := Task_get (t_id instance) in
     if bool_decide (t_status old_task ≠ COMPLETED)
        && bool_decide (t_status instance = COMPLETED) then
       let* t := ask_now in ret (set_completed_at (Some t) instance)
     else if bool_decide (t_status old_task = COMPLETED)
             && bool_decide (t_status instance ≠ COMPLETED) then
       ret (set_completed_at None instance)
     else ret instance)
    Task_DoesNotExist (ret instance).

(** The first [post_save] receiver. *)
Definition update_analytics_on_task_change (instance : Task) (created : bool)
  : M unit :=
  let* today := today in
  let* (daily_stats, stats_created) :=
    DailyStats_get_or_create (t_user instance) today daily_defaults in
  let n_created :=
    if created then tasks_created daily_stats + 1 else tasks_created daily_stats in
  let* n_completed :=
    match t_completed_at instance with
    | Some completed_at =>
        if bool_decide (t_status instance = COMPLETED)
           && (dt_date completed_at =? today)%Z
        then Task_count (t_user instance) (completed_on today)
        else ret (tasks_completed daily_stats)
    | None => ret (tasks_completed daily_stats)
    end in
  let score :=
    if 0 <? n_created then score_of n_completed n_created
    else productivity_score daily_stats in
  DailyStats_save (t_user instance) today
    {| tasks_created := n_created; tasks_completed := n_completed;
       tasks_overdue := tasks_overdue daily_stats;
       hours_worked := hours_worked daily_stats;
       productivity_score := score;
       categories_data := categories_data daily_stats;
       ds_created_at := ds_created_at daily_stats;
       ds_updated_at := ds_updated_at daily_stats |}.

(** [instance.category]: the related object, fetched when the instance
    has a category. *)
Definition instance_category (instance : Task) : M (option Category) :=
  match t_category instance with
  | Some c => orm (op_Category_fetch (c_id c)) ;; ret (Some c)
  | None => ret None
  end.

(** [category=instance.category] *)
Definition in_category (c : Category) (t : Task) : bool :=
  match t_category t with
  | Some c' => c_id c' =? c_id c
  | None => false
  end.

(** The second [post_save] receiver. *)
Definition update_category_analytics (instance : Task) (created : bool) : M unit :=
  let* category := instance_category instance in
  match category with
  | Some category =>
      let* today := today in
      try_except
        (let* daily_stats := DailyStats_get (t_user instance) today in
         let categories_data := categories_data daily_stats in
         let category_id := c_id category in
         let categories_data :=
           match categories_data !! category_id with
           | None => <[category_id := new_entry category]> categories_data
           | Some _ => categories_data
           end in
         let categories_data :=
           if created then alter (add_created 1) category_id categories_data
           else categories_data in
         let* completed_count :=
           Task_count (t_user instance)
             (fun t => in_category category t && completed_on today t) in
         let categories_data :=
           alter (set_completed completed_count) category_id categories_data in
         DailyStats_save (t_user instance) today
           {| tasks_created := tasks_created daily_stats;
              tasks_completed := tasks_completed daily_stats;
              tasks_overdue := tasks_overdue daily_stats;
              hours_worked := hours_worked daily_stats;
              productivity_score := productivity_score daily_stats;
              categories_data := categories_data;
              ds_created_at := ds_created_at daily_stats;
              ds_updated_at := ds_updated_at daily_stats |})
        DailyStats_DoesNotExist (ret tt)
  | None => ret tt
  end.

(** [post_save.send]: the receivers in the order they are connected;
    [Signal.send] lets an exception of a receiver through. *)
Definition post_save (instance : Task) (created : bool) : M unit :=
  update_analytics_on_task_change instance created ;;
  update_category_analytics instance created.

(** [Model.save]: [pre_save], the write, [post_save]. *)
Definition Model_save (instance : Task) : M unit :=
  let* instance := handle_task_completion instance in
  let* (instance, created) := Task_write instance in
  post_save instance created.

(** [Task.save] *)
Definition save (self : Task) : M unit :=
  let* t := ask_now in
  let self :=
    if bool_decide (t_status self = COMPLETED)
       && bool_decide (t_completed_at self = None)
    then set_completed_at (Some t) self
    else if bool_decide (t_status self ≠ COMPLETED)
    then set_completed_at None self
    else self in
  Model_save self.

End signals.

(* ===================================================================== *)
(** ** [Task]'s properties and the view that toggles a task *)
(* ===================================================================== *)

(** [a < b] on [datetime]s. *)
Definition datetime_ltb (a b : datetime) : bool :=
  (dt_date a <? dt_date b)%Z
  || ((dt_date a =? dt_date b)%Z && (dt_secs a <? dt_secs b)%Z).

(** The properties of [tasks.models.Task]. *)
Module task_models.

(** [Task.is_overdue] *)
Definition is_overdue (self : Task) : M bool :=
  match t_due_date self with
  | Some due_date =>
      if bool_decide (t_status self ≠ COMPLETED)
      then let* t := ask_now in ret (datetime_ltb due_date t)
      else ret false
  | None => ret false
  end.

(** [Task.is_due_today] *)
Definition is_due_today (self : Task) : M bool :=
  match t_due_date self with
  | Some due_date => let* today := today in ret (dt_date due_date =? today)%Z
  | None => ret false
  end.

End task_models.

(** [toggle_complete] of [tasks.views.TaskViewSet]; [task] is what
    [self.get_object()] returned, and the response is left out. *)
Module TaskViewSet.

Definition set_status (st : Status) (t : Task) : Task :=
  {| t_id := t_id t; t_user := t_user t; t_status := st;
     t_category := t_category t; t_due_date := t_due_date t;
     t_actual_hours := t_actual_hours t; t_completed_at := t_completed_at t;
     t_created_at := t_created_at t |}.

(** [toggle_complete] *)
Definition toggle_complete (task : Task) : M unit :=
  let* task :=
    if bool_decide (t_status task = COMPLETED) then
      ret (signals.set_completed_at None (set_status PENDING task))
    else
      let* t := ask_now in
      ret (signals.set_completed_at (Some t) (set_status COMPLETED task)) in
  signals.save task.

End TaskViewSet.

(* ===================================================================== *)
(** ** The read side: [analytics/views.py] *)
(* ===================================================================== *)

Module analytics_views.

(** [round(completed / total * 100, 1)] for [0 < total], in tenths of a
    percent.  The quotient is the exact one: where it lies halfway
    between two tenths the float of the code can fall on the other side
    (23 of 80 is 28.75, the code returns 28.7), so what is stated of a
    rate is its bounds and its 0 and 100 cases, which hold either way. *)
Definition rate_of (completed total : nat) : Z :=
  round_half_even (1000 * Z.of_nat completed) (Z.of_nat total).

(** [..._at__date__gte=d] *)
Definition on_or_after (d : Z) (t : option datetime) : bool :=
  match t with Some t => (d <=? dt_date t)%Z | None => false end.

(** The [stats] dictionary of [OverviewStatsView.get]; the two rates are
    in tenths of a percent. *)
Record OverviewStats := {
  os_total_tasks : nat;
  os_completed_tasks : nat;
  os_pending_tasks : nat;
  os_in_progress_tasks : nat;
  os_cancelled_tasks : nat;
  os_overdue_tasks : nat;
  os_due_today : nat;
  os_tasks_this_week : nat;
  os_completed_this_week : nat;
  os_completion_rate : Z;
  os_productivity_score : Z;
}.

(** [OverviewStatsView.get] for [request.user]. *)
Definition OverviewStatsView_get (user : nat) : M OverviewStats :=
  let* today := today in
  let week_start := (today - PyDate.weekday today)%Z in
  let* total_tasks := Task_count user (fun _ => true) in
  let* completed_tasks :=
    Task_count user (fun t => bool_decide (t_status t = COMPLETED)) in
  let* pending_tasks :=
    Task_count user (fun t => bool_decide (t_status t = PENDING)) in
  let* in_progress_tasks :=
    Task_count user (fun t => bool_decide (t_status t = IN_PROGRESS)) in
  let* cancelled_tasks :=
    Task_count user (fun t => bool_decide (t_status t = CANCELLED)) in
  let* overdue_tasks := Task_count user (overdue_on today) in
  let* due_today := Task_count user (fun t => on_date today (t_due_date t)) in
  let* tasks_this_week :=
    Task_count user (fun t => (week_start <=? dt_date (t_created_at t))%Z) in
  let* completed_this_week :=
    Task_count user (fun t => bool_decide (t_status t = COMPLETED)
                              && on_or_after week_start (t_completed_at t)) in
  let completion_rate :=
    if 0 <? total_tasks then rate_of completed_tasks total_tasks else 0%Z in
  ret {| os_total_tasks := total_tasks;
         os_completed_tasks := completed_tasks;
         os_pending_tasks := pending_tasks;
         os_in_progress_tasks := in_progress_tasks;
         os_cancelled_tasks := cancelled_tasks;
         os_overdue_tasks := overdue_tasks;
         os_due_today := due_today;
         os_tasks_this_week := tasks_this_week;
         os_completed_this_week := completed_this_week;
         os_completion_rate := completion_rate;
         os_productivity_score := Z.min completion_rate 1000 |}.

(** The rows of a stats queryset are ordered by a date. *)
Definition by_date {A} (x y : Z * A) : Prop := (x.1 <= y.1)%Z.

#[global] Instance by_date_dec {A} (x y : Z * A) : Decision (by_date x y).
Proof. unfold by_date. apply _. Defined.

#[global] Instance by_date_trans {A} : Transitive (@by_date A).
Proof. unfold by_date. intros x y z. lia. Qed.

#[global] Instance by_date_total {A} : Total (@by_date A).
Proof. unfold by_date. intros x y. lia. Qed.

(** [DailyStats.objects.filter(user=user, date__gte=since)] *)
Definition daily_since (user : nat) (since : Z) (m : gmap (nat * Z) DailyStats)
  : gmap (nat * Z) DailyStats :=
  filter (fun kr => kr.1.1 = user /\ (since <= kr.1.2)%Z) m.

(** [WeeklyStats.objects.filter(user=user, start_date__gte=since)] *)
Definition weekly_since (user : nat) (since : Z) (m : gmap (nat * Z * Z) WeeklyStats)
  : gmap (nat * Z * Z) WeeklyStats :=
  filter (fun kr => kr.1.1.1 = user /\ (since <= start_date kr.2)%Z) m.

(** [DailyStatsView.get_queryset], evaluated: the rows with their dates,
    in the order of [order_by('date')]; [days] is the parsed query
    parameter. *)
Definition DailyStatsView_get_queryset (user : nat) (days : Z)
  : M (list (Z * DailyStats)) :=
  let* today := today in
  let since := (today - days)%Z in
  orm op_DailyStats_query ;;
  let* s := get in
  ret (merge_sort by_date
         ((fun kr : nat * Z * DailyStats => (kr.1.2, kr.2))
            <$> map_to_list (daily_since user since (daily s)))).

(** [WeeklyStatsView.get_queryset], evaluated: the rows with their start
    dates, in the order of [order_by('start_date')]; [timedelta(weeks=w)]
    is [7 * w] days. *)
Definition WeeklyStatsView_get_queryset (user : nat) (weeks : Z)
  : M (list (Z * WeeklyStats)) :=
  let* today := today in
  let since := (today - 7 * weeks)%Z in
  orm op_WeeklyStats_query ;;
  let* s := get in
  ret (merge_sort by_date
         ((fun kr : nat * Z * Z * WeeklyStats => (start_date kr.2, kr.2))
            <$> map_to_list (weekly_since user since (weekly s)))).

(** One entry of the list [ProductivityTrendView.get] returns; the two
    rates are in tenths of a percent. *)
Record TrendEntry := {
  tr_date : Z;
  tr_tasks_created : nat;
  tr_tasks_completed : nat;
  tr_completion_rate : Z;
  tr_productivity_score : Z;
}.

(** The body of the loop of [ProductivityTrendView.get]. *)
Definition trend_entry (user : nat) (date : Z) : M TrendEntry :=
  let* created_count := Task_count user (created_on date) in
  let* completed_count := Task_count user (completed_on date) in
  let completion_rate :=
    if 0 <? created_count then rate_of completed_count created_count else 0%Z in
  ret {| tr_date := date;
         tr_tasks_created := created_count;
         tr_tasks_completed := completed_count;
         tr_completion_rate := completion_rate;
         tr_productivity_score := Z.min completion_rate 1000 |}.

Fixpoint trends (user : nat) (today : Z) (offsets : list Z) : M (list TrendEntry) :=
  match offsets with
  | [] => ret []
  | i :: offsets' =>
      let* entry := trend_entry user (today - i)%Z in
      let* rest := trends user today offsets' in
      ret (entry :: rest)
  end.

(** [ProductivityTrendView.get]: [for i in range(days - 1, -1, -1)]. *)
Definition ProductivityTrendView_get (user : nat) (days : Z) : M (list TrendEntry) :=
  let* today := today in
  trends user today (reverse (seqZ 0 days)).

End analytics_views.

(* ===================================================================== *)
(** ** Specification-level readings of the code *)
(* ===================================================================== *)

(** The number of [user]'s tasks with status completed and [completed_at]
    on [d]. *)
Definition recount_completed (ts : list Task) (user : nat) (d : Z) : nat :=
  length (List.filter (fun t => (t_user t =? user) && completed_on d t) ts).

(** The number of [user]'s tasks with [created_at] on [d]. *)
Definition recount_created (ts : list Task) (user : nat) (d : Z) : nat :=
  length (List.filter (fun t => (t_user t =? user) && created_on d t) ts).

(** The productivity score of a row, in hundredths, is within [0, 100]
    and is zero when no task was created. *)
Definition score_ok (r : DailyStats) : Prop :=
  (0 <= productivity_score r <= 10000)%Z
  /\ (tasks_created r = 0 -> productivity_score r = 0%Z).

(** Every stored daily row satisfies [score_ok]. *)
Definition scores_ok (m : gmap (nat * Z) DailyStats) : Prop :=
  forall k r, m !! k = Some r -> score_ok r.

(** The guard of the first receiver: the saved task is completed, today. *)
Definition completed_today (today : Z) (instance : Task) : bool :=
  bool_decide (t_status instance = COMPLETED) && on_date today (t_completed_at instance).

(** The row of today the first receiver starts from: the stored one, or
    the defaults. *)
Definition row_before (E : env) (user : nat) (s : db) : DailyStats :=
  default (stamp_daily (now E) (now E) daily_defaults)
          (daily s !! (user, dt_date (now E))).

(** The row the first receiver writes over [r0]. *)
Definition changed_row (ts : list Task) (E : env) (instance : Task) (created : bool)
    (r0 : DailyStats) : DailyStats :=
  let n_created := if created then tasks_created r0 + 1 else tasks_created r0 in
  let n_completed :=
    if completed_today (dt_date (now E)) instance
    then recount_completed ts (t_user instance) (dt_date (now E))
    else tasks_completed r0 in
  {| tasks_created := n_created; tasks_completed := n_completed;
     tasks_overdue := tasks_overdue r0; hours_worked := hours_worked r0;
     productivity_score :=
       if 0 <? n_created then score_of n_completed n_created
       else productivity_score r0;
     categories_data := categories_data r0;
     ds_created_at := ds_created_at r0; ds_updated_at := now E |}.

(** A row with its [categories_data] replaced, as the second receiver
    writes it. *)
Definition recategorised (cd : gmap nat CatEntry) (t : datetime) (r : DailyStats)
  : DailyStats :=
  {| tasks_created := tasks_created r; tasks_completed := tasks_completed r;
     tasks_overdue := tasks_overdue r; hours_worked := hours_worked r;
     productivity_score := productivity_score r; categories_data := cd;
     ds_created_at := ds_created_at r; ds_updated_at := t |}.

(** The stored overdue count and hours of a key; those of the defaults
    when there is no row. *)
Definition overdue_and_hours (m : gmap (nat * Z) DailyStats) (k : nat * Z) : nat * Z :=
  match m !! k with
  | Some r => (tasks_overdue r, hours_worked r)
  | None => (0, 0%Z)
  end.

(** What the incremental updater leaves alone when it works on the row
    of key [k]: the overdue count and the hours of every key, the row
    itself and its [created_at] wherever there was one, and every other
    key altogether. *)
Definition incremental_frame (k : nat * Z) (m m' : gmap (nat * Z) DailyStats) : Prop :=
  forall k',
    overdue_and_hours m' k' = overdue_and_hours m k'
    /\ (forall r, m !! k' = Some r ->
          exists r', m' !! k' = Some r' /\ ds_created_at r' = ds_created_at r)
    /\ (k' <> k -> m' !! k' = m !! k').

(** What [Task.save] does to the instance before it calls [Model.save]. *)
Definition save_prepare (t : datetime) (self : Task) : Task :=
  if bool_decide (t_status self = COMPLETED) && bool_decide (t_completed_at self = None)
  then signals.set_completed_at (Some t) self
  else if bool_decide (t_status self ≠ COMPLETED)
  then signals.set_completed_at None self
  else self.

(** The pre-save receiver and the write of [Model.save]: all of a task
    save that comes before the incremental updater. *)
Definition save_until_written (self : Task) : M (Task * bool) :=
  let* instance := signals.handle_task_completion self in
  signals.Task_write instance.

(** The daily row the batch aggregator computes for [user] and [d] from
    the task table, with the given timestamps. *)
Definition recomputed (ts : list Task) (user : nat) (d : Z) (created updated : datetime)
  : DailyStats :=
  let mine P := List.filter (fun t => (t_user t =? user) && P t) ts in
  let n_created := length (mine (created_on d)) in
  let n_completed := length (mine (completed_on d)) in
  {| tasks_created := n_created;
     tasks_completed := n_completed;
     tasks_overdue := length (mine (overdue_on d));
     hours_worked := sum_hours (mine (completed_with_hours d));
     productivity_score :=
       if 0 <? n_created then score_of n_completed n_created else 0%Z;
     categories_data :=
       foldl calculate_analytics.count_category
         (foldl calculate_analytics.seed_category ∅ (mine (created_on d)))
         (mine (completed_on d));
     ds_created_at := created; ds_updated_at := updated |}.

(** The daily step for [user] and [d] goes through: no ORM call of it
    fails and the hours fit their column. *)
Definition daily_step_ok (E : env) (ts : list Task) (user : nat) (d : Z) : bool :=
  bool_decide (fault E (op_DailyStats_get_or_create user d) = None)
  && bool_decide (fault E (op_Task_query user) = None)
  && bool_decide (fault E (op_DailyStats_save user d) = None)
  && decimal_fits 5 (hours_worked (recomputed ts user d (now E) (now E))).

(** The state a daily step that goes through leaves. *)
Definition daily_written (E : env) (d : Z) (user : nat) (s : db) : db :=
  let k := (user, d) in
  let created_at := match daily s !! k with
                    | Some r => ds_created_at r
                    | None => now E
                    end in
  set_stdout (fun out => out ++ [match daily s !! k with
                                 | Some _ => MsgUpdatedDaily user d
                                 | None => MsgCreatedDaily user d
                                 end])
    (set_daily (insert k (recomputed (tasks s) user d created_at (now E))) s).

(** The users a run works on, and its target date. *)
Definition selected_users (user_email : option string) (s : db) : list User :=
  match user_email with
  | Some email => List.filter (fun u => bool_decide (u_email u = email)) (users s)
  | None => users s
  end.

Definition target_of (date : option Z) (E : env) : Z :=
  match date with Some d => d | None => dt_date (now E) end.

(** The database a run starts its loops from. *)
Definition announced (user_email : option string) (s : db) : db :=
  set_stdout (fun out => out ++ [MsgCalculating (length (selected_users user_email s))]) s.

(** The loop over the days of [Command.handle]. *)
Definition daily_phase (users : list User) (target_date days : Z) : M unit :=
  for_each (seqZ 0 days)
    (fun i => calculate_analytics.calculate_daily_stats users (target_date - i)%Z).

(** The daily row of key [k] is the one recomputed from the task table
    [ts] (whatever its timestamps). *)
Definition recomputed_at (ts : list Task) (m : gmap (nat * Z) DailyStats) (k : nat * Z)
  : Prop :=
  exists r, m !! k = Some r
            /\ r = recomputed ts k.1 k.2 (ds_created_at r) (ds_updated_at r).

(** The week of a target date as [calculate_weekly_stats] computes it:
    Monday, Sunday, and the [year] and [week_number] of the key. *)
Definition week_start (d : Z) : Z := (d - PyDate.weekday d)%Z.
Definition week_end (d : Z) : Z := (week_start d + 6)%Z.

(** The rows of a week that [DailyStats_range] returns. *)
Definition week_rows (m : gmap (nat * Z) DailyStats) (user : nat) (a b : Z)
  : list (Z * DailyStats) :=
  omap (fun d => (fun r => (d, r)) <$> m !! (user, d)) (reverse (seqZ a (b - a + 1))).

(** The day of the week that the [i]-th query of [breakdown] returns. *)
Definition week_day (m : gmap (nat * Z) DailyStats) (user : nat) (a b i : Z)
  : option DailyStats :=
  if (a <=? a + i)%Z && (a + i <=? b)%Z then m !! (user, (a + i)%Z) else None.

Definition average_score (rows : list DailyStats) : Z :=
  let productivity_scores :=
    List.filter (fun x => (0 <? x)%Z) (productivity_score <$> rows) in
  match productivity_scores with
  | [] => 0%Z
  | _ => round_half_even (calculate_analytics.sum_Z productivity_scores)
                         (Z.of_nat (length productivity_scores))
  end.

(** The weekly row the batch aggregator computes for [user] from the
    daily rows of [a .. b], over the dates and timestamps given. *)
Definition rolled_up (m : gmap (nat * Z) DailyStats) (user : nat) (a b : Z)
    (start_ end_ : Z) (created updated : datetime) : WeeklyStats :=
  let rows := snd <$> week_rows m user a b in
  {| start_date := start_; end_date := end_;
     total_tasks_created := calculate_analytics.sum_nat (tasks_created <$> rows);
     total_tasks_completed := calculate_analytics.sum_nat (tasks_completed <$> rows);
     total_tasks_overdue := calculate_analytics.sum_nat (tasks_overdue <$> rows);
     total_hours_worked := calculate_analytics.sum_Z (hours_worked <$> rows);
     average_productivity_score := average_score rows;
     weekly_categories_data := foldl calculate_analytics.merge_day ∅ rows;
     daily_breakdown :=
       (fun i => calculate_analytics.breakdown_entry (a + i) (week_day m user a b i))
         <$> seqZ 0 7;
     ws_created_at := created; ws_updated_at := updated |}.

(** The weekly step for [user] goes through. *)
Definition weekly_step_ok (E : env) (m : gmap (nat * Z) DailyStats) (user : nat)
    (a b year week_number : Z) : bool :=
  bool_decide (fault E (op_WeeklyStats_get_or_create user year week_number) = None)
  && bool_decide (fault E op_DailyStats_query = None)
  && bool_decide (fault E (op_WeeklyStats_save user year week_number) = None)
  && decimal_fits 6 (total_hours_worked (rolled_up m user a b a b (now E) (now E)))
  && decimal_fits 5
       (average_productivity_score (rolled_up m user a b a b (now E) (now E))).

(** The state a weekly step that goes through leaves: an existing row
    keeps its [start_date], [end_date] and [created_at]. *)
Definition weekly_written (E : env) (a b year week_number : Z) (user : nat) (s : db)
  : db :=
  let k := (user, year, week_number) in
  let row :=
    match weekly s !! k with
    | Some r => rolled_up (daily s) user a b (start_date r) (end_date r)
                  (ws_created_at r) (now E)
    | None => rolled_up (daily s) user a b a b (now E) (now E)
    end in
  set_stdout (fun out => out ++ [match weekly s !! k with
                                 | Some _ => MsgUpdatedWeekly user week_number year
                                 | None => MsgCreatedWeekly user week_number year
                                 end])
    (set_weekly (insert k row) s).

(** The weekly row of [user] under the key of [target] is the roll-up of
    the daily rows [m] (whatever its dates and timestamps). *)
Definition rolled_up_at (m : gmap (nat * Z) DailyStats)
    (wm : gmap (nat * Z * Z) WeeklyStats) (user : nat) (target : Z) : Prop :=
  exists r, wm !! (user, PyDate.year target, PyDate.iso_week target) = Some r
    /\ r = rolled_up m user (week_start target) (week_end target)
             (start_date r) (end_date r) (ws_created_at r) (ws_updated_at r).

(** A row with its [updated_at] forgotten: what is left is every other
    column. *)
Definition forget_updated_daily (r : DailyStats) : DailyStats :=
  stamp_daily (ds_created_at r) (at_day 0) r.

Definition forget_updated_weekly (r : WeeklyStats) : WeeklyStats :=
  stamp_weekly (ws_created_at r) (at_day 0) r.

(** What the pruner writes on a dry run that meets no failure. *)
Definition dry_run_report (today days weeks : Z) (s : db) : list message :=
  let nd := size (cleanup_analytics.old_daily (today - days) (daily s)) in
  let nw := size (cleanup_analytics.old_weekly (today - 7 * (weeks * 7)) (weekly s)) in
  [MsgFoundDaily nd (today - days); MsgFoundWeekly nw (today - 7 * (weeks * 7));
   MsgDryRun]
  ++ (if 0 <? nd then [MsgWouldDeleteDaily nd] else [])
  ++ (if 0 <? nw then [MsgWouldDeleteWeekly nw] else []).

(** The task is filed under the category with this id. *)
Definition in_category_id (cid : nat) (t : Task) : bool :=
  match t_category t with
  | Some c => c_id c =? cid
  | None => false
  end.

(** [user]'s tasks that satisfy [P]. *)
Definition tasks_of (ts : list Task) (user : nat) (P : Task -> bool) : list Task :=
  List.filter (fun t => (t_user t =? user) && P t) ts.

(** The two counters of a [categories_data] entry. *)
Definition entry_counts (e : CatEntry) : nat * nat :=
  (ce_tasks_created e, ce_tasks_completed e).

(** A stored score (in hundredths) follows the completion rate of the two
    counters, capped at 100, for [0 < created]: it is 0 when nothing is
    completed, 100 when at least as many tasks are completed as were
    created, and otherwise within one hundredth of
    [completed / created * 100].  (The exact value depends on how the
    float quotient is rounded; this much does not.) *)
Definition near_rate (score : Z) (completed created : nat) : Prop :=
  (completed = 0 -> score = 0%Z)
  /\ (created <= completed -> score = 10000%Z)
  /\ (completed <= created ->
      (Z.abs (score * Z.of_nat created - 10000 * Z.of_nat completed)
       <= Z.of_nat created)%Z).

(** The two counters of an entry that may be missing, and the sums of the
    counters of a list of entries. *)
Definition counts_of (e : option CatEntry) : nat * nat :=
  from_option entry_counts (0, 0) e.

Definition add_counts (p q : nat * nat) : nat * nat := (p.1 + q.1, p.2 + q.2).

Definition sum_counts (es : list CatEntry) : nat * nat :=
  (calculate_analytics.sum_nat (ce_tasks_created <$> es),
   calculate_analytics.sum_nat (ce_tasks_completed <$> es)).

(** The entries of a category in the daily rows of a user over the given
    dates, in their order. *)
Definition category_entries (m : gmap (nat * Z) DailyStats) (user cid : nat)
    (dates : list Z) : list CatEntry :=
  omap (fun d => m !! (user, d) ≫= fun row => categories_data row !! cid) dates.

(** The stored task with this primary key, as [Task.objects.get] finds
    it. *)
Definition stored (ts : list Task) (pk : nat) : option Task :=
  List.find (fun t => t_id t =? pk) ts.

(** The instance as the pre-save receiver leaves it when the lookup of
    the stored task does not fail. *)
Definition pre_saved (ts : list Task) (t : datetime) (instance : Task) : Task :=
  match stored ts (t_id instance) with
  | Some old_task =>
      if bool_decide (t_status old_task ≠ COMPLETED)
         && bool_decide (t_status instance = COMPLETED)
      then signals.set_completed_at (Some t) instance
      else if bool_decide (t_status old_task = COMPLETED)
              && bool_decide (t_status instance ≠ COMPLETED)
      then signals.set_completed_at None instance
      else instance
  | None => instance
  end.

(** The save is the first one that finds the task stored and not
    completed, so that a completed instance is a task just completed. *)
Definition just_completed (ts : list Task) (self : Task) : bool :=
  match stored ts (t_id self) with
  | Some old_task => bool_decide (t_status old_task ≠ COMPLETED)
  | None => false
  end.

(* ===================================================================== *)
(** ** Sample data *)
(* ===================================================================== *)

(** 2026-11-06, a Friday. *)
Definition day0 : Z := PyDate.ymd2ord 2026 11 6.

Definition empty_db : db :=
  {| users := []; tasks := []; daily := ∅; weekly := ∅; stdout := [] |}.

Definition sample_weekly (start : Z) : WeeklyStats :=
  {| start_date := start; end_date := start + 6;
     total_tasks_created := 3; total_tasks_completed := 2;
     total_tasks_overdue := 0; total_hours_worked := 0;
     average_productivity_score := 6667; weekly_categories_data := ∅;
     daily_breakdown := []; ws_created_at := at_day (start + 6);
     ws_updated_at := at_day (start + 6) |}.

(** A weekly row that starts 403 days before [day0] (a Monday), more than
    the 52 weeks (364 days) the pruner is asked to keep. *)
Definition old_week_db : db :=
  {| users := []; tasks := []; daily := ∅;
     weekly := {[ (1, 2025%Z, 40%Z) := sample_weekly (day0 - 403) ]};
     stdout := [] |}.

Definition work : Category := {| c_id := 7; c_name := "Work"; c_color := "#3B82F6" |}.

Definition new_task (id user : nat) (st : Status) (c : option Category)
    (hours : option Z) : Task :=
  {| t_id := id; t_user := user; t_status := st; t_category := c;
     t_due_date := None; t_actual_hours := hours; t_completed_at := None;
     t_created_at := at_day 0 |}.

(** An environment in which the database layer fails when the row of
    [day0] of user 1 is fetched or created. *)
Definition stats_down : env :=
  {| now := at_day day0;
     fault := fun op => match op with
                        | op_DailyStats_get_or_create 1 _ => Some OperationalError
                        | _ => None
                        end |}.

(** An environment in which the database layer fails when a daily row of
    user 1 is saved. *)
Definition save_down : env :=
  {| now := at_day day0;
     fault := fun op => match op with
                        | op_DailyStats_save 1 _ => Some OperationalError
                        | _ => None
                        end |}.

(** User 1 has completed one task on [day0]. *)
Definition one_done_db : db :=
  final (signals.save (new_task 1 1 COMPLETED (Some work) None) (calm (at_day day0)) empty_db).

(** The same task as it is stored, reopened. *)
Definition reopened_task : Task :=
  {| t_id := 1; t_user := 1; t_status := PENDING; t_category := Some work;
     t_due_date := None; t_actual_hours := None;
     t_completed_at := Some (at_day day0); t_created_at := at_day day0 |}.

Definition user1 : User := {| u_id := 1; u_email := "ada@example.org" |}.
Definition user2 : User := {| u_id := 2; u_email := "bob@example.org" |}.

Definition done_task (id user : nat) (d : Z) (hours : Z) : Task :=
  {| t_id := id; t_user := user; t_status := COMPLETED; t_category := None;
     t_due_date := None; t_actual_hours := Some hours;
     t_completed_at := Some (at_day d); t_created_at := at_day d |}.

(** User 1 has logged 600 hours on each of two tasks completed on [day0]
    (each fits [actual_hours], their sum does not fit [hours_worked]);
    user 2 has created one task on [day0]. *)
Definition long_hours_db : db :=
  {| users := [user1; user2];
     tasks := [done_task 1 1 day0 60000; done_task 2 1 day0 60000;
               signals.set_created_at (at_day day0) (new_task 3 2 PENDING None None)];
     daily := ∅; weekly := ∅; stdout := [] |}.

(** User 1 created two tasks on [day0] and completed one of them. *)
Definition two_tasks_db : db :=
  {| users := [user1; user2];
     tasks := [done_task 1 1 day0 150;
               signals.set_created_at (at_day day0) (new_task 2 1 PENDING (Some work) None)];
     daily := ∅; weekly := ∅; stdout := [] |}.

(** A second later than [at_day d]. *)
Definition a_second_after (d : Z) : datetime := {| dt_date := d; dt_secs := 1 |}.

(** An environment in which the database layer fails when weekly rows are
    deleted. *)
Definition weekly_delete_down : env :=
  {| now := at_day day0;
     fault := fun op => match op with
                        | op_WeeklyStats_delete => Some OperationalError
                        | _ => None
                        end |}.

(** A daily row of user 1 dated 100 days before [day0], and the weekly
    row of [old_week_db]. *)
Definition stale_db : db :=
  {| users := []; tasks := [];
     daily := {[ (1, (day0 - 100)%Z) :=
                   stamp_daily (at_day (day0 - 100)) (at_day (day0 - 100)) daily_defaults ]};
     weekly := weekly old_week_db;
     stdout := [] |}.

(** The task of [one_done_db] as it is stored. *)
Definition one_done_task : Task :=
  {| t_id := 1; t_user := 1; t_status := COMPLETED; t_category := Some work;
     t_due_date := None; t_actual_hours := None;
     t_completed_at := Some (at_day day0); t_created_at := at_day day0 |}.

(* ===================================================================== *)
(** ** Monad laws used below *)
(* ===================================================================== *)

Lemma bind_Ok {A B} (m : M A) (k : A -> M B) E s b s' :
  bind m k E s = Ok b s' <-> exists a s1, m E s = Ok a s1 /\ k a E s1 = Ok b s'.
Proof.
  unfold bind. split.
  - destruct (m E s) as [a s1|e s1]; [eauto | discriminate].
  - intros (a & s1 & -> & H). exact H.
Qed.

Lemma bind_Raise {A B} (m : M A) (k : A -> M B) E s e s' :
  bind m k E s = Raise e s' <->
  m E s = Raise e s' \/ exists a s1, m E s = Ok a s1 /\ k a E s1 = Raise e s'.
Proof.
  unfold bind. split.
  - destruct (m E s) as [a s1|e1 s1]; intros H; [right; eauto | left; by inversion H].
  - intros [-> | (a & s1 & -> & H)]; done.
Qed.

Lemma for_each_app {X} (l1 l2 : list X) (body : X -> M unit) E s :
  for_each (l1 ++ l2) body E s =
  match for_each l1 body E s with
  | Ok _ s1 => for_each l2 body E s1
  | Raise e s1 => Raise e s1
  end.
Proof.
  revert s. induction l1 as [|x l1 IH]; intros s; simpl; [done|].
  unfold bind. destruct (body x E s) as [[] s1|e s1]; [apply IH | done].
Qed.

(** An invariant of the loop body is an invariant of the loop, whatever
    its outcome. *)
Lemma for_each_final {X} (I : db -> Prop) (l : list X) (body : X -> M unit) E s :
  (forall x s, x ∈ l -> I s -> I (final (body x E s))) ->
  I s -> I (final (for_each l body E s)).
Proof.
  revert s. induction l as [|x l IH]; intros s Hbody Hs; simpl; [done|].
  unfold bind. pose proof (Hbody x s (list_elem_of_here _ _) Hs) as H1.
  destruct (body x E s) as [[] s1|e s1]; simpl in *; [|done].
  apply IH; [|done]. intros y s2 Hy. apply Hbody. by apply list_elem_of_further.
Qed.

(* ===================================================================== *)
(** ** The retention pruner *)
(* ===================================================================== *)

(** C9.  The pruner changes the stats tables only when it is called with
    [confirm] and without [dry_run]; on a dry run it leaves both tables as
    they are and reports the number of daily and weekly rows it would
    delete; with neither flag it writes one warning and does nothing
    else. *)
Theorem cleanup_two_key_gate (E : env) (days weeks : Z) (dry_run confirm : bool)
    (s : db) :
  let o := cleanup_analytics.handle days weeks dry_run confirm E s in
  ((daily (final o) <> daily s \/ weekly (final o) <> weekly s) ->
     confirm = true /\ dry_run = false)
  /\ (dry_run = true ->
        daily (final o) = daily s /\ weekly (final o) = weekly s /\
        tasks (final o) = tasks s /\
        (fault E op_DailyStats_query = None ->
         fault E op_WeeklyStats_query = None ->
         o = Ok tt (set_stdout
                      (fun out => out ++ dry_run_report (dt_date (now E)) days weeks s) s)))
  /\ (dry_run = false -> confirm = false ->
        o = Ok tt (set_stdout (fun out => out ++ [MsgNeedFlag]) s) /\
        is_warning MsgNeedFlag = true).
Proof.
  assert (Hdry : dry_run = true ->
    let o := cleanup_analytics.handle days weeks dry_run confirm E s in
    daily (final o) = daily s /\ weekly (final o) = weekly s /\
    tasks (final o) = tasks s /\
    (fault E op_DailyStats_query = None ->
     fault E op_WeeklyStats_query = None ->
     o = Ok tt (set_stdout
                  (fun out => out ++ dry_run_report (dt_date (now E)) days weeks s) s))).
  { intros ->. unfold cleanup_analytics.handle, dry_run_report. cbn [negb andb].
    unfold today, cleanup_analytics.DailyStats_count_old,
      cleanup_analytics.WeeklyStats_count_old, cleanup_analytics.when,
      write, orm, bind, ret, get, modify, ask_now. cbv beta.
    destruct (fault E op_DailyStats_query); [simpl; repeat split; first [reflexivity | intros; discriminate]|].
    destruct (fault E op_WeeklyStats_query); [simpl; repeat split; first [reflexivity | intros; discriminate]|].
    simpl.
    destruct (0 <? size (cleanup_analytics.old_daily _ _));
      destruct (0 <? size (cleanup_analytics.old_weekly _ _)); simpl;
      repeat split; intros _ _; unfold set_stdout; simpl;
      rewrite <- ?app_assoc; simpl; reflexivity. }
  intros o. split; [|split].
  - destruct dry_run.
    + destruct (Hdry eq_refl) as (Hd & Hw & _). fold o in Hd, Hw.
      intros [H|H]; congruence.
    + destruct confirm; [done|]. subst o. simpl. intros [H|H]; done.
  - exact Hdry.
  - intros -> ->. done.
Qed.

(** X1.  A confirmed run that meets no failure deletes exactly the daily
    rows dated before [today - days_to_keep]. *)
Lemma cleanup_daily_cutoff (t : datetime) (days weeks : Z) (s : db) :
  daily (final (cleanup_analytics.handle days weeks false true (calm t) s)) =
  filter (fun kr => ¬ (kr.1.2 < dt_date t - days)%Z) (daily s).
Proof.
  unfold cleanup_analytics.handle. cbn [negb andb].
  unfold today, cleanup_analytics.DailyStats_count_old,
    cleanup_analytics.WeeklyStats_count_old,
    cleanup_analytics.DailyStats_delete_old, cleanup_analytics.WeeklyStats_delete_old,
    write, orm, bind, ret, get, modify, ask_now. simpl.
  assert (Hkeep : size (cleanup_analytics.old_daily (dt_date t - days) (daily s)) = 0 ->
    daily s = filter (fun kr => ¬ (kr.1.2 < dt_date t - days)%Z) (daily s)).
  { intros H0. apply map_size_empty_iff in H0.
    symmetry. apply map_filter_id. intros k r Hk. simpl.
    apply (map_empty_filter_1 _ _ H0 k r Hk). }
  destruct (0 <? size (cleanup_analytics.old_daily _ _)) eqn:Hd; simpl;
    destruct (0 <? size (cleanup_analytics.old_weekly _ _)); simpl;
    repeat (match goal with |- context [if ?b then _ else _] => destruct b end);
    simpl; first [reflexivity | apply Hkeep; apply Nat.ltb_ge in Hd; lia].
Qed.

(** The weekly cutoff the code computes is [weeks_to_keep * 7] weeks, that
    is 49 days for every week asked for: a confirmed run deletes exactly
    the weekly rows that start before [today - 49 * weeks_to_keep]. *)
Lemma cleanup_weekly_cutoff (t : datetime) (days weeks : Z) (s : db) :
  weekly (final (cleanup_analytics.handle days weeks false true (calm t) s)) =
  filter (fun kr => ¬ (start_date kr.2 < dt_date t - 49 * weeks)%Z) (weekly s).
Proof.
  unfold cleanup_analytics.handle. cbn [negb andb].
  unfold today, cleanup_analytics.DailyStats_count_old,
    cleanup_analytics.WeeklyStats_count_old,
    cleanup_analytics.DailyStats_delete_old, cleanup_analytics.WeeklyStats_delete_old,
    write, orm, bind, ret, get, modify, ask_now. simpl.
  replace (7 * (weeks * 7))%Z with (49 * weeks)%Z by lia.
  assert (Hkeep : size (cleanup_analytics.old_weekly (dt_date t - 49 * weeks) (weekly s)) = 0 ->
    weekly s = filter (fun kr => ¬ (start_date kr.2 < dt_date t - 49 * weeks)%Z) (weekly s)).
  { intros H0. apply map_size_empty_iff in H0.
    symmetry. apply map_filter_id. intros k r Hk. simpl.
    apply (map_empty_filter_1 _ _ H0 k r Hk). }
  destruct (0 <? size (cleanup_analytics.old_daily _ _)); simpl;
    destruct (0 <? size (cleanup_analytics.old_weekly _ _)) eqn:Hw; simpl;
    repeat (match goal with |- context [if ?b then _ else _] => destruct b end);
    simpl; first [reflexivity | apply Hkeep; apply Nat.ltb_ge in Hw; lia].
Qed.

(** C3, at the failing input.  Asked to keep 52 weeks, a confirmed run on
    2026-11-06 computes the cutoff 2548 days back and keeps a weekly row
    that starts 403 days back, before the 364-day cutoff of the claim. *)
Lemma cleanup_keeps_week_older_than_52_weeks :
  let o := cleanup_analytics.handle 90 52 false true (calm (at_day day0)) old_week_db in
  weekly (final o) = weekly old_week_db
  /\ stdout (final o) =
       [MsgFoundDaily 0 (day0 - 90); MsgFoundWeekly 0 (day0 - 2548); MsgNothingToDelete]
  /\ weekly old_week_db !! (1, 2025%Z, 40%Z) = Some (sample_weekly (day0 - 403))
  /\ (start_date (sample_weekly (day0 - 403)) < day0 - 52 * 7)%Z.
Proof. vm_compute. repeat split; reflexivity. Qed.

(* ===================================================================== *)
(** ** The incremental updater *)
(* ===================================================================== *)

Import signals.

Ltac munfold :=
  unfold DailyStats_get_or_create, DailyStats_get, DailyStats_save, Task_count,
    Task_filter, today, write, orm, try_except, bind, ret, raise, get, modify,
    ask_now; cbn beta.

Lemma round_half_even_bounds (num den : Z) :
  (0 <= num <= den * 10000)%Z -> (0 < den)%Z ->
  (0 <= round_half_even num den <= 10000)%Z.
Proof.
  intros Hn Hd. unfold round_half_even. cbv zeta.
  pose proof (Z.div_mod num den ltac:(lia)) as Hdm.
  pose proof (Z.mod_pos_bound num den Hd) as Hm.
  assert (0 <= num / den)%Z by (apply Z.div_pos; lia).
  assert (num / den <= 10000)%Z by (apply Z.div_le_upper_bound; lia).
  assert (num / den = 10000 -> num mod den = 0)%Z by nia.
  repeat case_match; lia.
Qed.

Lemma score_of_bounds (completed created : nat) :
  0 < created -> (0 <= score_of completed created <= 10000)%Z.
Proof.
  intros Hc. unfold score_of. destruct (completed <=? created) eqn:Hle; [|lia].
  apply Nat.leb_le in Hle. apply round_half_even_bounds; lia.
Qed.

Lemma score_fits (v : Z) : (0 <= v <= 10000)%Z -> decimal_fits 5 v = true.
Proof. intros H. unfold decimal_fits. apply Z.ltb_lt. change (10 ^ 5)%Z with 100000%Z. lia. Qed.

(** The first receiver, outcome by outcome: it fails before or after the
    row of today is created, or it writes [changed_row]. *)
Lemma update_analytics_on_task_change_cases E instance created s :
  let k := (t_user instance, dt_date (now E)) in
  let o := update_analytics_on_task_change instance created E s in
  let r0 := row_before E (t_user instance) s in
  (exists e, o = Raise e s)
  \/ (exists e, o = Raise e (set_daily (insert k r0) s))
  \/ o = Ok tt (set_daily (insert k (changed_row (tasks s) E instance created r0)) s).
Proof.
  intros k o r0. subst o.
  unfold update_analytics_on_task_change. munfold.
  destruct (fault E (op_DailyStats_get_or_create _ _)); [left; eauto|].
  assert (Hkey : forall r' : DailyStats,
            set_daily (insert k r') (set_daily (insert k r0) s) = set_daily (insert k r') s).
  { intros r'. unfold set_daily. simpl. by rewrite insert_insert_eq. }
  assert (Hid : is_Some (daily s !! k) -> set_daily (insert k r0) s = s).
  { intros [r Hr]. unfold set_daily. destruct s; simpl in *. f_equal.
    apply insert_id. subst r0. unfold row_before. fold k. simpl. by rewrite Hr. }
  unfold changed_row, completed_today, on_date. fold k.
  destruct (daily s !! k) as [r|] eqn:Hk.
  - assert (r0 = r) as -> by (subst r0; unfold row_before; fold k; by rewrite Hk).
    rewrite Hid in * by eauto. clear Hid Hkey.
    destruct (t_completed_at instance) as [c|]; simpl.
    + destruct (bool_decide (t_status instance = COMPLETED)); simpl.
      * destruct (dt_date c =? dt_date (now E))%Z; simpl.
        -- destruct (fault E (op_Task_query _)); [left; eauto|]. simpl.
           destruct (fault E (op_DailyStats_save _ _)); [left; eauto|]. simpl.
           destruct (decimal_fits 5 (hours_worked r) && _); simpl; [right; right; done|left; eauto].
        -- destruct (fault E (op_DailyStats_save _ _)); [left; eauto|]. simpl.
           destruct (decimal_fits 5 (hours_worked r) && _); simpl; [right; right; done|left; eauto].
      * destruct (fault E (op_DailyStats_save _ _)); [left; eauto|]. simpl.
        destruct (decimal_fits 5 (hours_worked r) && _); simpl; [right; right; done|left; eauto].
    + rewrite andb_false_r.
      destruct (fault E (op_DailyStats_save _ _)); [left; eauto|]. simpl.
      destruct (decimal_fits 5 (hours_worked r) && _); simpl; [right; right; done|left; eauto].
  - assert (r0 = stamp_daily (now E) (now E) daily_defaults) as Hr0
      by (subst r0; unfold row_before; fold k; by rewrite Hk).
    rewrite <- Hr0. clear Hid.
    destruct (t_completed_at instance) as [c|]; simpl.
    + destruct (bool_decide (t_status instance = COMPLETED)); simpl.
      * destruct (dt_date c =? dt_date (now E))%Z; simpl.
        -- destruct (fault E (op_Task_query _)); [right; left; eauto|]. simpl.
           destruct (fault E (op_DailyStats_save _ _)); [right; left; eauto|]. simpl.
           destruct (decimal_fits 5 (hours_worked r0) && _); simpl;
             [right; right; by rewrite Hkey|right; left; eauto].
        -- destruct (fault E (op_DailyStats_save _ _)); [right; left; eauto|]. simpl.
           destruct (decimal_fits 5 (hours_worked r0) && _); simpl;
             [right; right; by rewrite Hkey|right; left; eauto].
      * destruct (fault E (op_DailyStats_save _ _)); [right; left; eauto|]. simpl.
        destruct (decimal_fits 5 (hours_worked r0) && _); simpl;
          [right; right; by rewrite Hkey|right; left; eauto].
    + rewrite andb_false_r.
      destruct (fault E (op_DailyStats_save _ _)); [right; left; eauto|]. simpl.
      destruct (decimal_fits 5 (hours_worked r0) && _); simpl;
        [right; right; by rewrite Hkey|right; left; eauto].
Qed.

(** The second receiver: it leaves the database as it is (no category, a
    swallowed [DoesNotExist], a failure), or it rewrites the
    [categories_data] of the row of today. *)
Lemma update_category_analytics_cases E instance created s :
  let k := (t_user instance, dt_date (now E)) in
  let o := update_category_analytics instance created E s in
  final o = s
  \/ exists r cd, daily s !! k = Some r
       /\ o = Ok tt (set_daily (insert k (recategorised cd (now E) r)) s).
Proof.
  intros k o. subst o. unfold update_category_analytics, instance_category. munfold.
  destruct (t_category instance) as [c|]; [|by left]. cbn beta iota.
  destruct (fault E (op_Category_fetch _)); [by left|]. cbn beta iota.
  destruct (fault E (op_DailyStats_get _ _)) as [e|].
  { destruct (decide (e = DailyStats_DoesNotExist)); by left. }
  cbn beta iota. fold k.
  destruct (daily s !! k) as [r|] eqn:Hk; cbn beta iota; [|by left].
  destruct (fault E (op_Task_query _)) as [e|]; cbn beta iota.
  { destruct (decide (e = DailyStats_DoesNotExist)); by left. }
  destruct (fault E (op_DailyStats_save _ _)) as [e|]; cbn beta iota.
  { destruct (decide (e = DailyStats_DoesNotExist)); by left. }
  cbn [hours_worked productivity_score].
  destruct (decimal_fits 5 (hours_worked r) && _); cbn beta iota.
  - right. eexists r, _. split; [done|]. reflexivity.
  - by left.
Qed.

Lemma final_bind {A B} (m : M A) (k : A -> M B) E s :
  final (bind m k E s) =
  match m E s with Ok a s1 => final (k a E s1) | Raise _ s1 => s1 end.
Proof. unfold bind. by destruct (m E s). Qed.

(** The pre-save receiver reads only. *)
Lemma handle_task_completion_state E instance s :
  final (handle_task_completion instance E s) = s.
Proof.
  unfold handle_task_completion, Task_get. munfold.
  destruct (fault E (op_Task_get _)) as [e|]; cbn beta iota.
  { by destruct (decide (e = Task_DoesNotExist)). }
  destruct (find _ _) as [old|]; cbn beta iota; [|done].
  destruct (bool_decide (t_status old ≠ COMPLETED) && _); [done|].
  destruct (bool_decide (t_status old = COMPLETED) && _); done.
Qed.

(** The write touches the task table only. *)
Lemma Task_write_state E instance s :
  let s' := final (Task_write instance E s) in
  daily s' = daily s /\ weekly s' = weekly s /\ users s' = users s.
Proof.
  unfold Task_write. munfold.
  destruct (fault E (op_Task_write _)); cbn beta iota; [done|].
  destruct (existsb _ _); done.
Qed.

(** [Task.save] is its preparation of the instance, the pre-save receiver
    and the write, and then the two post-save receivers. *)
Lemma save_unfold E self s :
  signals.save self E s =
  match save_until_written (save_prepare (now E) self) E s with
  | Ok (instance, created) s1 => post_save instance created E s1
  | Raise e s1 => Raise e s1
  end.
Proof.
  unfold signals.save, Model_save, save_until_written, save_prepare.
  unfold bind at 1. unfold ask_now. cbn beta iota.
  match goal with |- context [handle_task_completion ?x] => generalize x; intros self' end.
  unfold bind. destruct (handle_task_completion self' E s) as [inst s0|e s0]; [|done].
  destruct (Task_write inst E s0) as [[inst' created] s1|e s1]; done.
Qed.

(** What reaches the post-save receivers is the instance as prepared,
    with [completed_at] possibly reset by the pre-save receiver. *)
Lemma save_until_written_instance E self s instance created s1 :
  save_until_written self E s = Ok (instance, created) s1 ->
  t_user instance = t_user self /\ t_status instance = t_status self
  /\ (t_status self = COMPLETED ->
      t_completed_at instance = t_completed_at self
      \/ t_completed_at instance = Some (now E)).
Proof.
  unfold save_until_written. intros H. apply bind_Ok in H as (inst0 & s0 & Hpre & Hw).
  assert (H0 : t_user inst0 = t_user self /\ t_status inst0 = t_status self
               /\ t_id inst0 = t_id self
               /\ (t_status self = COMPLETED ->
                   t_completed_at inst0 = t_completed_at self
                   \/ t_completed_at inst0 = Some (now E))).
  { revert Hpre. unfold handle_task_completion, Task_get. munfold.
    destruct (fault E (op_Task_get _)) as [e|]; cbn beta iota.
    { destruct (decide (e = Task_DoesNotExist)); [|done]. intros [= <- <-]. auto. }
    destruct (find _ _) as [old|]; cbn beta iota; [|intros [= <- <-]; auto].
    destruct (bool_decide (t_status old ≠ COMPLETED) && _); [intros [= <- <-]; auto|].
    destruct (bool_decide (t_status old = COMPLETED) && _) eqn:Hb; intros [= <- <-]; auto.
    cbn. repeat split; try done. intros Hc.
    apply andb_true_iff in Hb as [_ Hb]. apply bool_decide_eq_true in Hb. done. }
  destruct H0 as (Hu & Hst & Hid & Hc).
  revert Hw. unfold Task_write. munfold.
  destruct (fault E (op_Task_write _)); cbn beta iota; [done|].
  destruct (existsb _ _); cbn beta iota; intros [= <- <- <-]; auto.
Qed.

(** Before the updater runs, a task save touches no stats row. *)
Lemma save_until_written_state E self s :
  daily (final (save_until_written self E s)) = daily s.
Proof.
  unfold save_until_written. rewrite final_bind.
  pose proof (handle_task_completion_state E self s) as H0.
  destruct (handle_task_completion self E s) as [inst s0|e s0]; simpl in H0; subst s0;
    [|done].
  by destruct (Task_write_state E inst s) as (Hd & _).
Qed.

(** The receivers of [post_save] touch no task. *)
Lemma post_save_tasks E instance created s :
  tasks (final (post_save instance created E s)) = tasks s.
Proof.
  unfold post_save. rewrite final_bind.
  pose proof (update_analytics_on_task_change_cases E instance created s) as H.
  cbv zeta in H.
  assert (H1 : tasks (final (update_analytics_on_task_change instance created E s))
               = tasks s).
  { by destruct H as [[e ->]|[[e ->]| ->]]. }
  destruct (update_analytics_on_task_change instance created E s) as [[] s1|e s1];
    simpl in H1; [|done].
  by destruct (update_category_analytics_cases E instance created s1)
    as [->|(r & cd & Hr & ->)].
Qed.

Lemma incremental_frame_refl k m : incremental_frame k m m.
Proof. intros k'. repeat split; eauto. Qed.

Lemma incremental_frame_trans k m1 m2 m3 :
  incremental_frame k m1 m2 -> incremental_frame k m2 m3 -> incremental_frame k m1 m3.
Proof.
  intros H12 H23 k'. destruct (H12 k') as (Ha & Hb & Hc), (H23 k') as (Hd & He & Hf).
  split; [congruence|]. split.
  - intros r Hr. destruct (Hb r Hr) as (r2 & Hr2 & Hc2).
    destruct (He r2 Hr2) as (r3 & Hr3 & Hc3). exists r3. split; [done|congruence].
  - intros Hne. rewrite Hf, Hc; done.
Qed.

Lemma incremental_frame_insert m k r :
  (tasks_overdue r, hours_worked r) = overdue_and_hours m k ->
  (forall r0, m !! k = Some r0 -> ds_created_at r = ds_created_at r0) ->
  incremental_frame k m (<[k := r]> m).
Proof.
  intros Hr Hc k'. unfold overdue_and_hours in *.
  destruct (decide (k = k')) as [<-|Hne].
  - rewrite lookup_insert_eq. split; [done|]. split; [|done].
    intros r0 Hr0. exists r. split; [done|]. by apply Hc.
  - rewrite lookup_insert_ne by done. repeat split; eauto.
Qed.

Lemma row_before_overdue_and_hours E user s :
  (tasks_overdue (row_before E user s), hours_worked (row_before E user s))
  = overdue_and_hours (daily s) (user, dt_date (now E)).
Proof.
  unfold row_before, overdue_and_hours. by destruct (daily s !! _).
Qed.

Lemma row_before_created_at E user s r :
  daily s !! (user, dt_date (now E)) = Some r ->
  ds_created_at (row_before E user s) = ds_created_at r.
Proof. intros Hr. unfold row_before. by rewrite Hr. Qed.

Lemma post_save_frame E instance created s :
  incremental_frame (t_user instance, dt_date (now E))
    (daily s) (daily (final (post_save instance created E s))).
Proof.
  unfold post_save. rewrite final_bind.
  pose proof (update_analytics_on_task_change_cases E instance created s) as H.
  cbv zeta in H.
  pose proof (row_before_overdue_and_hours E (t_user instance) s) as Hr0.
  pose proof (row_before_created_at E (t_user instance) s) as Hc0.
  set (k := (t_user instance, dt_date (now E))) in *.
  assert (H1 : incremental_frame k (daily s)
            (daily (final (update_analytics_on_task_change instance created E s)))).
  { destruct H as [[e ->]|[[e ->]| ->]]; simpl.
    - apply incremental_frame_refl.
    - by apply incremental_frame_insert.
    - by apply incremental_frame_insert. }
  destruct (update_analytics_on_task_change instance created E s) as [[] s1|e s1];
    simpl in H1; [|done].
  eapply incremental_frame_trans; [exact H1|].
  destruct (update_category_analytics_cases E instance created s1) as [->|(r & cd & Hr & ->)].
  - apply incremental_frame_refl.
  - cbn [final daily set_daily]. fold k in Hr. apply incremental_frame_insert.
    + unfold overdue_and_hours. fold k. by rewrite Hr.
    + intros r2 Hr2. fold k in Hr2. rewrite Hr in Hr2. by injection Hr2 as <-.
Qed.

(** C10.  A task save leaves the overdue count and the hours of every
    daily row as they were (those of a row the updater creates are the
    zero defaults); it removes no row and keeps [created_at]; and it
    touches no row but the one of (user, today): the incremental path
    never recomputes [tasks_overdue] or [hours_worked]. *)
Theorem incremental_keeps_overdue_and_hours (E : env) (self : Task) (s : db) :
  let o := signals.save self E s in
  forall k,
    overdue_and_hours (daily (final o)) k = overdue_and_hours (daily s) k
    /\ (forall r, daily s !! k = Some r ->
          exists r', daily (final o) !! k = Some r'
                     /\ tasks_overdue r' = tasks_overdue r
                     /\ hours_worked r' = hours_worked r
                     /\ ds_created_at r' = ds_created_at r)
    /\ (k <> (t_user self, dt_date (now E)) -> daily (final o) !! k = daily s !! k).
Proof.
  intros o.
  assert (Hframe : incremental_frame (t_user self, dt_date (now E)) (daily s)
                     (daily (final o))).
  { subst o. rewrite save_unfold.
    pose proof (save_until_written_state E (save_prepare (now E) self) s) as Hd.
    destruct (save_until_written _ E s) as [[instance created] s1|e s1] eqn:Hw;
      simpl in Hd.
    - apply save_until_written_instance in Hw as (Hu & _).
      assert (Hself : t_user (save_prepare (now E) self) = t_user self).
      { unfold save_prepare. by repeat case_match. }
      rewrite <- Hd, <- Hself, <- Hu. apply post_save_frame.
    - simpl. rewrite Hd. apply incremental_frame_refl. }
  intros k. destruct (Hframe k) as (Hoh & Hrow & Hother).
  split; [exact Hoh|]. split; [|exact Hother].
  intros r Hr. destruct (Hrow r Hr) as (r' & Hr' & Hc). exists r'.
  unfold overdue_and_hours in Hoh. rewrite Hr, Hr' in Hoh.
  injection Hoh as Ho Hh. by repeat split.
Qed.

Lemma changed_row_score_ok ts E instance created r0 :
  score_ok r0 -> score_ok (changed_row ts E instance created r0).
Proof.
  intros [Hb Hz]. unfold score_ok, changed_row. cbv zeta.
  cbn [productivity_score tasks_created].
  match goal with |- context [0 <? ?n] => destruct (0 <? n) eqn:Hpos end.
  - apply Nat.ltb_lt in Hpos. split; [by apply score_of_bounds | lia].
  - apply Nat.ltb_ge in Hpos. split; [done|]. intros _. apply Hz.
    destruct created; lia.
Qed.

Lemma row_before_score_ok E user s :
  scores_ok (daily s) -> score_ok (row_before E user s).
Proof.
  intros H. unfold row_before.
  destruct (daily s !! _) as [r|] eqn:Hr; simpl; [eauto|].
  split; simpl; [lia | done].
Qed.

Lemma scores_ok_insert m k r : scores_ok m -> score_ok r -> scores_ok (<[k := r]> m).
Proof.
  intros Hm Hr k' r'. destruct (decide (k = k')) as [<-|Hne].
  - rewrite lookup_insert_eq. by intros [= <-].
  - rewrite lookup_insert_ne by done. apply Hm.
Qed.

Lemma post_save_scores_ok E instance created s :
  scores_ok (daily s) -> scores_ok (daily (final (post_save instance created E s))).
Proof.
  intros Hs. unfold post_save. rewrite final_bind.
  pose proof (update_analytics_on_task_change_cases E instance created s) as H.
  cbv zeta in H.
  pose proof (row_before_score_ok E (t_user instance) s Hs) as Hr0.
  assert (H1 : scores_ok
            (daily (final (update_analytics_on_task_change instance created E s)))).
  { destruct H as [[e ->]|[[e ->]| ->]]; simpl; [done| |];
      apply scores_ok_insert; auto using changed_row_score_ok. }
  destruct (update_analytics_on_task_change instance created E s) as [[] s1|e s1];
    simpl in H1; [|done].
  destruct (update_category_analytics_cases E instance created s1) as [->|(r & cd & Hr & ->)];
    [done|].
  simpl. apply scores_ok_insert; [done|]. apply H1 in Hr. exact Hr.
Qed.

Lemma save_scores_ok E self s :
  scores_ok (daily s) -> scores_ok (daily (final (signals.save self E s))).
Proof.
  intros Hs. unfold signals.save.
  rewrite final_bind. unfold ask_now at 1. cbn beta iota.
  match goal with |- context [Model_save ?x] => generalize x; intros self' end.
  unfold Model_save. rewrite final_bind.
  pose proof (handle_task_completion_state E self' s) as H0.
  destruct (handle_task_completion self' E s) as [inst s0|e s0]; simpl in H0; subst s0;
    [|done].
  rewrite final_bind.
  pose proof (Task_write_state E inst s) as (Hd & _).
  destruct (Task_write inst E s) as [[inst' created] s1|e s1]; simpl in Hd.
  - apply post_save_scores_ok. by rewrite Hd.
  - by rewrite Hd.
Qed.

(** C5, as the code has it.  Nothing around the two post-save receivers
    catches an exception: once the task row is written, whatever the
    incremental updater raises comes out of [Task.save], with the task row
    left as written. *)
Theorem updater_failure_fails_the_save (E : env) (self instance : Task) (created : bool)
    (s s1 s2 : db) (e : exn) :
  save_until_written (save_prepare (now E) self) E s = Ok (instance, created) s1 ->
  post_save instance created E s1 = Raise e s2 ->
  signals.save self E s = Raise e s2 /\ tasks s2 = tasks s1.
Proof.
  intros Hw Hp. rewrite save_unfold, Hw. split; [done|].
  pose proof (post_save_tasks E instance created s1) as Ht. by rewrite Hp in Ht.
Qed.

Lemma updater_failure_fails_the_save_witness :
  signals.save (new_task 1 1 PENDING None None) stats_down empty_db
    = Raise OperationalError
        (set_tasks (fun _ => [signals.set_created_at (at_day day0)
                                (new_task 1 1 PENDING None None)]) empty_db)
  /\ tasks (set_tasks (fun _ => [signals.set_created_at (at_day day0)
                                   (new_task 1 1 PENDING None None)]) empty_db)
     = tasks (set_tasks (fun _ => [signals.set_created_at (at_day day0)
                                     (new_task 1 1 PENDING None None)]) empty_db).
Proof.
  apply (updater_failure_fails_the_save stats_down (new_task 1 1 PENDING None None)
           (signals.set_created_at (at_day day0) (new_task 1 1 PENDING None None)) true
           empty_db); reflexivity.
Defined.

(** C5, the claim refuted: with the database layer failing on the stats
    row, saving a new task raises, although the task row is written. *)
Lemma updater_failure_reaches_the_save :
  let o := signals.save (new_task 1 1 PENDING None None) stats_down empty_db in
  raised o = Some OperationalError
  /\ t_id <$> tasks (final o) = [1]
  /\ raised (post_save (new_task 1 1 PENDING None None) true stats_down empty_db)
     = Some OperationalError.
Proof. vm_compute. done. Qed.

(** The only handler of the updater: the second receiver swallows a
    [DailyStats.DoesNotExist] of its row lookup without a trace, and lets
    any other exception of that lookup through. *)
Lemma update_category_analytics_row_lookup E instance created s c e :
  t_category instance = Some c ->
  fault E (op_Category_fetch (c_id c)) = None ->
  fault E (op_DailyStats_get (t_user instance) (dt_date (now E))) = Some e ->
  update_category_analytics instance created E s =
  if decide (e = DailyStats_DoesNotExist) then Ok tt s else Raise e s.
Proof.
  intros Hc Hf Hg. unfold update_category_analytics, instance_category. munfold.
  rewrite Hc. cbn beta iota. rewrite Hf. cbn beta iota. rewrite Hg. done.
Qed.

(** An exception of the first receiver comes out of [post_save]. *)
Lemma post_save_first_receiver E instance created s e s1 :
  update_analytics_on_task_change instance created E s = Raise e s1 ->
  post_save instance created E s = Raise e s1.
Proof. intros H. unfold post_save, bind. by rewrite H. Qed.

(** So does an exception of the second. *)
Lemma post_save_second_receiver E instance created s s1 e s2 :
  update_analytics_on_task_change instance created E s = Ok tt s1 ->
  update_category_analytics instance created E s1 = Raise e s2 ->
  post_save instance created E s = Raise e s2.
Proof. intros H1 H2. unfold post_save, bind. by rewrite H1. Qed.

(** The row of today after an invocation of the updater that returns: the
    second receiver leaves the two counters as the first wrote them. *)
Lemma post_save_Ok_row E instance created s s' :
  post_save instance created E s = Ok tt s' ->
  tasks s' = tasks s
  /\ exists r, daily s' !! (t_user instance, dt_date (now E)) = Some r
       /\ tasks_completed r
          = tasks_completed (changed_row (tasks s) E instance created
                               (row_before E (t_user instance) s))
       /\ tasks_created r
          = tasks_created (changed_row (tasks s) E instance created
                             (row_before E (t_user instance) s)).
Proof.
  intros Hp.
  pose proof (post_save_tasks E instance created s) as Ht. rewrite Hp in Ht.
  split; [exact Ht|].
  unfold post_save in Hp. apply bind_Ok in Hp as ([] & s1 & H1 & H2).
  destruct (update_analytics_on_task_change_cases E instance created s)
    as [[e He]|[[e He]|He]]; rewrite H1 in He; try discriminate.
  injection He as ->.
  set (k := (t_user instance, dt_date (now E))) in *.
  set (row := changed_row _ _ _ _ _) in *.
  destruct (update_category_analytics_cases E instance created
              (set_daily (insert k row) s)) as [Hs|(r & cd & Hr & Ho)].
  - rewrite H2 in Hs. simpl in Hs. subst s'. exists row. split; [|done].
    simpl. apply lookup_insert_eq.
  - rewrite H2 in Ho. injection Ho as ->. fold k in Hr. simpl in Hr.
    rewrite lookup_insert_eq in Hr. injection Hr as <-.
    exists (recategorised cd (now E) row). split; [|done].
    simpl. apply lookup_insert_eq.
Qed.

(** C7, as the code has it.  When the saved task is completed and its
    [completed_at] is today, an invocation of the updater that meets no
    exception leaves [tasks_completed] of the row of (user, today) equal to
    the full recount over the task table. *)
Theorem completed_today_is_recounted (E : env) (instance : Task) (created : bool)
    (s s' : db) :
  completed_today (dt_date (now E)) instance = true ->
  post_save instance created E s = Ok tt s' ->
  exists r, daily s' !! (t_user instance, dt_date (now E)) = Some r
    /\ tasks_completed r
       = recount_completed (tasks s') (t_user instance) (dt_date (now E)).
Proof.
  intros Hc Hp.
  destruct (post_save_Ok_row E instance created s s' Hp) as (Ht & r & Hr & Hn & _).
  exists r. split; [exact Hr|].
  rewrite Hn, Ht. unfold changed_row. cbn [tasks_completed]. by rewrite Hc.
Qed.

Lemma completed_today_is_recounted_witness :
  exists r, daily one_done_db !! (1, day0) = Some r
    /\ tasks_completed r = recount_completed (tasks one_done_db) 1 day0.
Proof.
  apply (completed_today_is_recounted (calm (at_day day0))
           (signals.set_created_at (at_day day0)
              (signals.set_completed_at (Some (at_day day0))
                 (new_task 1 1 COMPLETED (Some work) None)))
           true
           (set_tasks (fun _ => [signals.set_created_at (at_day day0)
                                   (signals.set_completed_at (Some (at_day day0))
                                      (new_task 1 1 COMPLETED (Some work) None))])
              empty_db)
           one_done_db); vm_compute; reflexivity.
Defined.

(** C7, the claim refuted: user 1 has one task, completed today and
    counted; the task is saved again as pending.  The updater runs without
    an exception, no task of the user is completed any more, and the row
    of today still says one. *)
Lemma reopened_task_is_not_recounted :
  let o := signals.save reopened_task (calm (at_day day0)) one_done_db in
  tasks_completed <$> daily one_done_db !! (1, day0) = Some 1
  /\ raised o = None
  /\ t_status <$> tasks (final o) = [PENDING]
  /\ recount_completed (tasks (final o)) 1 day0 = 0
  /\ tasks_completed <$> daily (final o) !! (1, day0) = Some 1.
Proof. vm_compute. done. Qed.

(** A task saved as completed, with no [completed_at] yet: the save
    stamps it with the time of the save, and the row of today has the full
    recount. *)
Lemma save_completed_is_recounted E self s s' :
  t_status self = COMPLETED -> t_completed_at self = None ->
  signals.save self E s = Ok tt s' ->
  exists r, daily s' !! (t_user self, dt_date (now E)) = Some r
    /\ tasks_completed r = recount_completed (tasks s') (t_user self) (dt_date (now E)).
Proof.
  intros Hst Hc Hsave. rewrite save_unfold in Hsave.
  destruct (save_until_written _ E s) as [[instance created] s1|e s1] eqn:Hw; [|done].
  apply save_until_written_instance in Hw as (Hu & Hst' & Hc').
  assert (Hprep : save_prepare (now E) self = set_completed_at (Some (now E)) self).
  { unfold save_prepare. by rewrite Hst, Hc. }
  rewrite Hprep in Hu, Hst', Hc'. cbn in Hu, Hst', Hc'.
  destruct (post_save_Ok_row E instance created s1 s' Hsave) as (Ht & r & Hr & Hn & _).
  rewrite <- Hu. exists r. split; [exact Hr|].
  rewrite Hn, Ht. unfold changed_row, completed_today. cbn [tasks_completed].
  rewrite Hst', Hst. cbn.
  destruct (Hc' Hst) as [-> | ->]; cbn; by rewrite Z.eqb_refl.
Qed.

(* ===================================================================== *)
(** ** The batch aggregator: the daily step *)
(* ===================================================================== *)

Import calculate_analytics.

Lemma recomputed_score_bounds ts user d c u :
  (0 <= productivity_score (recomputed ts user d c u) <= 10000)%Z.
Proof.
  unfold recomputed. cbv zeta. cbn [productivity_score].
  match goal with |- context [0 <? ?n] => destruct (0 <? n) eqn:Hpos end; [|lia].
  apply Nat.ltb_lt in Hpos. by apply score_of_bounds.
Qed.

Lemma recomputed_score_ok ts user d c u : score_ok (recomputed ts user d c u).
Proof.
  split; [apply recomputed_score_bounds|].
  unfold recomputed. cbv zeta. cbn [productivity_score tasks_created].
  intros ->. done.
Qed.

Ltac step_false :=
  repeat first [rewrite bool_decide_eq_false_2 by done
               | rewrite andb_false_r | rewrite andb_false_l];
  cbn [andb]; done.

(** The daily step, outcome by outcome. *)
Lemma daily_stats_for_cases E d user s :
  let k := (u_id user, d) in
  let o := daily_stats_for d user E s in
  let r0 := default (stamp_daily (now E) (now E) daily_defaults) (daily s !! k) in
  ((exists e, o = Raise e s) /\ daily_step_ok E (tasks s) (u_id user) d = false)
  \/ ((exists e, o = Raise e (set_daily (insert k r0) s))
      /\ daily_step_ok E (tasks s) (u_id user) d = false)
  \/ (o = Ok tt (daily_written E d (u_id user) s)
      /\ daily_step_ok E (tasks s) (u_id user) d = true).
Proof.
  intros k o r0. subst o. unfold daily_step_ok.
  pose proof (recomputed_score_bounds (tasks s) (u_id user) d (now E) (now E)) as Hsc.
  apply score_fits in Hsc. revert Hsc.
  unfold daily_stats_for, daily_written, recomputed. munfold. cbv zeta.
  cbn [hours_worked productivity_score]. intros Hsc.
  destruct (fault E (op_DailyStats_get_or_create _ _)); [left; split; [eauto|step_false]|].
  rewrite bool_decide_eq_true_2 by done. cbn [andb].
  fold k.
  assert (Hkey : forall r' : DailyStats,
            set_daily (insert k r') (set_daily (insert k r0) s) = set_daily (insert k r') s).
  { intros r'. unfold set_daily. simpl. by rewrite insert_insert_eq. }
  destruct (daily s !! k) as [r|] eqn:Hk; cbn beta iota.
  - destruct (fault E (op_Task_query _)); cbn beta iota; [left; split; [eauto|step_false]|].
    rewrite bool_decide_eq_true_2 by done. cbn [andb].
    destruct (fault E (op_DailyStats_save _ _)); cbn beta iota; [left; split; [eauto|step_false]|].
    rewrite bool_decide_eq_true_2 by done. cbn [andb].
    rewrite Hsc, andb_true_r. clear Hsc.
    destruct (decimal_fits 5 (sum_hours _)); cbn beta iota; [right; right; done|left; split; [eauto|step_false]].
  - cbn [daily set_daily tasks]. subst r0. cbn [default].
    destruct (fault E (op_Task_query _)); cbn beta iota; cbn [tasks set_daily];
      [right; left; split; [eauto|step_false]|].
    rewrite bool_decide_eq_true_2 by done. cbn [andb].
    destruct (fault E (op_DailyStats_save _ _)); cbn beta iota; cbn [tasks set_daily];
      [right; left; split; [eauto|step_false]|].
    rewrite bool_decide_eq_true_2 by done. cbn [andb].
    rewrite Hsc, andb_true_r. clear Hsc.
    destruct (decimal_fits 5 (sum_hours _)); cbn beta iota; cbn [tasks set_daily];
      [right; right; split; [|done]|right; left; split; [eauto|step_false]].
    f_equal. unfold set_stdout, set_daily. cbn. f_equal. apply insert_insert_eq.
Qed.

Lemma daily_stats_for_Ok E d user s s' :
  daily_stats_for d user E s = Ok tt s' ->
  s' = daily_written E d (u_id user) s
  /\ daily_step_ok E (tasks s) (u_id user) d = true.
Proof.
  intros H.
  destruct (daily_stats_for_cases E d user s) as [[[e He] _]|[[[e He] _]|[He Hok]]];
    rewrite H in He; try discriminate. by injection He as ->.
Qed.

Lemma daily_stats_for_total E d user s :
  daily_step_ok E (tasks s) (u_id user) d = true ->
  daily_stats_for d user E s = Ok tt (daily_written E d (u_id user) s).
Proof.
  intros H.
  destruct (daily_stats_for_cases E d user s) as [[_ He]|[[_ He]|[He _]]];
    [congruence..|done].
Qed.

(* ===================================================================== *)
(** ** The batch aggregator: the weekly step *)
(* ===================================================================== *)

Lemma breakdown_eq E user a b days s :
  fault E op_DailyStats_query = None ->
  breakdown user a b days E s =
  Ok ((fun i => breakdown_entry (a + i) (week_day (daily s) user a b i)) <$> days) s.
Proof.
  intros Hf. induction days as [|i days IH]; [done|].
  cbn [breakdown]. unfold DailyStats_first. munfold. rewrite Hf. cbn beta iota.
  fold (bind (A := list DayEntry) (B := list DayEntry)).
  unfold bind, ret in *. rewrite IH. done.
Qed.

Lemma breakdown_Raise E user a b i days s e :
  fault E op_DailyStats_query = Some e ->
  breakdown user a b (i :: days) E s = Raise e s.
Proof.
  intros Hf. cbn [breakdown]. unfold DailyStats_first. munfold. by rewrite Hf.
Qed.

(** The weekly step, outcome by outcome: it never touches a daily row. *)
Lemma weekly_stats_for_cases E a b y w user s :
  let k := (u_id user, y, w) in
  let o := weekly_stats_for a b y w user E s in
  (raised o <> None /\ daily (final o) = daily s /\ tasks (final o) = tasks s
   /\ users (final o) = users s
   /\ weekly_step_ok E (daily s) (u_id user) a b y w = false)
  \/ (o = Ok tt (weekly_written E a b y w (u_id user) s)
      /\ weekly_step_ok E (daily s) (u_id user) a b y w = true).
Proof.
  intros k o. subst o. unfold weekly_step_ok.
  unfold weekly_stats_for, weekly_written, WeeklyStats_get_or_create, WeeklyStats_save,
    DailyStats_range.
  munfold. fold k. fold (week_rows (daily s) (u_id user) a b).
  destruct (fault E (op_WeeklyStats_get_or_create _ _ _));
    [left; repeat split; try done; step_false|].
  rewrite bool_decide_eq_true_2 by done. cbn [andb].
  destruct (fault E op_DailyStats_query) eqn:Hq.
  { left. destruct (weekly s !! k); cbn beta iota; rewrite ?Hq; cbn beta iota;
      repeat split; try done; step_false. }
  rewrite bool_decide_eq_true_2 by done. cbn [andb].
  destruct (weekly s !! k) as [r|] eqn:Hk; cbn beta iota; rewrite ?Hq; cbn beta iota;
    cbn [daily set_weekly];
    fold (week_rows (daily s) (u_id user) a b);
    (rewrite breakdown_eq by done); cbn beta iota;
    (destruct (fault E (op_WeeklyStats_save _ _ _));
     [left; cbn beta iota; repeat split; try done; step_false|]);
    rewrite bool_decide_eq_true_2 by done; cbn [andb]; cbn beta iota;
    unfold rolled_up; cbv zeta;
    cbn [total_hours_worked average_productivity_score];
    fold (average_score (snd <$> week_rows (daily s) (u_id user) a b));
    (destruct (decimal_fits 6 _ && decimal_fits 5 _) eqn:Hfit; cbn beta iota;
     [right|left; repeat split; try done; exact Hfit]).
  - split; [|first [done|exact Hfit]]. reflexivity.
  - split; [|first [done|exact Hfit]]. f_equal. unfold set_stdout, set_weekly. cbn. f_equal.
    apply insert_insert_eq.
Qed.

Lemma weekly_stats_for_Ok E a b y w user s s' :
  weekly_stats_for a b y w user E s = Ok tt s' ->
  s' = weekly_written E a b y w (u_id user) s
  /\ weekly_step_ok E (daily s) (u_id user) a b y w = true.
Proof.
  intros H.
  destruct (weekly_stats_for_cases E a b y w user s) as [(Hr & _)|[He Hok]].
  - rewrite H in Hr. done.
  - rewrite H in He. by injection He as ->.
Qed.

Lemma weekly_stats_for_total E a b y w user s :
  weekly_step_ok E (daily s) (u_id user) a b y w = true ->
  weekly_stats_for a b y w user E s = Ok tt (weekly_written E a b y w (u_id user) s).
Proof.
  intros H.
  destruct (weekly_stats_for_cases E a b y w user s) as [(_ & _ & _ & _ & He)|[He _]];
    [congruence|done].
Qed.

Lemma weekly_stats_for_frame E a b y w user s :
  let s' := final (weekly_stats_for a b y w user E s) in
  daily s' = daily s /\ tasks s' = tasks s /\ users s' = users s.
Proof.
  destruct (weekly_stats_for_cases E a b y w user s) as [(_ & ? & ? & ? & _)|[-> _]]; done.
Qed.

(* ===================================================================== *)
(** ** The batch aggregator: the loops *)
(* ===================================================================== *)

Lemma for_each_Ok_inv {X} (I : db -> Prop) (l : list X) (body : X -> M unit) E s s' :
  for_each l body E s = Ok tt s' -> I s ->
  (forall y s0 s1, y ∈ l -> I s0 -> body y E s0 = Ok tt s1 -> I s1) ->
  I s'.
Proof.
  revert s. induction l as [|y l IH]; intros s Hrun HI Hbody.
  { cbn in Hrun. by injection Hrun as <-. }
  cbn [for_each] in Hrun. apply bind_Ok in Hrun as ([] & s1 & Hy & Hrest).
  eapply IH; [exact Hrest| |].
  - eapply Hbody; [apply list_elem_of_here|exact HI|exact Hy].
  - intros z s0 s2 Hz. apply Hbody. by apply list_elem_of_further.
Qed.

(** A loop that returns has run its body, with success, on every element;
    [I] is an invariant of the bodies, [Q] a property one of them sets up
    and the others keep. *)
Lemma for_each_Ok_elem {X} (I Q : db -> Prop) (l : list X) (body : X -> M unit)
    E s s' x :
  for_each l body E s = Ok tt s' -> x ∈ l -> I s ->
  (forall y s0 s1, y ∈ l -> I s0 -> body y E s0 = Ok tt s1 ->
     I s1 /\ (Q s0 -> Q s1) /\ (y = x -> Q s1)) ->
  I s' /\ Q s'.
Proof.
  revert s. induction l as [|y l IH]; intros s Hrun Hx HI Hbody.
  { by apply elem_of_nil in Hx. }
  cbn [for_each] in Hrun. apply bind_Ok in Hrun as ([] & s1 & Hy & Hrest).
  destruct (Hbody y s s1 (list_elem_of_here _ _) HI Hy) as (HI1 & Hkeep & Hset).
  assert (Hbody' : forall z s0 s2, z ∈ l -> I s0 -> body z E s0 = Ok tt s2 ->
            I s2 /\ (Q s0 -> Q s2) /\ (z = x -> Q s2)).
  { intros z s0 s2 Hz. apply Hbody. by apply list_elem_of_further. }
  apply elem_of_cons in Hx as [->|Hx].
  - apply (for_each_Ok_inv (fun s0 => I s0 /\ Q s0) l body E s1 s' Hrest).
    + split; [done|]. by apply Hset.
    + intros z s0 s2 Hz [H0 HQ] Hbz.
      destruct (Hbody' z s0 s2 Hz H0 Hbz) as (? & ? & _). auto.
  - by apply (IH s1).
Qed.

(** A loop whose bodies all return under an invariant returns. *)
Lemma for_each_total {X} (I : db -> Prop) (l : list X) (body : X -> M unit) E s :
  I s ->
  (forall y s0, y ∈ l -> I s0 -> exists s1, body y E s0 = Ok tt s1 /\ I s1) ->
  exists s', for_each l body E s = Ok tt s' /\ I s'.
Proof.
  revert s. induction l as [|y l IH]; intros s HI Hbody.
  { exists s. done. }
  destruct (Hbody y s (list_elem_of_here _ _) HI) as (s1 & Hy & HI1).
  destruct (IH s1 HI1) as (s' & Hrest & HI').
  { intros z s0 Hz. apply Hbody. by apply list_elem_of_further. }
  exists s'. split; [|done]. cbn [for_each]. unfold bind. by rewrite Hy.
Qed.

Lemma daily_written_recomputed E d user s :
  recomputed_at (tasks s) (daily (daily_written E d user s)) (user, d).
Proof.
  unfold recomputed_at, daily_written. cbn [daily set_stdout set_daily].
  eexists. rewrite lookup_insert_eq. split; [done|]. reflexivity.
Qed.

Lemma daily_written_keeps E d user s ts k :
  tasks s = ts ->
  recomputed_at ts (daily s) k -> recomputed_at ts (daily (daily_written E d user s)) k.
Proof.
  intros <- Hk. destruct (decide (k = (user, d))) as [->|Hne].
  - apply daily_written_recomputed.
  - unfold recomputed_at, daily_written in *. cbn [daily set_stdout set_daily].
    by rewrite lookup_insert_ne.
Qed.

(** The loop over the users, for one date. *)
Lemma calculate_daily_stats_Ok E us d s s' ts :
  calculate_daily_stats us d E s = Ok tt s' -> tasks s = ts ->
  tasks s' = ts /\ users s' = users s /\ weekly s' = weekly s
  /\ (forall k, recomputed_at ts (daily s) k -> recomputed_at ts (daily s') k)
  /\ (forall u, u ∈ us -> recomputed_at ts (daily s') (u_id u, d)
                          /\ daily_step_ok E ts (u_id u) d = true).
Proof.
  intros Hrun Hts. unfold calculate_daily_stats in Hrun.
  set (I := fun s0 : db => tasks s0 = ts /\ users s0 = users s /\ weekly s0 = weekly s
              /\ forall k, recomputed_at ts (daily s) k -> recomputed_at ts (daily s0) k).
  assert (HI : I s) by (by repeat split).
  assert (Hstep : forall y s0 s1, I s0 -> daily_stats_for d y E s0 = Ok tt s1 ->
            I s1 /\ recomputed_at ts (daily s1) (u_id y, d)
            /\ daily_step_ok E ts (u_id y) d = true
            /\ forall k, recomputed_at ts (daily s0) k -> recomputed_at ts (daily s1) k).
  { intros y s0 s1 (Ht & Hu & Hw & Hk) Hy.
    apply daily_stats_for_Ok in Hy as [-> Hok]. rewrite Ht in Hok.
    repeat split; try done.
    - intros k Hk0. apply daily_written_keeps; auto.
    - rewrite <- Ht. apply daily_written_recomputed.
    - intros k. by apply daily_written_keeps. }
  assert (HI' : I s').
  { eapply (for_each_Ok_inv I); [exact Hrun|exact HI|].
    intros y s0 s1 _ Hs0 Hy. by apply (Hstep y s0 s1). }
  destruct HI' as (Ha & Hb & Hc & Hd). repeat split; try done.
  - eapply (for_each_Ok_elem I (fun s0 => recomputed_at ts (daily s0) (u_id u, d))
              _ _ _ _ _ u);
      [exact Hrun|done|exact HI|].
    intros y s0 s1 _ Hs0 Hy. destruct (Hstep y s0 s1 Hs0 Hy) as (? & ? & ? & ?).
    split; [done|]. split; [by auto|]. by intros ->.
  - eapply (for_each_Ok_elem I (fun _ => daily_step_ok E ts (u_id u) d = true)
              _ _ _ _ _ u);
      [exact Hrun|done|exact HI|].
    intros y s0 s1 _ Hs0 Hy. destruct (Hstep y s0 s1 Hs0 Hy) as (? & ? & ? & ?).
    split; [done|]. split; [by auto|]. by intros ->.
Qed.

(** The loop over the days. *)
Lemma daily_phase_Ok E us target days s s' ts :
  daily_phase us target days E s = Ok tt s' -> tasks s = ts ->
  tasks s' = ts /\ users s' = users s /\ weekly s' = weekly s
  /\ (forall k, recomputed_at ts (daily s) k -> recomputed_at ts (daily s') k)
  /\ (forall u i, u ∈ us -> (0 <= i < days)%Z ->
        recomputed_at ts (daily s') (u_id u, (target - i)%Z)
        /\ daily_step_ok E ts (u_id u) (target - i) = true).
Proof.
  intros Hrun Hts. unfold daily_phase in Hrun.
  set (I := fun s0 : db => tasks s0 = ts /\ users s0 = users s /\ weekly s0 = weekly s
              /\ forall k, recomputed_at ts (daily s) k -> recomputed_at ts (daily s0) k).
  assert (HI : I s) by (by repeat split).
  assert (Hstep : forall (i : Z) s0 s1, I s0 ->
            calculate_daily_stats us (target - i) E s0 = Ok tt s1 ->
            I s1
            /\ (forall k, recomputed_at ts (daily s0) k -> recomputed_at ts (daily s1) k)
            /\ forall u, u ∈ us -> recomputed_at ts (daily s1) (u_id u, (target - i)%Z)
                                   /\ daily_step_ok E ts (u_id u) (target - i) = true).
  { intros i s0 s1 (Ht & Hu & Hw & Hk) Hi.
    destruct (calculate_daily_stats_Ok E us _ s0 s1 ts Hi Ht)
      as (Ht1 & Hu1 & Hw1 & Hk1 & Hall).
    split; [|split; [exact Hk1|exact Hall]].
    split; [done|]. split; [congruence|]. split; [congruence|]. auto. }
  assert (HI' : I s').
  { eapply (for_each_Ok_inv I); [exact Hrun|exact HI|].
    intros y s0 s1 _ Hs0 Hy. by apply (Hstep y s0 s1). }
  destruct HI' as (Ha & Hb & Hc & Hd). repeat split; try done.
  - eapply (for_each_Ok_elem I
              (fun s0 => recomputed_at ts (daily s0) (u_id u, (target - i)%Z))
              _ _ _ _ _ i);
      [exact Hrun| |exact HI|].
    { apply elem_of_seqZ. lia. }
    intros y s0 s1 _ Hs0 Hy. destruct (Hstep y s0 s1 Hs0 Hy) as (? & ? & Hall).
    split; [done|]. split; [by auto|]. intros ->. by apply Hall.
  - eapply (for_each_Ok_elem I (fun _ => daily_step_ok E ts (u_id u) (target - i) = true)
              _ _ _ _ _ i);
      [exact Hrun| |exact HI|].
    { apply elem_of_seqZ. lia. }
    intros y s0 s1 _ Hs0 Hy. destruct (Hstep y s0 s1 Hs0 Hy) as (? & ? & Hall).
    split; [done|]. split; [by auto|]. intros ->. by apply Hall.
Qed.

Lemma weekly_written_frame E a b y w user s :
  daily (weekly_written E a b y w user s) = daily s
  /\ tasks (weekly_written E a b y w user s) = tasks s
  /\ users (weekly_written E a b y w user s) = users s.
Proof. done. Qed.

Lemma weekly_written_rolled_up E target user s :
  rolled_up_at (daily s)
    (weekly (weekly_written E (week_start target) (week_end target)
               (PyDate.year target) (PyDate.iso_week target) user s))
    user target.
Proof.
  unfold rolled_up_at, weekly_written. cbn [weekly set_stdout set_weekly].
  eexists. rewrite lookup_insert_eq. split; [done|].
  destruct (weekly s !! _); reflexivity.
Qed.

Lemma weekly_written_keeps E target user s u :
  rolled_up_at (daily s) (weekly s) u target ->
  rolled_up_at (daily s)
    (weekly (weekly_written E (week_start target) (week_end target)
               (PyDate.year target) (PyDate.iso_week target) user s))
    u target.
Proof.
  intros Hu. destruct (decide (u = user)) as [->|Hne].
  - apply weekly_written_rolled_up.
  - unfold rolled_up_at, weekly_written in *. cbn [weekly set_stdout set_weekly].
    rewrite lookup_insert_ne; [done|]. congruence.
Qed.

(** The loop over the users of [calculate_weekly_stats]. *)
Lemma calculate_weekly_stats_Ok E us target s s' :
  calculate_weekly_stats us target E s = Ok tt s' ->
  daily s' = daily s /\ tasks s' = tasks s /\ users s' = users s
  /\ (forall u, rolled_up_at (daily s) (weekly s) u target ->
                rolled_up_at (daily s) (weekly s') u target)
  /\ (forall u, u ∈ us ->
        rolled_up_at (daily s) (weekly s') (u_id u) target
        /\ weekly_step_ok E (daily s) (u_id u) (week_start target) (week_end target)
             (PyDate.year target) (PyDate.iso_week target) = true).
Proof.
  intros Hrun. unfold calculate_weekly_stats in Hrun. cbv zeta in Hrun.
  fold (week_start target) in Hrun. fold (week_end target) in Hrun.
  set (I := fun s0 : db => daily s0 = daily s /\ tasks s0 = tasks s /\ users s0 = users s
              /\ forall u, rolled_up_at (daily s) (weekly s) u target ->
                           rolled_up_at (daily s) (weekly s0) u target).
  assert (HI : I s) by (by repeat split).
  assert (Hstep : forall y s0 s1, I s0 ->
            weekly_stats_for (week_start target) (week_end target) (PyDate.year target)
              (PyDate.iso_week target) y E s0 = Ok tt s1 ->
            I s1 /\ rolled_up_at (daily s) (weekly s1) (u_id y) target
            /\ weekly_step_ok E (daily s) (u_id y) (week_start target) (week_end target)
                 (PyDate.year target) (PyDate.iso_week target) = true
            /\ forall u, rolled_up_at (daily s) (weekly s0) u target ->
                         rolled_up_at (daily s) (weekly s1) u target).
  { intros y s0 s1 (Hd & Ht & Hu & Hk) Hy.
    apply weekly_stats_for_Ok in Hy as [-> Hok]. rewrite Hd in Hok.
    split; [|split; [|split; [exact Hok|]]].
    - split; [done|]. split; [done|]. split; [done|].
      intros u Hu0. rewrite <- Hd. apply weekly_written_keeps. rewrite Hd. auto.
    - rewrite <- Hd. apply weekly_written_rolled_up.
    - intros u Hu0. rewrite <- Hd. apply weekly_written_keeps. by rewrite Hd. }
  assert (HI' : I s').
  { eapply (for_each_Ok_inv I); [exact Hrun|exact HI|].
    intros y s0 s1 _ Hs0 Hy. by apply (Hstep y s0 s1). }
  destruct HI' as (Ha & Hb & Hc & Hd). repeat split; try done.
  - eapply (for_each_Ok_elem I
              (fun s0 => rolled_up_at (daily s) (weekly s0) (u_id u) target) _ _ _ _ _ u);
      [exact Hrun|done|exact HI|].
    intros y s0 s1 _ Hs0 Hy. destruct (Hstep y s0 s1 Hs0 Hy) as (? & ? & ? & ?).
    split; [done|]. split; [by auto|]. by intros ->.
  - eapply (for_each_Ok_elem I (fun _ => weekly_step_ok E (daily s) (u_id u) _ _ _ _ = true)
              _ _ _ _ _ u);
      [exact Hrun|done|exact HI|].
    intros y s0 s1 _ Hs0 Hy. destruct (Hstep y s0 s1 Hs0 Hy) as (? & ? & ? & ?).
    split; [done|]. split; [by auto|]. by intros ->.
Qed.

(** [Command.handle], read as its phases. *)
Lemma handle_unfold E date email days weekly s :
  handle date email days weekly E s =
  match fault E op_User_query with
  | Some e => Raise e s
  | None =>
      let us := selected_users email s in
      let target := target_of date E in
      match daily_phase us target days E (announced email s) with
      | Raise e s1 => Raise e s1
      | Ok _ s1 =>
          match (if weekly then calculate_weekly_stats us target else ret tt) E s1 with
          | Raise e s2 => Raise e s2
          | Ok _ s2 => Ok tt (set_stdout (fun out => out ++ [MsgCalculated (length us)]) s2)
          end
      end
  end.
Proof.
  unfold handle, daily_phase, announced, selected_users, target_of, User_all,
    User_filter_email. munfold.
  destruct date, email; cbn beta iota;
    (destruct (fault E op_User_query); cbn beta iota; [done|]);
    (match goal with |- context [for_each ?l ?b E ?s0] =>
       destruct (for_each l b E s0) as [[] ?|? ?] end; [|done]);
    destruct weekly; cbn beta iota; try done;
    match goal with |- context [calculate_weekly_stats ?us ?t E ?s1] =>
      destruct (calculate_weekly_stats us t E s1) as [[] ?|? ?] end; done.
Qed.

Lemma handle_Ok E date email days weekly s s' :
  handle date email days weekly E s = Ok tt s' ->
  exists s1 s2,
    daily_phase (selected_users email s) (target_of date E) days E (announced email s)
      = Ok tt s1
    /\ (if weekly
        then calculate_weekly_stats (selected_users email s) (target_of date E) E s1
             = Ok tt s2
        else s2 = s1)
    /\ s' = set_stdout
              (fun out => out ++ [MsgCalculated (length (selected_users email s))]) s2.
Proof.
  rewrite handle_unfold. destruct (fault E op_User_query); [done|]. cbv zeta.
  destruct (daily_phase _ _ _ E _) as [[] s1|e s1]; [|done].
  destruct weekly.
  - destruct (calculate_weekly_stats _ _ E s1) as [[] s2|e s2] eqn:Hw; [|done].
    intros [= <-]. eauto.
  - unfold ret. intros [= <-]. eauto.
Qed.

(** C1.  After a run of the batch aggregator that returns, the daily row
    of every user the run works on and every date of its range exists and
    has [tasks_created] equal to the number of that user's tasks whose
    [created_at] falls on that date. *)
Theorem batch_recomputes_tasks_created (E : env) (date : option Z)
    (email : option string) (days : Z) (weekly : bool) (s s' : db)
    (user : User) (i : Z) :
  calculate_analytics.handle date email days weekly E s = Ok tt s' ->
  user ∈ selected_users email s ->
  (0 <= i < days)%Z ->
  tasks s' = tasks s
  /\ exists r, daily s' !! (u_id user, (target_of date E - i)%Z) = Some r
       /\ tasks_created r
          = recount_created (tasks s') (u_id user) (target_of date E - i).
Proof.
  intros Hrun Hu Hi. apply handle_Ok in Hrun as (s1 & s2 & Hd & Hw & ->).
  destruct (daily_phase_Ok E _ _ _ _ s1 (tasks s) Hd eq_refl) as (Ht & _ & _ & _ & Hall).
  destruct (Hall user i Hu Hi) as [(r & Hr & Heq) _].
  assert (Hs2 : daily s2 = daily s1 /\ tasks s2 = tasks s1).
  { destruct weekly; [|by subst].
    by apply calculate_weekly_stats_Ok in Hw as (? & ? & _). }
  destruct Hs2 as [Hd2 Ht2]. cbn [tasks daily set_stdout].
  rewrite Hd2, Ht2, Ht. split; [done|].
  exists r. split; [done|]. rewrite Heq. reflexivity.
Qed.

Lemma batch_recomputes_tasks_created_witness :
  let s' := final (calculate_analytics.handle (Some day0) None 7 true
                     (calm (at_day day0)) two_tasks_db) in
  tasks s' = tasks two_tasks_db
  /\ exists r, daily s' !! (1, (target_of (Some day0) (calm (at_day day0)) - 0)%Z) = Some r
       /\ tasks_created r
          = recount_created (tasks s') 1 (target_of (Some day0) (calm (at_day day0)) - 0).
Proof.
  apply (batch_recomputes_tasks_created (calm (at_day day0)) (Some day0) None 7 true
           two_tasks_db _ user1 0).
  - vm_compute. reflexivity.
  - apply list_elem_of_here.
  - lia.
Defined.

(** C6, as the code has it.  Nothing in the batch aggregator catches an
    exception: when the recomputation of one user's row raises, for any
    user and on any date of the range, the run ends there with that
    exception; the rows of the dates and users before stay written, and
    no later user, no later date and no weekly roll-up is computed. *)
Theorem batch_failure_aborts_run (E : env) (date : option Z) (email : option string)
    (days : Z) (weekly : bool) (s s0 s1 s2 : db) (us1 us2 : list User) (user : User)
    (e : exn) (i : Z) :
  fault E op_User_query = None ->
  selected_users email s = us1 ++ user :: us2 ->
  (0 <= i < days)%Z ->
  daily_phase (selected_users email s) (target_of date E) i E (announced email s)
    = Ok tt s0 ->
  calculate_daily_stats us1 (target_of date E - i) E s0 = Ok tt s1 ->
  daily_stats_for (target_of date E - i) user E s1 = Raise e s2 ->
  calculate_analytics.handle date email days weekly E s = Raise e s2.
Proof.
  intros Hq Hus Hi H0 H1 H2. rewrite handle_unfold, Hq. cbv zeta.
  unfold daily_phase in *.
  replace days with (i + (days - i))%Z by lia.
  rewrite seqZ_app by lia. rewrite for_each_app, H0.
  replace (days - i)%Z with (Z.succ (days - i - 1)) by lia.
  rewrite seqZ_cons by lia. cbn [for_each]. unfold bind at 1.
  rewrite Z.add_0_l, Hus.
  unfold calculate_daily_stats at 1. rewrite for_each_app.
  unfold calculate_daily_stats in H1. rewrite H1. cbn [for_each].
  unfold bind at 1. by rewrite H2.
Qed.

Lemma batch_failure_aborts_run_witness :
  let o := calculate_analytics.handle (Some (day0 + 1)%Z) None 7 true (calm (at_day day0))
             long_hours_db in
  o = Raise NumericOverflow (final o).
Proof.
  apply (batch_failure_aborts_run (calm (at_day day0)) (Some (day0 + 1)%Z) None 7 true
           long_hours_db
           (final (daily_phase (selected_users None long_hours_db) (day0 + 1) 1
                     (calm (at_day day0)) (announced None long_hours_db)))
           (final (daily_phase (selected_users None long_hours_db) (day0 + 1) 1
                     (calm (at_day day0)) (announced None long_hours_db)))
           _ [] [user2] user1 NumericOverflow 1).
  - reflexivity.
  - reflexivity.
  - lia.
  - vm_compute. reflexivity.
  - reflexivity.
  - vm_compute. reflexivity.
Defined.

(** C6, the claim refuted, twice.  First by the data: the hours of user 1
    do not fit the column, the write of that row raises, and the run ends;
    user 2, next in the loop, has created a task on that day and gets no
    row.  Then by the database layer: it fails on the write of the row of
    user 1, and again user 2 gets no row. *)
Lemma batch_failure_skips_later_users :
  let o := calculate_analytics.handle (Some day0) None 1 false (calm (at_day day0))
             long_hours_db in
  let o' := calculate_analytics.handle (Some day0) None 1 false save_down
              long_hours_db in
  user2 ∈ users long_hours_db
  /\ recount_created (tasks long_hours_db) 2 day0 = 1
  /\ raised o = Some NumericOverflow
  /\ daily (final o) !! (2, day0) = None
  /\ stdout (final o) = [MsgCalculating 2]
  /\ raised o' = Some OperationalError
  /\ daily (final o') !! (2, day0) = None
  /\ stdout (final o') = [MsgCalculating 2].
Proof.
  split; [apply list_elem_of_further, list_elem_of_here|]. vm_compute. done.
Qed.

(* ===================================================================== *)
(** ** The productivity score *)
(* ===================================================================== *)

Lemma daily_stats_for_scores_ok E d user s :
  scores_ok (daily s) -> scores_ok (daily (final (daily_stats_for d user E s))).
Proof.
  intros Hs.
  destruct (daily_stats_for_cases E d user s) as [[[e ->] _]|[[[e ->] _]|[-> _]]];
    cbn [final daily set_daily set_stdout daily_written]; [done| |].
  - apply scores_ok_insert; [done|].
    destruct (daily s !! _) as [r|] eqn:Hr; cbn [default]; [eauto|].
    split; cbn; [lia|done].
  - apply scores_ok_insert; [done|]. apply recomputed_score_ok.
Qed.

Lemma handle_scores_ok E date email days weekly s :
  scores_ok (daily s) ->
  scores_ok (daily (final (calculate_analytics.handle date email days weekly E s))).
Proof.
  intros Hs. rewrite handle_unfold. destruct (fault E op_User_query); [done|]. cbv zeta.
  assert (H1 : scores_ok (daily (final
            (daily_phase (selected_users email s) (target_of date E) days E
               (announced email s))))).
  { unfold daily_phase.
    apply (for_each_final (fun s0 => scores_ok (daily s0))); [|done].
    intros i s0 _ H0. unfold calculate_daily_stats.
    apply (for_each_final (fun s0 => scores_ok (daily s0))); [|done].
    intros u s3 _ H3. by apply daily_stats_for_scores_ok. }
  destruct (daily_phase _ _ _ E _) as [[] s1|e s1]; cbn [final] in H1; [|done].
  destruct weekly; [|done].
  assert (H2 : scores_ok (daily (final
            (calculate_weekly_stats (selected_users email s) (target_of date E) E s1)))).
  { unfold calculate_weekly_stats. cbv zeta.
    apply (for_each_final (fun s0 => scores_ok (daily s0))); [|done].
    intros u s3 _ H3.
    destruct (weekly_stats_for_frame E (target_of date E - PyDate.weekday (target_of date E))
                (target_of date E - PyDate.weekday (target_of date E) + 6)
                (PyDate.year (target_of date E)) (PyDate.iso_week (target_of date E))
                u s3) as (Hd & _).
    by rewrite Hd. }
  by destruct (calculate_weekly_stats _ _ E s1) as [[] s2|e s2].
Qed.

(** C8.  If every stored daily row has its productivity score in
    [0, 100] (in hundredths: [0 .. 10000]) and a zero score when
    [tasks_created] is zero, then so has every daily row after a task save
    (the incremental updater) and after a run of the batch aggregator,
    whatever their outcome. *)
Theorem productivity_score_invariant (E : env) (s : db) :
  scores_ok (daily s) ->
  (forall self, scores_ok (daily (final (signals.save self E s))))
  /\ (forall date email days weekly,
        scores_ok (daily (final (calculate_analytics.handle date email days weekly E s)))).
Proof.
  intros Hs. split.
  - intros self. by apply save_scores_ok.
  - intros date email days weekly. by apply handle_scores_ok.
Qed.

Lemma scores_ok_one_done_db : scores_ok (daily one_done_db).
Proof.
  apply (save_scores_ok (calm (at_day day0)) (new_task 1 1 COMPLETED (Some work) None)
           empty_db).
  intros k r Hk. cbn in Hk. by rewrite lookup_empty in Hk.
Qed.

Lemma productivity_score_invariant_witness :
  (forall self,
      scores_ok (daily (final (signals.save self (calm (at_day day0)) one_done_db))))
  /\ (forall date email days weekly,
        scores_ok (daily (final (calculate_analytics.handle date email days weekly
                                   (calm (at_day day0)) one_done_db)))).
Proof.
  apply (productivity_score_invariant (calm (at_day day0)) one_done_db).
  exact scores_ok_one_done_db.
Defined.

(** The rows the batch aggregator writes satisfy the predicate whatever
    was stored before. *)
Lemma batch_rows_score_ok E date email days weekly s s' user i :
  calculate_analytics.handle date email days weekly E s = Ok tt s' ->
  user ∈ selected_users email s -> (0 <= i < days)%Z ->
  exists r, daily s' !! (u_id user, (target_of date E - i)%Z) = Some r /\ score_ok r.
Proof.
  intros Hrun Hu Hi. apply handle_Ok in Hrun as (s1 & s2 & Hd & Hw & ->).
  destruct (daily_phase_Ok E _ _ _ _ s1 (tasks s) Hd eq_refl) as (Ht & _ & _ & _ & Hall).
  destruct (Hall user i Hu Hi) as [(r & Hr & Heq) _].
  assert (Hd2 : daily s2 = daily s1).
  { destruct weekly; [|by subst].
    by apply calculate_weekly_stats_Ok in Hw as (? & _). }
  cbn [daily set_stdout]. rewrite Hd2. exists r. split; [done|].
  rewrite Heq. apply recomputed_score_ok.
Qed.

(* ===================================================================== *)
(** ** Running the batch aggregator twice *)
(* ===================================================================== *)

Lemma daily_step_ok_env E1 E2 ts user d :
  fault E2 = fault E1 -> daily_step_ok E2 ts user d = daily_step_ok E1 ts user d.
Proof. intros H. unfold daily_step_ok. by rewrite H. Qed.

Lemma week_rows_fmap (f : DailyStats -> DailyStats) m user a b :
  week_rows (f <$> m) user a b = prod_map id f <$> week_rows m user a b.
Proof.
  unfold week_rows. induction (reverse (seqZ a (b - a + 1))) as [|d l IH]; [done|].
  cbn [omap list_omap]. rewrite lookup_fmap.
  destruct (m !! (user, d)) as [r|]; cbn; by rewrite IH.
Qed.

Lemma week_day_fmap (f : DailyStats -> DailyStats) m user a b i :
  week_day (f <$> m) user a b i = f <$> week_day m user a b i.
Proof.
  unfold week_day. destruct (_ && _); [|done]. by rewrite lookup_fmap.
Qed.

Lemma merge_days_forget (rows : list (Z * DailyStats)) acc :
  foldl merge_day acc (snd <$> (prod_map id forget_updated_daily <$> rows))
  = foldl merge_day acc (snd <$> rows).
Proof.
  revert acc. induction rows as [|[d r] rows IH]; intros acc; [done|].
  cbn [fmap list_fmap foldl]. apply IH.
Qed.

(** The roll-up of a week reads no [updated_at]. *)
Lemma rolled_up_forget m user a b st en c t :
  rolled_up (forget_updated_daily <$> m) user a b st en c t
  = rolled_up m user a b st en c t.
Proof.
  unfold rolled_up, average_score. cbv zeta. rewrite week_rows_fmap.
  rewrite merge_days_forget.
  assert (Hproj : forall {B} (p : DailyStats -> B),
            (forall r, p (forget_updated_daily r) = p r) ->
            p <$> (snd <$> (prod_map id forget_updated_daily <$> week_rows m user a b))
            = p <$> (snd <$> week_rows m user a b)).
  { intros B p Hp. rewrite <- !list_fmap_compose. apply list_fmap_ext.
    intros j [d r] _. cbn. apply Hp. }
  rewrite (Hproj _ tasks_created), (Hproj _ tasks_completed), (Hproj _ tasks_overdue),
    (Hproj _ hours_worked), (Hproj _ productivity_score) by (intros; reflexivity).
  f_equal. apply list_fmap_ext. intros j i _. rewrite week_day_fmap.
  by destruct (week_day m user a b i).
Qed.

Lemma rolled_up_same m m' user a b st en c t :
  forget_updated_daily <$> m' = forget_updated_daily <$> m ->
  rolled_up m' user a b st en c t = rolled_up m user a b st en c t.
Proof.
  intros H. rewrite <- (rolled_up_forget m'), <- (rolled_up_forget m). by rewrite H.
Qed.

Lemma weekly_step_ok_same E1 E2 m m' user a b y w :
  fault E2 = fault E1 ->
  forget_updated_daily <$> m' = forget_updated_daily <$> m ->
  weekly_step_ok E2 m' user a b y w = weekly_step_ok E1 m user a b y w.
Proof.
  intros Hf Hm. unfold weekly_step_ok. rewrite Hf.
  by rewrite (rolled_up_same m m' user a b a b (now E2) (now E2) Hm).
Qed.

(** The daily step of a second run, on rows that a first run has already
    recomputed from the same task table: it goes through and changes no
    column but [updated_at]. *)
Lemma daily_stats_for_again E d user s m1 :
  daily_step_ok E (tasks s) (u_id user) d = true ->
  recomputed_at (tasks s) m1 (u_id user, d) ->
  forget_updated_daily <$> daily s = forget_updated_daily <$> m1 ->
  exists s', daily_stats_for d user E s = Ok tt s'
    /\ tasks s' = tasks s /\ users s' = users s /\ weekly s' = weekly s
    /\ forget_updated_daily <$> daily s' = forget_updated_daily <$> m1.
Proof.
  intros Hok (r1 & Hr1 & Heq) Hsim.
  exists (daily_written E d (u_id user) s). split; [by apply daily_stats_for_total|].
  repeat split. unfold daily_written. cbn [daily set_stdout set_daily].
  rewrite fmap_insert, Hsim.
  apply insert_id. rewrite lookup_fmap, Hr1. cbn. f_equal.
  assert (Hk : (forget_updated_daily <$> daily s) !! (u_id user, d)
               = Some (forget_updated_daily r1)).
  { by rewrite Hsim, lookup_fmap, Hr1. }
  rewrite lookup_fmap in Hk. destruct (daily s !! (u_id user, d)) as [r|]; [|done].
  pose proof (f_equal (fmap ds_created_at) Hk) as Hc. cbn in Hc. injection Hc as Hc.
  rewrite Hc. rewrite Heq at 1. reflexivity.
Qed.

(** The same for the weekly step. *)
Lemma weekly_stats_for_again E target user s m1 wm1 :
  weekly_step_ok E (daily s) (u_id user) (week_start target) (week_end target)
    (PyDate.year target) (PyDate.iso_week target) = true ->
  rolled_up_at m1 wm1 (u_id user) target ->
  forget_updated_daily <$> daily s = forget_updated_daily <$> m1 ->
  forget_updated_weekly <$> weekly s = forget_updated_weekly <$> wm1 ->
  exists s', weekly_stats_for (week_start target) (week_end target)
               (PyDate.year target) (PyDate.iso_week target) user E s = Ok tt s'
    /\ tasks s' = tasks s /\ users s' = users s /\ daily s' = daily s
    /\ forget_updated_weekly <$> weekly s' = forget_updated_weekly <$> wm1.
Proof.
  intros Hok (r1 & Hr1 & Heq) Hsim Hwsim.
  eexists. split; [by apply weekly_stats_for_total|].
  repeat split. unfold weekly_written. cbn [weekly set_stdout set_weekly].
  rewrite fmap_insert, Hwsim.
  apply insert_id. rewrite lookup_fmap, Hr1. cbn. f_equal.
  set (k := (u_id user, PyDate.year target, PyDate.iso_week target)) in *.
  assert (Hk : (forget_updated_weekly <$> weekly s) !! k = Some (forget_updated_weekly r1)).
  { by rewrite Hwsim, lookup_fmap, Hr1. }
  rewrite lookup_fmap in Hk. destruct (weekly s !! k) as [r|]; [|done].
  pose proof (f_equal (fmap ws_created_at) Hk) as Hc. cbn in Hc. injection Hc as ->.
  pose proof (f_equal (fmap start_date) Hk) as Hs. cbn in Hs. injection Hs as ->.
  pose proof (f_equal (fmap end_date) Hk) as He. cbn in He. injection He as ->.
  rewrite (rolled_up_same m1 (daily s)) by done.
  rewrite Heq at 1. reflexivity.
Qed.

Lemma calculate_daily_stats_again E us d s m1 :
  (forall u, u ∈ us -> daily_step_ok E (tasks s) (u_id u) d = true
                       /\ recomputed_at (tasks s) m1 (u_id u, d)) ->
  forget_updated_daily <$> daily s = forget_updated_daily <$> m1 ->
  exists s', calculate_daily_stats us d E s = Ok tt s'
    /\ tasks s' = tasks s /\ users s' = users s /\ weekly s' = weekly s
    /\ forget_updated_daily <$> daily s' = forget_updated_daily <$> m1.
Proof.
  intros Hall Hsim. unfold calculate_daily_stats.
  apply (for_each_total
           (fun s0 => tasks s0 = tasks s /\ users s0 = users s /\ weekly s0 = weekly s
                      /\ forget_updated_daily <$> daily s0 = forget_updated_daily <$> m1));
    [done|].
  intros u s0 Hu (Ht & Hus & Hw & Hd). destruct (Hall u Hu) as [Hok Hr].
  rewrite <- Ht in Hok, Hr.
  destruct (daily_stats_for_again E d u s0 m1 Hok Hr Hd) as (s1 & -> & ? & ? & ? & ?).
  exists s1. repeat split; congruence.
Qed.

(** C2, as the code has it.  A second run of the batch aggregator with
    the same arguments over the same task table (the same failures of the
    database layer, the same target date, any clock) returns when the
    first did, and leaves every column of every daily and weekly row as
    the first run left it, but for [updated_at], which [save()] sets to
    the time of the write. *)
Theorem batch_rerun_changes_only_updated_at (E1 E2 : env) (date : option Z)
    (email : option string) (days : Z) (weekly_ : bool) (s s1 : db) :
  fault E2 = fault E1 ->
  target_of date E2 = target_of date E1 ->
  calculate_analytics.handle date email days weekly_ E1 s = Ok tt s1 ->
  exists s2,
    calculate_analytics.handle date email days weekly_ E2 s1 = Ok tt s2
    /\ tasks s2 = tasks s1
    /\ forget_updated_daily <$> daily s2 = forget_updated_daily <$> daily s1
    /\ forget_updated_weekly <$> weekly s2 = forget_updated_weekly <$> weekly s1.
Proof.
  intros Hf Htarget Hrun.
  assert (Hq : fault E1 op_User_query = None).
  { rewrite handle_unfold in Hrun. by destruct (fault E1 op_User_query). }
  apply handle_Ok in Hrun as (sa & sb & Hd & Hw & ->).
  set (us := selected_users email s) in *.
  set (target := target_of date E1) in *.
  destruct (daily_phase_Ok E1 us target days _ sa (tasks s) Hd eq_refl)
    as (Hta & Hua & Hwa & _ & Hall).
  assert (Hb : daily sb = daily sa /\ tasks sb = tasks sa /\ users sb = users sa
               /\ (weekly_ = true -> forall u, u ∈ us ->
                     rolled_up_at (daily sa) (weekly sb) (u_id u) target
                     /\ weekly_step_ok E1 (daily sa) (u_id u) (week_start target)
                          (week_end target) (PyDate.year target)
                          (PyDate.iso_week target) = true)).
  { destruct weekly_; [|by subst].
    apply calculate_weekly_stats_Ok in Hw as (? & ? & ? & _ & Hwall).
    split; [done|]. split; [done|]. split; [done|]. intros _. exact Hwall. }
  destruct Hb as (Hdb & Htb & Hub & Hwall).
  set (s1 := set_stdout (fun out => out ++ [MsgCalculated (length us)]) sb) in *.
  assert (Hus1 : selected_users email s1 = us).
  { unfold selected_users, s1, us. cbn [users set_stdout]. rewrite Hub, Hua.
    unfold announced. cbn [users set_stdout]. done. }
  rewrite handle_unfold, Hf, Hq, Hus1, Htarget. cbv zeta. fold target.
  (* the days *)
  assert (Hdaily : exists s2a,
            daily_phase us target days E2 (announced email s1) = Ok tt s2a
            /\ tasks s2a = tasks s /\ users s2a = users s /\ weekly s2a = weekly sb
            /\ forget_updated_daily <$> daily s2a = forget_updated_daily <$> daily sa).
  { unfold daily_phase.
    apply (for_each_total
             (fun s0 => tasks s0 = tasks s /\ users s0 = users s /\ weekly s0 = weekly sb
                        /\ forget_updated_daily <$> daily s0
                           = forget_updated_daily <$> daily sa)).
    { unfold announced, s1. cbn [tasks users weekly daily set_stdout].
      rewrite Htb, Hta, Hub, Hua, Hdb. done. }
    intros i s0 Hi (Ht & Hu & Hw0 & Hd0). apply elem_of_seqZ in Hi.
    destruct (calculate_daily_stats_again E2 us (target - i) s0 (daily sa))
      as (s3 & Hs3 & ? & ? & ? & ?); [|done|].
    - intros u Hu0. destruct (Hall u i Hu0 ltac:(lia)) as [Hr Hok].
      rewrite Ht. split; [|done]. by rewrite (daily_step_ok_env E1 E2).
    - exists s3. repeat split; congruence. }
  destruct Hdaily as (s2a & -> & Ht2 & Hu2 & Hw2 & Hd2).
  destruct weekly_.
  - (* the week *)
    assert (Hweekly : exists s2b,
              calculate_weekly_stats us target E2 s2a = Ok tt s2b
              /\ tasks s2b = tasks s /\ daily s2b = daily s2a
              /\ forget_updated_weekly <$> weekly s2b
                 = forget_updated_weekly <$> weekly sb).
    { unfold calculate_weekly_stats. cbv zeta.
      fold (week_start target). fold (week_end target).
      destruct (for_each_total
             (fun s0 => tasks s0 = tasks s /\ users s0 = users s /\ daily s0 = daily s2a
                        /\ forget_updated_weekly <$> weekly s0
                           = forget_updated_weekly <$> weekly sb)
             us (weekly_stats_for (week_start target) (week_end target)
                   (PyDate.year target) (PyDate.iso_week target)) E2 s2a)
        as (s2b & Hs2b & ? & ? & ? & ?).
      { repeat split; try done. by rewrite Hw2. }
      { intros u s0 Hu0 (Ht & Hu & Hd0 & Hw0).
        destruct (Hwall eq_refl u Hu0) as [Hr Hok].
        destruct (weekly_stats_for_again E2 target u s0 (daily sa) (weekly sb))
          as (s3 & Hs3 & ? & ? & ? & ?); try done.
        - rewrite <- Hok. apply weekly_step_ok_same; [done|]. by rewrite Hd0.
        - by rewrite Hd0.
        - exists s3. repeat split; congruence. }
      exists s2b. by repeat split. }
    destruct Hweekly as (s2b & -> & Ht2b & Hd2b & Hw2b).
    eexists. split; [reflexivity|]. unfold s1. cbn [tasks daily weekly set_stdout].
    repeat split; try congruence.
  - subst sb. unfold ret. eexists. split; [reflexivity|].
    unfold s1. cbn [tasks daily weekly set_stdout].
    repeat split; try congruence.
Qed.

Lemma batch_rerun_changes_only_updated_at_witness :
  let s1 := final (calculate_analytics.handle None None 7 true (calm (at_day day0))
                     two_tasks_db) in
  exists s2,
    calculate_analytics.handle None None 7 true (calm (a_second_after day0)) s1 = Ok tt s2
    /\ tasks s2 = tasks s1
    /\ forget_updated_daily <$> daily s2 = forget_updated_daily <$> daily s1
    /\ forget_updated_weekly <$> weekly s2 = forget_updated_weekly <$> weekly s1.
Proof.
  apply (batch_rerun_changes_only_updated_at (calm (at_day day0))
           (calm (a_second_after day0)) None None 7 true two_tasks_db).
  - reflexivity.
  - reflexivity.
  - vm_compute. reflexivity.
Defined.

(** C2, the claim refuted: the same run, a second later, over the same
    task table.  The row of user 1 and [day0] has a new [updated_at], and
    so has the weekly row. *)
Lemma batch_rerun_changes_updated_at :
  let s1 := final (calculate_analytics.handle (Some day0) None 7 true
                     (calm (at_day day0)) two_tasks_db) in
  let o := calculate_analytics.handle (Some day0) None 7 true
             (calm (a_second_after day0)) s1 in
  raised o = None
  /\ tasks (final o) = tasks two_tasks_db
  /\ ds_updated_at <$> daily s1 !! (1, day0) = Some (at_day day0)
  /\ ds_updated_at <$> daily (final o) !! (1, day0) = Some (a_second_after day0)
  /\ ws_updated_at <$> weekly s1 !! (1, 2026%Z, 45%Z) = Some (at_day day0)
  /\ ws_updated_at <$> weekly (final o) !! (1, 2026%Z, 45%Z)
     = Some (a_second_after day0).
Proof. vm_compute. done. Qed.

(* ===================================================================== *)
(** ** The key of the weekly row *)
(* ===================================================================== *)

(** The weekly row a run writes is keyed by the calendar year of the
    target date ([end_date.year]) and its ISO week number. *)
Lemma batch_weekly_key E date email days s s' user :
  calculate_analytics.handle date email days true E s = Ok tt s' ->
  user ∈ selected_users email s ->
  is_Some (weekly s' !! (u_id user, PyDate.year (target_of date E),
                         PyDate.iso_week (target_of date E))).
Proof.
  intros Hrun Hu. apply handle_Ok in Hrun as (s1 & s2 & _ & Hw & ->).
  apply calculate_weekly_stats_Ok in Hw as (_ & _ & _ & _ & Hall).
  destruct (Hall user Hu) as [(r & Hr & _) _]. cbn [weekly set_stdout]. eauto.
Qed.

(** C4, at the failing input.  2024-12-30 is the Monday of ISO week 1 of
    2025.  The run for that date files the week under (2024, 1), the key
    of the week of 2024-01-01: run after the run for 2024-01-03, it
    finds that row and overwrites its totals and breakdown, leaving its
    [start_date] at 2024-01-01; no row is keyed (2025, 1). *)
Lemma week_of_2024_12_30_is_filed_under_2024 :
  let jan := PyDate.ymd2ord 2024 1 3 in
  let dec := PyDate.ymd2ord 2024 12 30 in
  let s1 := final (calculate_analytics.handle (Some jan) None 1 true
                     (calm (at_day jan)) two_tasks_db) in
  let o := calculate_analytics.handle (Some dec) None 1 true (calm (at_day dec)) s1 in
  (PyDate.iso_year jan, PyDate.iso_week jan) = (2024, 1)%Z
  /\ (PyDate.iso_year dec, PyDate.iso_week dec) = (2025, 1)%Z
  /\ (PyDate.year dec, PyDate.iso_week dec) = (2024, 1)%Z
  /\ raised o = None
  /\ weekly (final o) !! (1, 2025%Z, 1%Z) = None
  /\ start_date <$> weekly (final o) !! (1, 2024%Z, 1%Z) = Some (PyDate.ymd2ord 2024 1 1)
  /\ (fun r => de_date <$> daily_breakdown r) <$> weekly (final o) !! (1, 2024%Z, 1%Z)
     = Some (seqZ dec 7)
  /\ size (weekly (final o)) = 2.
Proof. vm_compute. done. Qed.

(* ===================================================================== *)
(** ** The run returns *)
(* ===================================================================== *)

(** X2.  A run without the weekly roll-up returns whenever the database
    layer answers and the hours of every row it computes fit their column. *)
Lemma batch_daily_run_returns E date email days s :
  fault E op_User_query = None ->
  (forall u i, u ∈ selected_users email s -> (0 <= i < days)%Z ->
     daily_step_ok E (tasks s) (u_id u) (target_of date E - i) = true) ->
  exists s', calculate_analytics.handle date email days false E s = Ok tt s'.
Proof.
  intros Hq Hall. rewrite handle_unfold, Hq. cbv zeta.
  destruct (for_each_total (fun s0 => tasks s0 = tasks s) (seqZ 0 days)
              (fun i => calculate_daily_stats (selected_users email s)
                          (target_of date E - i)%Z) E (announced email s))
    as (s1 & Hs1 & _); [done| |].
  - intros i s0 Hi Ht. apply elem_of_seqZ in Hi. unfold calculate_daily_stats.
    apply (for_each_total (fun s0 => tasks s0 = tasks s)); [done|].
    intros u s2 Hu Ht2. eexists. split.
    + apply daily_stats_for_total. rewrite Ht2. apply Hall; [done|lia].
    + done.
  - unfold daily_phase. rewrite Hs1. unfold ret. eauto.
Qed.

(* ===================================================================== *)
(** ** More on the retention pruner *)
(* ===================================================================== *)

Lemma size_filter_split {K A} `{Countable K} (P : K * A -> Prop)
    `{!forall x, Decision (P x)} (m : gmap K A) :
  size (filter P m) + size (filter (fun x => ¬ P x) m) = size m.
Proof.
  rewrite <- map_size_disj_union by apply map_disjoint_filter_complement.
  by rewrite map_filter_union_complement.
Qed.

Ltac pruner_unfold :=
  unfold cleanup_analytics.handle; cbn [negb andb];
  unfold today, cleanup_analytics.DailyStats_count_old,
    cleanup_analytics.WeeklyStats_count_old,
    cleanup_analytics.DailyStats_delete_old, cleanup_analytics.WeeklyStats_delete_old,
    cleanup_analytics.when, write, orm, bind, ret, get, modify, ask_now; cbv beta.

(** X3.  The pruner only ever removes rows of the two stats tables: whatever
    its flags and its outcome, every row left was there before with the same
    columns, and the users and the tasks are as they were. *)
Lemma cleanup_only_removes_stats (E : env) (days weeks : Z) (dry_run confirm : bool)
    (s : db) :
  let o := cleanup_analytics.handle days weeks dry_run confirm E s in
  daily (final o) ⊆ daily s /\ weekly (final o) ⊆ weekly s
  /\ tasks (final o) = tasks s /\ users (final o) = users s.
Proof.
  pruner_unfold.
  destruct dry_run, confirm; cbn [negb andb]; cbv beta;
    try (cbn; done);
    (destruct (fault E op_DailyStats_query); [cbn; done|]);
    (destruct (fault E op_WeeklyStats_query); [cbn; done|]); cbn [final].
  all: repeat first
    [ progress cbn [final daily weekly tasks users set_stdout set_daily set_weekly
                    stdout Nat.eqb andb]
    | match goal with
      | |- context [if ?b then _ else _] => destruct b
      | |- context [fault ?e ?op] => destruct (fault e op)
      end ];
    repeat split; first [done | apply map_filter_subseteq].
Qed.

(** X4.  What a dry run counts is what a confirmed run deletes.  When the
    database layer does not fail, the two counts a dry run reports are the
    numbers of rows by which a confirmed run with the same options shrinks
    the two tables, and the numbers that run reports as deleted. *)
Lemma cleanup_dry_run_counts_the_deletions (t : datetime) (days weeks : Z) (s : db) :
  let dry := final (cleanup_analytics.handle days weeks true false (calm t) s) in
  let run := final (cleanup_analytics.handle days weeks false true (calm t) s) in
  let found nd nw := [MsgFoundDaily nd (dt_date t - days);
                      MsgFoundWeekly nw (dt_date t - 49 * weeks)] in
  exists nd nw,
    stdout dry = stdout s ++ found nd nw ++ [MsgDryRun]
                   ++ (if 0 <? nd then [MsgWouldDeleteDaily nd] else [])
                   ++ (if 0 <? nw then [MsgWouldDeleteWeekly nw] else [])
    /\ size (daily run) + nd = size (daily s)
    /\ size (weekly run) + nw = size (weekly s)
    /\ stdout run = stdout s ++ found nd nw
                      ++ (if 0 <? nd then [MsgDeletedDaily nd] else [])
                      ++ (if 0 <? nw then [MsgDeletedWeekly nw] else [])
                      ++ [if (nd =? 0) && (nw =? 0) then MsgNothingToDelete
                          else MsgCleanupCompleted nd nw].
Proof.
  intros dry run found.
  exists (size (cleanup_analytics.old_daily (dt_date t - days) (daily s))),
         (size (cleanup_analytics.old_weekly (dt_date t - 49 * weeks) (weekly s))).
  subst dry run found.
  assert (Hd : size (daily s) = size (filter (fun kr : nat * Z * DailyStats =>
                         ¬ (kr.1.2 < dt_date t - days)%Z) (daily s))
               + size (cleanup_analytics.old_daily (dt_date t - days) (daily s))).
  { rewrite Nat.add_comm. symmetry. apply size_filter_split. }
  assert (Hw : size (weekly s) = size (filter (fun kr : nat * Z * Z * WeeklyStats =>
                         ¬ (start_date kr.2 < dt_date t - 49 * weeks)%Z) (weekly s))
               + size (cleanup_analytics.old_weekly (dt_date t - 49 * weeks) (weekly s))).
  { rewrite Nat.add_comm. symmetry. apply size_filter_split. }
  pruner_unfold.
  replace (7 * (weeks * 7))%Z with (49 * weeks)%Z by lia.
  destruct (0 <? size (cleanup_analytics.old_daily _ _)) eqn:End;
    destruct (0 <? size (cleanup_analytics.old_weekly _ _)) eqn:Enw; simpl;
    rewrite ?End, ?Enw; simpl.
  all: revert Hd Hw End Enw;
    generalize (size (cleanup_analytics.old_daily (dt_date t - days) (daily s)));
    generalize (size (cleanup_analytics.old_weekly (dt_date t - 49 * weeks) (weekly s)));
    intros nw nd Hd Hw End Enw;
    rewrite ?Nat.ltb_lt, ?Nat.ltb_ge in *.
  all: destruct nd as [|nd], nw as [|nw]; try lia; simpl; rewrite <- ?app_assoc; simpl;
    repeat split; first [reflexivity | lia].
Qed.

(** X5.  The two deletions of a confirmed run are not one transaction.  When
    the deletion of the old weekly rows fails, the run ends with that
    exception after the old daily rows are gone for good, and the weekly
    table is as it was. *)
Lemma cleanup_is_not_atomic (E : env) (days weeks : Z) (s : db) (e : exn)
    (k : nat * Z * Z) (r : WeeklyStats) :
  fault E op_DailyStats_query = None ->
  fault E op_WeeklyStats_query = None ->
  fault E op_DailyStats_delete = None ->
  fault E op_WeeklyStats_delete = Some e ->
  weekly s !! k = Some r ->
  (start_date r < dt_date (now E) - 49 * weeks)%Z ->
  let o := cleanup_analytics.handle days weeks false true E s in
  raised o = Some e
  /\ daily (final o) = filter (fun kr => ¬ (kr.1.2 < dt_date (now E) - days)%Z) (daily s)
  /\ weekly (final o) = weekly s.
Proof.
  intros Hq1 Hq2 Hd1 Hd2 Hk Hold.
  assert (Hkeep : size (cleanup_analytics.old_daily (dt_date (now E) - days) (daily s)) = 0 ->
    daily s = filter (fun kr => ¬ (kr.1.2 < dt_date (now E) - days)%Z) (daily s)).
  { intros H0. apply map_size_empty_iff in H0.
    symmetry. apply map_filter_id. intros k' r' Hk'. simpl.
    apply (map_empty_filter_1 _ _ H0 k' r' Hk'). }
  assert (Hpos : (0 <? size (cleanup_analytics.old_weekly (dt_date (now E) - 49 * weeks)
                               (weekly s))) = true).
  { apply Nat.ltb_lt.
    destruct (size (cleanup_analytics.old_weekly _ _)) eqn:Hsz; [|lia].
    apply map_size_empty_iff in Hsz.
    exfalso. apply (map_empty_filter_1 _ _ Hsz k r Hk). exact Hold. }
  pruner_unfold. rewrite Hq1, Hq2.
  replace (7 * (weeks * 7))%Z with (49 * weeks)%Z by lia.
  rewrite Hpos.
  destruct (0 <? size (cleanup_analytics.old_daily _ _)) eqn:End; simpl;
    rewrite ?Hd1, ?Hd2; simpl; rewrite ?Hd2; simpl.
  - done.
  - repeat split. apply Hkeep. apply Nat.ltb_ge in End. lia.
Qed.

Lemma cleanup_is_not_atomic_witness :
  let o := cleanup_analytics.handle 90 1 false true weekly_delete_down stale_db in
  raised o = Some OperationalError
  /\ daily (final o)
     = filter (fun kr => ¬ (kr.1.2 < dt_date (now weekly_delete_down) - 90)%Z) (daily stale_db)
  /\ weekly (final o) = weekly stale_db.
Proof.
  apply (cleanup_is_not_atomic weekly_delete_down 90 1 stale_db OperationalError
           (1, 2025%Z, 40%Z) (sample_weekly (day0 - 403)));
    first [reflexivity | vm_compute; reflexivity].
Defined.

(* ===================================================================== *)
(** ** More on the batch aggregator *)
(* ===================================================================== *)

(** Every row of a run that returns is the one recomputed from the task
    table, which the run leaves as it was. *)
Lemma handle_Ok_rows E date email days weekly s s' :
  calculate_analytics.handle date email days weekly E s = Ok tt s' ->
  tasks s' = tasks s /\ users s' = users s
  /\ forall user i, user ∈ selected_users email s -> (0 <= i < days)%Z ->
       recomputed_at (tasks s) (daily s') (u_id user, (target_of date E - i)%Z)
       /\ daily_step_ok E (tasks s) (u_id user) (target_of date E - i) = true.
Proof.
  intros Hrun. apply handle_Ok in Hrun as (s1 & s2 & Hd & Hw & ->).
  destruct (daily_phase_Ok E _ _ _ _ s1 (tasks s) Hd eq_refl) as (Ht & Hu & _ & _ & Hall).
  assert (Hs2 : daily s2 = daily s1 /\ tasks s2 = tasks s1 /\ users s2 = users s1).
  { destruct weekly; [|by subst].
    by apply calculate_weekly_stats_Ok in Hw as (? & ? & ? & _). }
  destruct Hs2 as (Hd2 & Ht2 & Hu2). cbn [tasks users daily set_stdout].
  rewrite Hd2, Ht2, Hu2, Ht. repeat split; [done|..]; by apply Hall.
Qed.

Lemma sum_hours_with_hours (l : list Task) (P : Task -> bool) :
  sum_hours (List.filter (fun t => P t && bool_decide (is_Some (t_actual_hours t))) l)
  = sum_hours (List.filter P l).
Proof.
  unfold sum_hours. induction l as [|t l IH]; [done|]. cbn [List.filter].
  destruct (P t); cbn [andb]; [|exact IH].
  destruct (t_actual_hours t) as [h|] eqn:Hh.
  - rewrite bool_decide_eq_true_2 by eauto. cbn [omap list_omap]. rewrite Hh.
    destruct (h =? 0)%Z; cbn [foldr]; by rewrite ?IH.
  - rewrite bool_decide_eq_false_2 by (by intros [? ?]).
    cbn [omap list_omap]. rewrite Hh. exact IH.
Qed.

Lemma score_of_near_rate (completed created : nat) :
  0 < created -> near_rate (score_of completed created) completed created.
Proof.
  intros Hpos. unfold near_rate, score_of, round_half_even.
  pose proof (Z.div_mod (10000 * Z.of_nat completed) (Z.of_nat created) ltac:(lia)) as Hdm.
  pose proof (Z.mod_pos_bound (10000 * Z.of_nat completed) (Z.of_nat created) ltac:(lia))
    as Hr.
  split; [|split].
  - intros ->. cbn [Nat.leb]. change (10000 * Z.of_nat 0)%Z with 0%Z.
    rewrite Z.div_0_l, Z.mod_0_l by lia.
    by rewrite (proj2 (Z.ltb_lt _ _)) by lia.
  - intros Hle. destruct (completed <=? created) eqn:Hc; [|done].
    apply Nat.leb_le in Hc. assert (completed = created) as -> by lia.
    rewrite Z.div_mul, Z.mod_mul by lia.
    by rewrite (proj2 (Z.ltb_lt _ _)) by lia.
  - intros Hle. rewrite (proj2 (Nat.leb_le _ _) Hle).
    repeat case_match; rewrite ?Z.ltb_lt, ?Z.ltb_ge in *; nia.
Qed.

(** X6.  Every counter of a row the batch aggregator writes is recomputed
    from the task table as it is at the time of the run: the user's tasks
    completed on the date, the tasks due before the date that are still
    pending or in progress, and the hours logged on the tasks completed on
    the date; the score is 0 when no task was created on the date and
    follows the completion rate of the row's own counters otherwise. *)
Lemma batch_recomputes_every_counter (E : env) (date : option Z)
    (email : option string) (days : Z) (weekly : bool) (s s' : db)
    (user : User) (i : Z) :
  calculate_analytics.handle date email days weekly E s = Ok tt s' ->
  user ∈ selected_users email s ->
  (0 <= i < days)%Z ->
  let d := (target_of date E - i)%Z in
  exists r, daily s' !! (u_id user, d) = Some r
    /\ tasks_completed r = length (tasks_of (tasks s') (u_id user) (completed_on d))
    /\ tasks_overdue r = length (tasks_of (tasks s') (u_id user) (overdue_on d))
    /\ hours_worked r = sum_hours (tasks_of (tasks s') (u_id user) (completed_on d))
    /\ (tasks_created r = 0 -> productivity_score r = 0%Z)
    /\ (0 < tasks_created r ->
        near_rate (productivity_score r) (tasks_completed r) (tasks_created r)).
Proof.
  intros Hrun Hu Hi d. apply handle_Ok_rows in Hrun as (Ht & _ & Hall).
  destruct (Hall user i Hu Hi) as [(r & Hr & Heq) _]. rewrite Ht.
  exists r. split; [exact Hr|]. rewrite Heq. cbn [recomputed tasks_completed tasks_overdue
    hours_worked productivity_score tasks_created fst snd].
  split; [reflexivity|]. split; [reflexivity|]. split; [|split].
  - unfold tasks_of.
    rewrite <- (sum_hours_with_hours (tasks s)
                  (fun t => (t_user t =? u_id user) && completed_on d t)).
    unfold completed_with_hours. f_equal. apply filter_ext. intros t.
    by rewrite andb_assoc.
  - intros ->. reflexivity.
  - intros Hpos. rewrite (proj2 (Nat.ltb_lt _ _) Hpos). by apply score_of_near_rate.
Qed.

Lemma batch_recomputes_every_counter_witness :
  let s' := final (calculate_analytics.handle (Some day0) None 7 true
                     (calm (at_day day0)) two_tasks_db) in
  let d := (target_of (Some day0) (calm (at_day day0)) - 0)%Z in
  exists r, daily s' !! (1, d) = Some r
    /\ tasks_completed r = length (tasks_of (tasks s') 1 (completed_on d))
    /\ tasks_overdue r = length (tasks_of (tasks s') 1 (overdue_on d))
    /\ hours_worked r = sum_hours (tasks_of (tasks s') 1 (completed_on d))
    /\ (tasks_created r = 0 -> productivity_score r = 0%Z)
    /\ (0 < tasks_created r ->
        near_rate (productivity_score r) (tasks_completed r) (tasks_created r)).
Proof.
  apply (batch_recomputes_every_counter (calm (at_day day0)) (Some day0) None 7 true
           two_tasks_db _ user1 0).
  - vm_compute. reflexivity.
  - apply list_elem_of_here.
  - lia.
Defined.

Lemma seed_category_lookup acc t cid :
  entry_counts <$> (seed_category acc t !! cid) =
  if in_category_id cid t
  then Some (match acc !! cid with
             | Some e => (ce_tasks_created e + 1, ce_tasks_completed e)
             | None => (1, 0)
             end)
  else entry_counts <$> (acc !! cid).
Proof.
  unfold seed_category, in_category_id. destruct (t_category t) as [c|]; [|done].
  destruct (Nat.eqb_spec (c_id c) cid) as [->|Hne].
  - rewrite lookup_alter_eq. destruct (acc !! cid) as [e|] eqn:He.
    + rewrite He. done.
    + rewrite lookup_insert_eq. done.
  - rewrite lookup_alter_ne by done.
    destruct (acc !! c_id c); [done|]. by rewrite lookup_insert_ne.
Qed.

Lemma seed_categories_lookup l acc cid :
  entry_counts <$> (foldl seed_category acc l !! cid) =
  let n := length (List.filter (in_category_id cid) l) in
  match acc !! cid with
  | Some e => Some (ce_tasks_created e + n, ce_tasks_completed e)
  | None => if 0 <? n then Some (n, 0) else None
  end.
Proof.
  revert acc. induction l as [|t l IH]; intros acc; cbn [foldl List.filter length].
  - cbv zeta. cbn [length Nat.ltb Nat.leb]. destruct (acc !! cid) as [e|]; [|done].
    cbn. by rewrite Nat.add_0_r.
  - rewrite IH. cbv zeta. pose proof (seed_category_lookup acc t cid) as Hs.
    destruct (in_category_id cid t); cbn [length].
    + destruct (seed_category acc t !! cid) as [e'|]; [|done].
      injection Hs as Hs. destruct (acc !! cid) as [e|]; injection Hs as H1 H2.
      * rewrite H1, H2. f_equal. f_equal. lia.
      * rewrite H1, H2. cbn [Nat.ltb Nat.leb]. reflexivity.
    + destruct (seed_category acc t !! cid) as [e'|], (acc !! cid) as [e|];
        try done. injection Hs as H1 H2. by rewrite H1, H2.
Qed.

Lemma count_category_lookup acc t cid :
  entry_counts <$> (count_category acc t !! cid) =
  match acc !! cid with
  | Some e => Some (ce_tasks_created e,
                    ce_tasks_completed e + (if in_category_id cid t then 1 else 0))
  | None => None
  end.
Proof.
  unfold count_category, in_category_id. destruct (t_category t) as [c|].
  - destruct (Nat.eqb_spec (c_id c) cid) as [->|Hne].
    + destruct (acc !! cid) as [e|] eqn:He; [|by rewrite He].
      rewrite lookup_alter_eq, He. done.
    + destruct (acc !! c_id c).
      * rewrite lookup_alter_ne by done. destruct (acc !! cid); [|done].
        cbn. unfold entry_counts. by rewrite Nat.add_0_r.
      * destruct (acc !! cid); [|done]. cbn. unfold entry_counts. by rewrite Nat.add_0_r.
  - destruct (acc !! cid); [|done]. cbn. unfold entry_counts. by rewrite Nat.add_0_r.
Qed.

Lemma count_categories_lookup l acc cid :
  entry_counts <$> (foldl count_category acc l !! cid) =
  match acc !! cid with
  | Some e => Some (ce_tasks_created e,
                    ce_tasks_completed e + length (List.filter (in_category_id cid) l))
  | None => None
  end.
Proof.
  revert acc. induction l as [|t l IH]; intros acc; cbn [foldl List.filter length].
  - destruct (acc !! cid); [|done]. cbn. unfold entry_counts. by rewrite Nat.add_0_r.
  - rewrite IH. pose proof (count_category_lookup acc t cid) as Hs.
    destruct (count_category acc t !! cid) as [e'|], (acc !! cid) as [e|]; try done.
    injection Hs as H1 H2. rewrite H1, H2.
    destruct (in_category_id cid t); cbn [length]; f_equal; f_equal; lia.
Qed.

(** X7.  The [categories_data] of a row the batch aggregator writes has an
    entry for exactly the categories in which the user created a task on the
    date; the entry counts those tasks and, among the tasks the user
    completed on the date, the ones of the category.  Completions in a
    category with no task created on the date are not recorded. *)
Lemma batch_categories_data (E : env) (date : option Z)
    (email : option string) (days : Z) (weekly : bool) (s s' : db)
    (user : User) (i : Z) :
  calculate_analytics.handle date email days weekly E s = Ok tt s' ->
  user ∈ selected_users email s ->
  (0 <= i < days)%Z ->
  let d := (target_of date E - i)%Z in
  let created_in cid :=
    length (List.filter (in_category_id cid) (tasks_of (tasks s') (u_id user) (created_on d))) in
  let completed_in cid :=
    length (List.filter (in_category_id cid)
              (tasks_of (tasks s') (u_id user) (completed_on d))) in
  exists r, daily s' !! (u_id user, d) = Some r
    /\ forall cid,
         entry_counts <$> (categories_data r !! cid)
         = if 0 <? created_in cid then Some (created_in cid, completed_in cid) else None.
Proof.
  intros Hrun Hu Hi d created_in completed_in.
  apply handle_Ok_rows in Hrun as (Ht & _ & Hall).
  destruct (Hall user i Hu Hi) as [(r & Hr & Heq) _].
  exists r. split; [exact Hr|]. intros cid. subst created_in completed_in. cbv beta.
  rewrite Ht, Heq. cbn [recomputed categories_data fst snd]. fold d.
  rewrite count_categories_lookup.
  pose proof (seed_categories_lookup
                (List.filter (fun t => (t_user t =? u_id user) && created_on d t) (tasks s))
                ∅ cid) as Hs.
  rewrite lookup_empty in Hs. cbv zeta in Hs. unfold tasks_of.
  destruct (foldl seed_category ∅ _ !! cid) as [e|];
    destruct (0 <? length _); try done.
  injection Hs as H1 H2. by rewrite H1, H2.
Qed.

Lemma batch_categories_data_witness :
  let s' := final (calculate_analytics.handle (Some day0) None 7 true
                     (calm (at_day day0)) two_tasks_db) in
  let d := (target_of (Some day0) (calm (at_day day0)) - 0)%Z in
  let created_in cid :=
    length (List.filter (in_category_id cid) (tasks_of (tasks s') 1 (created_on d))) in
  let completed_in cid :=
    length (List.filter (in_category_id cid) (tasks_of (tasks s') 1 (completed_on d))) in
  exists r, daily s' !! (1, d) = Some r
    /\ forall cid,
         entry_counts <$> (categories_data r !! cid)
         = if 0 <? created_in cid then Some (created_in cid, completed_in cid) else None.
Proof.
  apply (batch_categories_data (calm (at_day day0)) (Some day0) None 7 true
           two_tasks_db _ user1 0).
  - vm_compute. reflexivity.
  - apply list_elem_of_here.
  - lia.
Defined.

(* ===================================================================== *)
(** ** More on the weekly roll-up *)
(* ===================================================================== *)

(** The weekly row of a run that returns is the roll-up of the daily
    rows the run leaves. *)
Lemma handle_Ok_weekly E date email days s s' user :
  calculate_analytics.handle date email days true E s = Ok tt s' ->
  user ∈ selected_users email s ->
  rolled_up_at (daily s') (weekly s') (u_id user) (target_of date E).
Proof.
  intros Hrun Hu. apply handle_Ok in Hrun as (s1 & s2 & _ & Hw & ->).
  apply calculate_weekly_stats_Ok in Hw as (Hd & _ & _ & _ & Hall).
  destruct (Hall user Hu) as [Hr _]. cbn [daily weekly set_stdout]. by rewrite Hd.
Qed.

Lemma week_start_is_monday (d : Z) :
  PyDate.weekday (week_start d) = 0%Z /\ (week_start d <= d <= week_end d)%Z.
Proof.
  unfold week_end, week_start, PyDate.weekday.
  pose proof (Z.mod_pos_bound (d + 6) 7 ltac:(lia)) as Hb.
  split; [|lia].
  replace (d - (d + 6) mod 7 + 6)%Z with (d + 6 - (d + 6) mod 7)%Z by lia.
  rewrite Zminus_mod, Zmod_mod, Z.sub_diag. reflexivity.
Qed.

Lemma week_day_in m user a i :
  (0 <= i <= 6)%Z -> week_day m user a (a + 6) i = m !! (user, (a + i)%Z).
Proof.
  intros Hi. unfold week_day.
  rewrite (proj2 (Z.leb_le _ _)) by lia. rewrite (proj2 (Z.leb_le _ _)) by lia. done.
Qed.

(** X8.  The [daily_breakdown] of a weekly row the batch aggregator writes
    has seven entries, for the seven days from the Monday on or before the
    target date, in that order; the target date is one of them. *)
Lemma weekly_breakdown_is_the_week (E : env) (date : option Z) (email : option string)
    (days : Z) (s s' : db) (user : User) :
  calculate_analytics.handle date email days true E s = Ok tt s' ->
  user ∈ selected_users email s ->
  let target := target_of date E in
  exists r,
    weekly s' !! (u_id user, PyDate.year target, PyDate.iso_week target) = Some r
    /\ de_date <$> daily_breakdown r = seqZ (week_start target) 7
    /\ PyDate.weekday (week_start target) = 0%Z
    /\ (week_start target <= target <= week_start target + 6)%Z.
Proof.
  intros Hrun Hu target.
  destruct (handle_Ok_weekly _ _ _ _ _ _ _ Hrun Hu) as (r & Hr & Heq).
  exists r. split; [exact Hr|]. split.
  - rewrite Heq. cbn [rolled_up daily_breakdown].
    rewrite <- list_fmap_compose.
    replace (seqZ (week_start target) 7)
      with (Z.add (week_start target) <$> seqZ 0 7)
      by (rewrite fmap_add_seqZ; f_equal; lia).
    apply list_fmap_ext. intros _ i _. cbn.
    by destruct (week_day _ _ _ _ _).
  - apply week_start_is_monday.
Qed.

Lemma weekly_breakdown_is_the_week_witness :
  let s' := final (calculate_analytics.handle (Some day0) None 7 true
                     (calm (at_day day0)) two_tasks_db) in
  let target := target_of (Some day0) (calm (at_day day0)) in
  exists r,
    weekly s' !! (1, PyDate.year target, PyDate.iso_week target) = Some r
    /\ de_date <$> daily_breakdown r = seqZ (week_start target) 7
    /\ PyDate.weekday (week_start target) = 0%Z
    /\ (week_start target <= target <= week_start target + 6)%Z.
Proof.
  apply (weekly_breakdown_is_the_week (calm (at_day day0)) (Some day0) None 7
           two_tasks_db _ user1).
  - vm_compute. reflexivity.
  - apply list_elem_of_here.
Defined.

Lemma sum_nat_app l1 l2 : sum_nat (l1 ++ l2) = sum_nat l1 + sum_nat l2.
Proof. unfold sum_nat. induction l1 as [|x l1 IH]; cbn; [done|]. rewrite IH. lia. Qed.

(** A total over the rows of a week is the sum over its days, a day
    without a row counting zero. *)
Lemma sum_week_rows (f : DailyStats -> nat) m user a b :
  sum_nat (f <$> (snd <$> week_rows m user a b))
  = sum_nat ((fun d => from_option f 0 (m !! (user, d))) <$> seqZ a (b - a + 1)).
Proof.
  unfold week_rows. generalize (seqZ a (b - a + 1)). intros l.
  induction l as [|d l IH]; [done|].
  rewrite reverse_cons, omap_app, !fmap_app, sum_nat_app, IH. cbn [omap list_omap].
  rewrite fmap_cons. cbn [sum_nat foldr]. fold (sum_nat ((fun d => from_option f 0 (m !! (user, d))) <$> l)).
  destruct (m !! (user, d)); cbn; lia.
Qed.

Lemma sum_breakdown (f : DailyStats -> nat) (g : DayEntry -> nat) m user a :
  (forall d r, g (breakdown_entry d r) = from_option f 0 r) ->
  sum_nat (g <$> ((fun i => breakdown_entry (a + i) (week_day m user a (a + 6) i))
                    <$> seqZ 0 7))
  = sum_nat (f <$> (snd <$> week_rows m user a (a + 6))).
Proof.
  intros Hg. rewrite sum_week_rows. f_equal.
  replace (a + 6 - a + 1)%Z with 7%Z by lia.
  replace (seqZ a 7) with (Z.add a <$> seqZ 0 7)
    by (rewrite fmap_add_seqZ; f_equal; lia).
  rewrite <- !list_fmap_compose. apply list_fmap_ext. intros n i Hi. cbn.
  apply list_elem_of_lookup_2, elem_of_seqZ in Hi.
  rewrite Hg, week_day_in by lia. done.
Qed.

(** X9.  The totals of a weekly row the batch aggregator writes are the sums
    of its own [daily_breakdown]: tasks created and tasks completed add up
    over the seven entries. *)
Lemma weekly_totals_add_up (E : env) (date : option Z) (email : option string)
    (days : Z) (s s' : db) (user : User) :
  calculate_analytics.handle date email days true E s = Ok tt s' ->
  user ∈ selected_users email s ->
  let target := target_of date E in
  exists r,
    weekly s' !! (u_id user, PyDate.year target, PyDate.iso_week target) = Some r
    /\ total_tasks_created r = sum_nat (de_tasks_created <$> daily_breakdown r)
    /\ total_tasks_completed r = sum_nat (de_tasks_completed <$> daily_breakdown r).
Proof.
  intros Hrun Hu target.
  destruct (handle_Ok_weekly _ _ _ _ _ _ _ Hrun Hu) as (r & Hr & Heq).
  exists r. split; [exact Hr|]. rewrite Heq.
  cbn [rolled_up daily_breakdown total_tasks_created total_tasks_completed].
  unfold week_end. split; symmetry; apply sum_breakdown; by intros d [r0|].
Qed.

Lemma weekly_totals_add_up_witness :
  let s' := final (calculate_analytics.handle (Some day0) None 7 true
                     (calm (at_day day0)) two_tasks_db) in
  let target := target_of (Some day0) (calm (at_day day0)) in
  exists r,
    weekly s' !! (1, PyDate.year target, PyDate.iso_week target) = Some r
    /\ total_tasks_created r = sum_nat (de_tasks_created <$> daily_breakdown r)
    /\ total_tasks_completed r = sum_nat (de_tasks_completed <$> daily_breakdown r).
Proof.
  apply (weekly_totals_add_up (calm (at_day day0)) (Some day0) None 7
           two_tasks_db _ user1).
  - vm_compute. reflexivity.
  - apply list_elem_of_here.
Defined.

Lemma round_half_even_between (num den lo hi : Z) :
  (0 < den)%Z -> (lo * den <= num <= hi * den)%Z ->
  (lo <= round_half_even num den <= hi)%Z.
Proof.
  intros Hden Hnum. unfold round_half_even.
  pose proof (Z.div_mod num den ltac:(lia)) as Hdm.
  pose proof (Z.mod_pos_bound num den Hden) as Hr.
  assert (lo <= num / den)%Z by (apply Z.div_le_lower_bound; lia).
  assert (num / den <= hi)%Z by (apply Z.div_le_upper_bound; lia).
  repeat case_match; rewrite ?Z.ltb_lt, ?Z.ltb_ge in *; nia.
Qed.

Lemma sum_Z_between (l : list Z) (lo hi : Z) :
  Forall (fun x => lo <= x <= hi)%Z l ->
  (lo * Z.of_nat (length l) <= sum_Z l <= hi * Z.of_nat (length l))%Z.
Proof.
  unfold sum_Z. induction 1 as [|x l Hx Hl IH]; cbn [foldr length]; lia.
Qed.

Lemma week_rows_elem m user a b r :
  r ∈ snd <$> week_rows m user a b <->
  exists d, (a <= d <= b)%Z /\ m !! (user, d) = Some r.
Proof.
  unfold week_rows. rewrite list_elem_of_fmap. split.
  - intros ([d r'] & -> & Hin). apply list_elem_of_omap in Hin as (d' & Hd' & Hl).
    apply elem_of_reverse, elem_of_seqZ in Hd'.
    destruct (m !! (user, d')) as [r0|] eqn:Hm; [|done]. injection Hl as -> ->.
    exists d. split; [lia | done].
  - intros (d & Hd & Hm). exists (d, r). split; [done|].
    apply list_elem_of_omap. exists d. split.
    + apply elem_of_reverse, elem_of_seqZ. lia.
    + by rewrite Hm.
Qed.

(** The weekly average of scores that are at most 100 is between 0 and
    100, and it is 0 only when no day of the week has a positive score. *)
Lemma average_score_bounds (rows : list DailyStats) :
  (forall r, r ∈ rows -> (productivity_score r <= 10000)%Z) ->
  (0 <= average_score rows <= 10000)%Z
  /\ (average_score rows = 0%Z <-> forall r, r ∈ rows -> (productivity_score r <= 0)%Z).
Proof.
  intros Hmax. unfold average_score.
  set (l := List.filter (fun x => (0 <? x)%Z) (productivity_score <$> rows)).
  assert (Hl : Forall (fun x => 1 <= x <= 10000)%Z l).
  { apply Forall_forall. intros x Hx. apply list_elem_of_In, filter_In in Hx as [Hx Hpos].
    apply list_elem_of_In, list_elem_of_fmap in Hx as (r & -> & Hr).
    apply Z.ltb_lt in Hpos. specialize (Hmax r Hr). lia. }
  assert (Hnil : l = [] <-> forall r, r ∈ rows -> (productivity_score r <= 0)%Z).
  { split.
    - intros Hnil r Hr. destruct (Z.ltb_spec 0 (productivity_score r)) as [Hpos|]; [|done].
      assert (Hin : productivity_score r ∈ l).
      { apply list_elem_of_In, filter_In. split.
        - apply list_elem_of_In, list_elem_of_fmap. eauto.
        - by apply Z.ltb_lt. }
      rewrite Hnil in Hin. by apply elem_of_nil in Hin.
    - intros Hall. destruct l as [|x l'] eqn:El; [done|].
      assert (Hin : x ∈ l) by (rewrite El; apply list_elem_of_here).
      apply list_elem_of_In, filter_In in Hin as [Hx Hpos].
      apply list_elem_of_In, list_elem_of_fmap in Hx as (r & -> & Hr).
      apply Z.ltb_lt in Hpos. specialize (Hall r Hr). lia. }
  pose proof (sum_Z_between l 1 10000 Hl) as Hsum.
  destruct l as [|x l'] eqn:El.
  - split; [lia|]. by rewrite <- Hnil.
  - rewrite <- El in *.
    assert (Hlen : (0 < Z.of_nat (length l))%Z) by (rewrite El; cbn; lia).
    pose proof (round_half_even_between (sum_Z l) (Z.of_nat (length l)) 1 10000 Hlen Hsum).
    split; [lia|]. split.
    + lia.
    + intros Hall. apply Hnil in Hall. rewrite Hall in El. done.
Qed.

(** A property of daily rows that the defaults and every recomputed row
    have is kept by a run of the batch aggregator, whatever its outcome. *)
Lemma handle_daily_rows (P : DailyStats -> Prop) E date email days weekly s :
  (forall c u, P (stamp_daily c u daily_defaults)) ->
  (forall ts user d c u, P (recomputed ts user d c u)) ->
  (forall k r, daily s !! k = Some r -> P r) ->
  forall k r,
    daily (final (calculate_analytics.handle date email days weekly E s)) !! k = Some r ->
    P r.
Proof.
  intros Hdef Hrec Hs.
  set (I := fun s0 : db => forall k r, daily s0 !! k = Some r -> P r).
  assert (Hstep : forall d u s0, I s0 -> I (final (daily_stats_for d u E s0))).
  { intros d u s0 H0. unfold I in *.
    destruct (daily_stats_for_cases E d u s0) as [[[e ->] _]|[[[e ->] _]|[-> _]]];
      cbn [final daily set_daily set_stdout daily_written]; [done| |].
    - intros k r Hk. destruct (decide (k = (u_id u, d))) as [->|Hne].
      + rewrite lookup_insert_eq in Hk. injection Hk as <-.
        destruct (daily s0 !! (u_id u, d)) as [r0|] eqn:Hr0; cbn [default]; eauto.
      + rewrite lookup_insert_ne in Hk by done. eauto.
    - intros k r Hk. destruct (decide (k = (u_id u, d))) as [->|Hne].
      + rewrite lookup_insert_eq in Hk. injection Hk as <-. apply Hrec.
      + rewrite lookup_insert_ne in Hk by done. eauto. }
  change (I (final (calculate_analytics.handle date email days weekly E s))).
  rewrite handle_unfold. destruct (fault E op_User_query); [exact Hs|]. cbv zeta.
  assert (H1 : I (final (daily_phase (selected_users email s) (target_of date E) days E
                           (announced email s)))).
  { unfold daily_phase. apply (for_each_final I); [|exact Hs].
    intros i s0 _ H0. unfold calculate_daily_stats.
    apply (for_each_final I); [|done]. intros u s3 _ H3. by apply Hstep. }
  destruct (daily_phase _ _ _ E _) as [[] s1|e s1]; cbn [final] in H1; [|done].
  destruct weekly; [|done].
  assert (H2 : I (final (calculate_weekly_stats (selected_users email s)
                           (target_of date E) E s1))).
  { unfold calculate_weekly_stats. cbv zeta.
    apply (for_each_final I); [|done].
    intros u s3 _ H3.
    destruct (weekly_stats_for_frame E (target_of date E - PyDate.weekday (target_of date E))
                (target_of date E - PyDate.weekday (target_of date E) + 6)
                (PyDate.year (target_of date E)) (PyDate.iso_week (target_of date E))
                u s3) as (Hd & _).
    unfold I. by rewrite Hd. }
  by destruct (calculate_weekly_stats _ _ E s1) as [[] s2|e s2].
Qed.

(** X10.  When every stored daily score is within 0 and 100, the weekly
    average a run writes is within 0 and 100 too, and it is 0 exactly when
    no daily row of the week has a positive score: days with a zero score do
    not pull the average down. *)
Lemma weekly_average_is_over_scored_days (E : env) (date : option Z)
    (email : option string) (days : Z) (s s' : db) (user : User) :
  calculate_analytics.handle date email days true E s = Ok tt s' ->
  (forall k r, daily s !! k = Some r -> (0 <= productivity_score r <= 10000)%Z) ->
  user ∈ selected_users email s ->
  let target := target_of date E in
  exists r,
    weekly s' !! (u_id user, PyDate.year target, PyDate.iso_week target) = Some r
    /\ (0 <= average_productivity_score r <= 10000)%Z
    /\ (average_productivity_score r = 0%Z <->
        forall d row, (week_start target <= d <= week_end target)%Z ->
          daily s' !! (u_id user, d) = Some row -> productivity_score row = 0%Z).
Proof.
  intros Hrun Hok Hu target.
  assert (Hok' : forall k r, daily s' !! k = Some r ->
                   (0 <= productivity_score r <= 10000)%Z).
  { pose proof (handle_daily_rows (fun r => (0 <= productivity_score r <= 10000)%Z)
                  E date email days true s) as H.
    rewrite Hrun in H. cbn [final] in H. apply H; [| |exact Hok].
    - intros c u. cbn. lia.
    - intros ts u d c u0. apply recomputed_score_bounds. }
  destruct (handle_Ok_weekly _ _ _ _ _ _ _ Hrun Hu) as (r & Hr & Heq).
  exists r. split; [exact Hr|]. rewrite Heq. cbn [rolled_up average_productivity_score].
  fold target.
  assert (Hrows : forall r0, r0 ∈ snd <$> week_rows (daily s') (u_id user)
                                 (week_start target) (week_end target) ->
                  (0 <= productivity_score r0 <= 10000)%Z).
  { intros r0 Hr0. apply week_rows_elem in Hr0 as (d & _ & Hm). by apply (Hok' _ _ Hm). }
  destruct (average_score_bounds
              (snd <$> week_rows (daily s') (u_id user) (week_start target) (week_end target)))
    as [Hb Hz].
  { intros r0 Hr0. apply Hrows in Hr0. lia. }
  split; [exact Hb|]. rewrite Hz. split.
  - intros Hall d row Hd Hm.
    assert (Hin : row ∈ snd <$> week_rows (daily s') (u_id user)
                          (week_start target) (week_end target))
      by (apply week_rows_elem; eauto).
    specialize (Hall _ Hin). specialize (Hrows _ Hin). lia.
  - intros Hall r0 Hr0. apply week_rows_elem in Hr0 as (d & Hd & Hm).
    rewrite (Hall d r0 Hd Hm). done.
Qed.

Lemma weekly_average_is_over_scored_days_witness :
  let s' := final (calculate_analytics.handle (Some day0) None 7 true
                     (calm (at_day day0)) two_tasks_db) in
  let target := target_of (Some day0) (calm (at_day day0)) in
  exists r,
    weekly s' !! (1, PyDate.year target, PyDate.iso_week target) = Some r
    /\ (0 <= average_productivity_score r <= 10000)%Z
    /\ (average_productivity_score r = 0%Z <->
        forall d row, (week_start target <= d <= week_end target)%Z ->
          daily s' !! (1, d) = Some row -> productivity_score row = 0%Z).
Proof.
  apply (weekly_average_is_over_scored_days (calm (at_day day0)) (Some day0) None 7
           two_tasks_db _ user1).
  - vm_compute. reflexivity.
  - intros k r Hk. unfold two_tasks_db in Hk. cbn [daily] in Hk.
    rewrite lookup_empty in Hk. discriminate.
  - apply list_elem_of_here.
Defined.


Lemma sum_Z_app l1 l2 : sum_Z (l1 ++ l2) = (sum_Z l1 + sum_Z l2)%Z.
Proof. unfold sum_Z. induction l1 as [|x l1 IH]; cbn; [done|]. rewrite IH. lia. Qed.

Lemma sum_week_rows_Z (f : DailyStats -> Z) m user a b :
  sum_Z (f <$> (snd <$> week_rows m user a b))
  = sum_Z ((fun d => from_option f 0%Z (m !! (user, d))) <$> seqZ a (b - a + 1)).
Proof.
  unfold week_rows. generalize (seqZ a (b - a + 1)). intros l.
  induction l as [|d l IH]; [done|].
  rewrite reverse_cons, omap_app, !fmap_app, sum_Z_app, IH. cbn [omap list_omap].
  rewrite fmap_cons. cbn [sum_Z foldr].
  fold (sum_Z ((fun d => from_option f 0%Z (m !! (user, d))) <$> l)).
  destruct (m !! (user, d)); cbn; lia.
Qed.

(** X11.  The totals of a weekly row the batch aggregator writes are the
    sums, over the seven days of the week, of the columns of the daily rows
    stored for the user, a day without a row counting zero: tasks created,
    tasks completed, tasks overdue (a task that stays overdue is counted
    once for every day that has a row counting it) and hours worked. *)
Lemma weekly_totals_sum_the_daily_rows (E : env) (date : option Z)
    (email : option string) (days : Z) (s s' : db) (user : User) :
  calculate_analytics.handle date email days true E s = Ok tt s' ->
  user ∈ selected_users email s ->
  let target := target_of date E in
  let week := seqZ (week_start target) 7 in
  let column (f : DailyStats -> nat) :=
    sum_nat ((fun d => from_option f 0 (daily s' !! (u_id user, d))) <$> week) in
  exists r,
    weekly s' !! (u_id user, PyDate.year target, PyDate.iso_week target) = Some r
    /\ total_tasks_created r = column tasks_created
    /\ total_tasks_completed r = column tasks_completed
    /\ total_tasks_overdue r = column tasks_overdue
    /\ total_hours_worked r
       = sum_Z ((fun d => from_option hours_worked 0%Z (daily s' !! (u_id user, d)))
                  <$> week).
Proof.
  intros Hrun Hu target week column.
  destruct (handle_Ok_weekly _ _ _ _ _ _ _ Hrun Hu) as (r & Hr & Heq).
  exists r. split; [exact Hr|]. rewrite Heq.
  cbn [rolled_up total_tasks_created total_tasks_completed total_tasks_overdue
       total_hours_worked].
  subst column week. cbv beta. fold target.
  replace 7%Z with (week_end target - week_start target + 1)%Z
    by (unfold week_end; lia).
  rewrite !sum_week_rows, sum_week_rows_Z. done.
Qed.

Lemma weekly_totals_sum_the_daily_rows_witness :
  let s' := final (calculate_analytics.handle (Some day0) None 7 true
                     (calm (at_day day0)) two_tasks_db) in
  let target := target_of (Some day0) (calm (at_day day0)) in
  let week := seqZ (week_start target) 7 in
  let column (f : DailyStats -> nat) :=
    sum_nat ((fun d => from_option f 0 (daily s' !! (1, d))) <$> week) in
  exists r,
    weekly s' !! (1, PyDate.year target, PyDate.iso_week target) = Some r
    /\ total_tasks_created r = column tasks_created
    /\ total_tasks_completed r = column tasks_completed
    /\ total_tasks_overdue r = column tasks_overdue
    /\ total_hours_worked r
       = sum_Z ((fun d => from_option hours_worked 0%Z (daily s' !! (1, d))) <$> week).
Proof.
  apply (weekly_totals_sum_the_daily_rows (calm (at_day day0)) (Some day0) None 7
           two_tasks_db _ user1).
  - vm_compute. reflexivity.
  - apply list_elem_of_here.
Defined.


Lemma counts_of_fmap (x y : option CatEntry) :
  entry_counts <$> x = entry_counts <$> y -> counts_of x = counts_of y.
Proof. destruct x, y; cbn; congruence. Qed.

Lemma merge_category_lookup acc k e cid :
  entry_counts <$> (merge_category acc (k, e) !! cid) =
  if decide (k = cid)
  then Some (add_counts (counts_of (acc !! cid)) (entry_counts e))
  else entry_counts <$> (acc !! cid).
Proof.
  unfold merge_category. destruct (decide (k = cid)) as [->|Hne].
  - rewrite lookup_alter_eq. destruct (acc !! cid) as [e0|] eqn:He.
    + rewrite He. done.
    + rewrite lookup_insert_eq. reflexivity.
  - rewrite lookup_alter_ne by done.
    destruct (acc !! k); [done|]. by rewrite lookup_insert_ne.
Qed.

Lemma merge_items_skip l acc cid :
  cid ∉ l.*1 ->
  entry_counts <$> (foldl merge_category acc l !! cid) = entry_counts <$> (acc !! cid).
Proof.
  revert acc. induction l as [|[k e] l IH]; intros acc Hnot; [done|].
  cbn [foldl]. rewrite fmap_cons in Hnot. apply not_elem_of_cons in Hnot as [Hk Hl].
  rewrite IH by done. rewrite merge_category_lookup.
  cbn in Hk. by destruct (decide (k = cid)); [congruence|].
Qed.

Lemma merge_items_lookup l acc cid e :
  NoDup (l.*1) -> (cid, e) ∈ l ->
  entry_counts <$> (foldl merge_category acc l !! cid)
  = Some (add_counts (counts_of (acc !! cid)) (entry_counts e)).
Proof.
  revert acc. induction l as [|[k e0] l IH]; intros acc Hnd Hin.
  { by apply elem_of_nil in Hin. }
  rewrite fmap_cons in Hnd. apply NoDup_cons in Hnd as [Hk Hnd]. cbn in Hk.
  cbn [foldl]. apply elem_of_cons in Hin as [[= <- <-]|Hin].
  - rewrite merge_items_skip by done. rewrite merge_category_lookup.
    by rewrite decide_True.
  - assert (k <> cid).
    { intros ->. apply Hk. apply list_elem_of_fmap. by exists (cid, e). }
    rewrite (IH _ Hnd Hin). f_equal. f_equal. apply counts_of_fmap.
    rewrite merge_category_lookup. by rewrite decide_False.
Qed.

Lemma merge_day_lookup acc row cid :
  entry_counts <$> (merge_day acc row !! cid) =
  match categories_data row !! cid with
  | Some e => Some (add_counts (counts_of (acc !! cid)) (entry_counts e))
  | None => entry_counts <$> (acc !! cid)
  end.
Proof.
  unfold merge_day. destruct (categories_data row !! cid) as [e|] eqn:He.
  - apply merge_items_lookup; [apply NoDup_fst_map_to_list|].
    by apply elem_of_map_to_list.
  - apply merge_items_skip. intros Hin.
    apply list_elem_of_fmap in Hin as ([k e] & -> & Hin).
    apply elem_of_map_to_list in Hin. cbn in Hin, He. congruence.
Qed.

Lemma add_counts_assoc p q r :
  add_counts (add_counts p q) r = add_counts p (add_counts q r).
Proof. unfold add_counts. cbn. f_equal; lia. Qed.

Lemma merge_days_lookup rows acc cid :
  entry_counts <$> (foldl merge_day acc rows !! cid) =
  match omap (fun row => categories_data row !! cid) rows with
  | [] => entry_counts <$> (acc !! cid)
  | es => Some (add_counts (counts_of (acc !! cid)) (sum_counts es))
  end.
Proof.
  revert acc. induction rows as [|row rows IH]; intros acc; [done|].
  cbn [foldl omap list_omap]. rewrite IH.
  pose proof (merge_day_lookup acc row cid) as Hday.
  destruct (categories_data row !! cid) as [e|].
  - assert (Hc : counts_of (merge_day acc row !! cid)
                 = add_counts (counts_of (acc !! cid)) (entry_counts e)).
    { unfold counts_of at 1. destruct (merge_day acc row !! cid); [|done].
      cbn in *. congruence. }
    destruct (omap _ rows) as [|e1 es].
    + rewrite Hday. f_equal. unfold add_counts, sum_counts, entry_counts, sum_nat. cbn.
      f_equal; lia.
    + rewrite Hc, add_counts_assoc. reflexivity.
  - destruct (omap _ rows) as [|e1 es]; [exact Hday|].
    f_equal. f_equal. by apply counts_of_fmap.
Qed.

Lemma sum_counts_app l1 l2 :
  sum_counts (l1 ++ l2) = add_counts (sum_counts l1) (sum_counts l2).
Proof. unfold sum_counts, add_counts. by rewrite !fmap_app, !sum_nat_app. Qed.

Lemma sum_counts_reverse l : sum_counts (reverse l) = sum_counts l.
Proof.
  induction l as [|e l IH]; [done|].
  rewrite reverse_cons, sum_counts_app, IH.
  unfold sum_counts, add_counts, sum_nat. cbn. f_equal; lia.
Qed.

Lemma week_rows_category m user a b cid :
  omap (fun row => categories_data row !! cid) (snd <$> week_rows m user a b)
  = reverse (category_entries m user cid (seqZ a (b - a + 1))).
Proof.
  unfold week_rows, category_entries. generalize (seqZ a (b - a + 1)). intros l.
  induction l as [|d l IH]; [done|].
  rewrite reverse_cons, omap_app, fmap_app, omap_app, IH. cbn [omap list_omap].
  destruct (m !! (user, d)) as [row|]; cbn -[reverse].
  - destruct (categories_data row !! cid); cbn -[reverse].
    + by rewrite reverse_cons.
    + by rewrite app_nil_r.
  - by rewrite app_nil_r.
Qed.

(** X12.  The [weekly_categories_data] of a weekly row the batch aggregator
    writes has an entry for exactly the categories that have an entry in a
    daily row of the week, and the two counters of the entry are the sums of
    the counters of those daily entries. *)
Lemma weekly_categories_add_up (E : env) (date : option Z)
    (email : option string) (days : Z) (s s' : db) (user : User) :
  calculate_analytics.handle date email days true E s = Ok tt s' ->
  user ∈ selected_users email s ->
  let target := target_of date E in
  exists r,
    weekly s' !! (u_id user, PyDate.year target, PyDate.iso_week target) = Some r
    /\ forall cid,
         entry_counts <$> (weekly_categories_data r !! cid)
         = match category_entries (daily s') (u_id user) cid
                   (seqZ (week_start target) 7) with
           | [] => None
           | es => Some (sum_counts es)
           end.
Proof.
  intros Hrun Hu target.
  destruct (handle_Ok_weekly _ _ _ _ _ _ _ Hrun Hu) as (r & Hr & Heq).
  exists r. split; [exact Hr|]. intros cid. rewrite Heq.
  cbn [rolled_up weekly_categories_data]. fold target.
  rewrite merge_days_lookup, week_rows_category.
  replace (week_end target - week_start target + 1)%Z with 7%Z
    by (unfold week_end; lia).
  set (es := category_entries _ _ _ _).
  destruct es as [|e es'] eqn:Hes; [done|].
  rewrite <- Hes, lookup_empty.
  destruct (reverse es) as [|e1 es1] eqn:Hrev.
  { apply (f_equal reverse) in Hrev. rewrite reverse_involutive in Hrev.
    rewrite Hrev in Hes. done. }
  rewrite <- Hrev, sum_counts_reverse. reflexivity.
Qed.

Lemma weekly_categories_add_up_witness :
  let s' := final (calculate_analytics.handle (Some day0) None 7 true
                     (calm (at_day day0)) two_tasks_db) in
  let target := target_of (Some day0) (calm (at_day day0)) in
  exists r,
    weekly s' !! (1, PyDate.year target, PyDate.iso_week target) = Some r
    /\ forall cid,
         entry_counts <$> (weekly_categories_data r !! cid)
         = match category_entries (daily s') 1 cid (seqZ (week_start target) 7) with
           | [] => None
           | es => Some (sum_counts es)
           end.
Proof.
  apply (weekly_categories_add_up (calm (at_day day0)) (Some day0) None 7
           two_tasks_db _ user1).
  - vm_compute. reflexivity.
  - apply list_elem_of_here.
Defined.

(* ===================================================================== *)
(** ** What a batch run leaves alone *)
(* ===================================================================== *)

Lemma daily_stats_for_frame E d user s :
  let s' := final (daily_stats_for d user E s) in
  tasks s' = tasks s /\ users s' = users s /\ weekly s' = weekly s
  /\ forall k, k <> (u_id user, d) -> daily s' !! k = daily s !! k.
Proof.
  destruct (daily_stats_for_cases E d user s) as [[[e ->] _]|[[[e ->] _]|[-> _]]];
    cbn [final daily_written tasks users weekly daily set_daily set_stdout];
    repeat split; intros k Hk; by rewrite ?lookup_insert_ne.
Qed.

Lemma weekly_stats_for_other_keys E a b y w user s k :
  k <> (u_id user, y, w) ->
  weekly (final (weekly_stats_for a b y w user E s)) !! k = weekly s !! k.
Proof.
  intros Hk.
  unfold weekly_stats_for, WeeklyStats_get_or_create, WeeklyStats_save, DailyStats_range.
  munfold.
  destruct (fault E (op_WeeklyStats_get_or_create _ _ _)); [done|].
  destruct (fault E op_DailyStats_query) eqn:Hq.
  { destruct (weekly s !! (u_id user, y, w)); cbn beta iota; rewrite ?Hq; cbn beta iota;
      cbn [final weekly set_weekly]; by rewrite ?lookup_insert_ne. }
  destruct (weekly s !! (u_id user, y, w)) as [r|]; cbn beta iota; rewrite ?Hq;
    cbn beta iota; (rewrite breakdown_eq by done); cbn beta iota;
    (destruct (fault E (op_WeeklyStats_save _ _ _));
     [cbn [final weekly set_weekly]; by rewrite ?lookup_insert_ne|]);
    cbn beta iota;
    match goal with |- context [if ?c then _ else _] => destruct c end;
    cbn [final weekly set_weekly set_stdout]; by rewrite ?lookup_insert_ne.
Qed.

(** X13.  A run of the batch aggregator, whatever its outcome, never changes
    a task or a user, changes no daily row other than those of the users it
    works on within the days of its range, and changes no weekly row other
    than the one of each such user under the key of the target date, and
    none at all without the weekly flag. *)
Lemma batch_touches_only_its_rows (E : env) (date : option Z) (email : option string)
    (days : Z) (weekly_ : bool) (s : db) :
  let o := calculate_analytics.handle date email days weekly_ E s in
  let us := selected_users email s in
  let target := target_of date E in
  tasks (final o) = tasks s /\ users (final o) = users s
  /\ (forall u d,
        (forall user, user ∈ us -> u_id user <> u) \/ ¬ (target - days < d <= target)%Z ->
        daily (final o) !! (u, d) = daily s !! (u, d))
  /\ (forall u y w,
        weekly_ = false \/ (forall user, user ∈ us -> u_id user <> u)
        \/ (y, w) <> (PyDate.year target, PyDate.iso_week target) ->
        weekly (final o) !! (u, y, w) = weekly s !! (u, y, w)).
Proof.
  intros o us target.
  set (quiet := fun k : nat * Z =>
         (forall user, user ∈ us -> u_id user <> k.1)
         \/ ¬ (target - days < k.2 <= target)%Z).
  set (I := fun s0 : db =>
         tasks s0 = tasks s /\ users s0 = users s /\ weekly s0 = weekly s
         /\ forall k, quiet k -> daily s0 !! k = daily s !! k).
  assert (Hdaily : I (final (daily_phase us target days E (announced email s)))).
  { unfold daily_phase. apply for_each_final; [|by repeat split].
    intros i s0 Hi Hs0. apply elem_of_seqZ in Hi.
    unfold calculate_daily_stats. apply for_each_final; [|done].
    intros user s1 Huser (Ht & Hu & Hw & Hd).
    destruct (daily_stats_for_frame E (target - i) user s1) as (Ht' & Hu' & Hw' & Hd').
    repeat split; [congruence..|].
    intros k Hq. rewrite Hd'; [by apply Hd|].
    intros ->. destruct Hq as [Hq|Hq]; cbn in Hq; [by apply (Hq user)|lia]. }
  set (quietw := fun k : nat * Z * Z =>
         weekly_ = false \/ (forall user, user ∈ us -> u_id user <> k.1.1)
         \/ (k.1.2, k.2) <> (PyDate.year target, PyDate.iso_week target)).
  set (J := fun s0 : db =>
         tasks s0 = tasks s /\ users s0 = users s
         /\ (forall k, quiet k -> daily s0 !! k = daily s !! k)
         /\ forall k, quietw k -> weekly s0 !! k = weekly s !! k).
  assert (Hall : J (final o)).
  { subst o. rewrite handle_unfold. destruct (fault E op_User_query); [by repeat split|].
    cbv zeta. fold us target.
    destruct (daily_phase us target days E (announced email s)) as [[] s1|e s1];
      cbn [final] in Hdaily; destruct Hdaily as (Ht & Hu & Hw & Hd);
      [|cbn [final]; repeat split; [done..|]; intros k _; by rewrite Hw].
    assert (Hweek : J (final ((if weekly_ then calculate_weekly_stats us target
                               else ret tt) E s1))).
    { destruct weekly_;
        [|unfold ret; cbn [final]; repeat split; [done..|]; intros k _; by rewrite Hw].
      unfold calculate_weekly_stats. cbv zeta.
      apply (for_each_final J); [|repeat split; [done..|]; intros k _; by rewrite Hw].
      intros user s2 Huser (Ht2 & Hu2 & Hd2 & Hw2).
      destruct (weekly_stats_for_frame E (target - PyDate.weekday target)
                  (target - PyDate.weekday target + 6) (PyDate.year target)
                  (PyDate.iso_week target) user s2) as (Hd' & Ht' & Hu').
      repeat split; [congruence..| |].
      - intros k Hq. rewrite Hd'. by apply Hd2.
      - intros k Hq. rewrite weekly_stats_for_other_keys; [by apply Hw2|].
        intros ->. destruct Hq as [Hq|[Hq|Hq]]; cbn in Hq; [done|by apply (Hq user)|done]. }
    destruct ((if weekly_ then calculate_weekly_stats us target else ret tt) E s1)
      as [[] s2|e s2]; exact Hweek. }
  destruct Hall as (Ht & Hu & Hd & Hw). repeat split; [done..| |].
  - intros u d Hq. by apply (Hd (u, d)).
  - intros u y w Hq. by apply (Hw (u, y, w)).
Qed.

Lemma for_each_skip {X} (l : list X) (body : X -> M unit) E s :
  (forall x s0, x ∈ l -> body x E s0 = Ok tt s0) -> for_each l body E s = Ok tt s.
Proof.
  induction l as [|x l IH]; intros Hbody; [done|]. cbn [for_each]. unfold bind.
  rewrite Hbody by apply list_elem_of_here. apply IH.
  intros y s0 Hy. apply Hbody. by apply list_elem_of_further.
Qed.

(** X14.  A run that selects no user (an [--user] address that no user has,
    or an empty user table) returns, writes no row and reports success for 0
    users, whatever the days and the weekly flag. *)
Lemma batch_without_users (E : env) (date : option Z) (email : option string)
    (days : Z) (weekly_ : bool) (s : db) :
  fault E op_User_query = None ->
  selected_users email s = [] ->
  calculate_analytics.handle date email days weekly_ E s
  = Ok tt (set_stdout (fun out => out ++ [MsgCalculating 0; MsgCalculated 0]) s).
Proof.
  intros Hq Hsel. rewrite handle_unfold, Hq. cbv zeta. unfold announced, daily_phase.
  rewrite Hsel. cbn [length].
  rewrite for_each_skip by done.
  assert (Hw : (if weekly_ then calculate_weekly_stats [] (target_of date E) else ret tt) E
                 (set_stdout (fun out => out ++ [MsgCalculating 0]) s)
               = Ok tt (set_stdout (fun out => out ++ [MsgCalculating 0]) s))
    by (by destruct weekly_).
  rewrite Hw. unfold set_stdout. cbn. by rewrite <- app_assoc.
Qed.

Lemma batch_without_users_witness :
  calculate_analytics.handle (Some day0) (Some "nobody@example.org") 7 true
    (calm (at_day day0)) two_tasks_db
  = Ok tt (set_stdout (fun out => out ++ [MsgCalculating 0; MsgCalculated 0]) two_tasks_db).
Proof.
  apply (batch_without_users (calm (at_day day0)) (Some day0)
           (Some "nobody@example.org") 7 true two_tasks_db); reflexivity.
Defined.

Lemma batch_daily_run_returns_witness :
  exists s', calculate_analytics.handle (Some day0) None 7 false (calm (at_day day0))
               two_tasks_db = Ok tt s'.
Proof.
  apply (batch_daily_run_returns (calm (at_day day0)) (Some day0) None 7 two_tasks_db).
  - reflexivity.
  - intros u i Hu Hi. unfold daily_step_ok. cbn [fault calm no_fault].
    rewrite !bool_decide_eq_true_2 by done. cbn [andb].
    apply list_elem_of_In in Hu. cbn in Hu.
    assert (Hcases : (i = 0 \/ i = 1 \/ i = 2 \/ i = 3 \/ i = 4 \/ i = 5 \/ i = 6)%Z)
      by lia.
    destruct Hu as [ <- | [ <- | [] ] ];
      destruct Hcases as [ -> | [ -> | [ -> | [ -> | [ -> | [ -> | -> ] ] ] ] ] ];
      vm_compute; reflexivity.
Defined.

(* ===================================================================== *)
(** ** More on [Task.save] *)
(* ===================================================================== *)

Lemma save_prepare_fields t self :
  t_id (save_prepare t self) = t_id self
  /\ t_user (save_prepare t self) = t_user self
  /\ t_status (save_prepare t self) = t_status self
  /\ t_category (save_prepare t self) = t_category self
  /\ t_completed_at (save_prepare t self)
     = if bool_decide (t_status self = COMPLETED)
       then Some (default t (t_completed_at self)) else None.
Proof.
  unfold save_prepare.
  destruct (decide (t_status self = COMPLETED)) as [Hc|Hc].
  - rewrite (bool_decide_eq_true_2 _ Hc). cbn [andb].
    destruct (t_completed_at self) as [c|] eqn:Hcomp.
    + rewrite (bool_decide_eq_false_2 (Some c = None)) by done.
      rewrite (bool_decide_eq_false_2 (t_status self ≠ COMPLETED)) by auto.
      by rewrite Hcomp.
    + by rewrite bool_decide_eq_true_2.
  - rewrite (bool_decide_eq_false_2 _ Hc). cbn [andb].
    by rewrite bool_decide_eq_true_2.
Qed.

Lemma pre_saved_fields ts t instance :
  t_id (pre_saved ts t instance) = t_id instance
  /\ t_user (pre_saved ts t instance) = t_user instance
  /\ t_status (pre_saved ts t instance) = t_status instance
  /\ t_category (pre_saved ts t instance) = t_category instance.
Proof.
  unfold pre_saved. destruct (stored ts (t_id instance)) as [old|]; [|done].
  destruct (_ && _); [done|]. destruct (_ && _); done.
Qed.

(** The pre-save receiver and the write, when the lookup of the stored
    task does not fail: the row with the primary key is replaced, or else
    a row is inserted with [created_at] set. *)
Lemma save_until_written_spec E self s inst created s1 :
  save_until_written self E s = Ok (inst, created) s1 ->
  fault E (op_Task_get (t_id self)) = None ->
  let p := pre_saved (tasks s) (now E) self in
  if existsb (fun t => t_id t =? t_id self) (tasks s)
  then inst = p /\ created = false
       /\ s1 = set_tasks (map (fun t => if t_id t =? t_id self then p else t)) s
  else inst = set_created_at (now E) p /\ created = true
       /\ s1 = set_tasks (fun l => set_created_at (now E) p :: l) s.
Proof.
  intros H Hget p. unfold save_until_written in H.
  apply bind_Ok in H as (inst0 & s0 & Hpre & Hw).
  assert (H0 : inst0 = p /\ s0 = s).
  { revert Hpre. subst p. unfold pre_saved, stored, handle_task_completion, Task_get.
    munfold. rewrite Hget. cbn beta iota.
    destruct (find _ _) as [old|]; cbn beta iota; [|by intros [= <- <-]].
    destruct (bool_decide (t_status old ≠ COMPLETED) && _); [by intros [= <- <-]|].
    destruct (bool_decide (t_status old = COMPLETED) && _); by intros [= <- <-]. }
  destruct H0 as [-> ->].
  assert (Hid : t_id p = t_id self) by apply pre_saved_fields.
  revert Hw. unfold Task_write. munfold. rewrite Hid.
  destruct (fault E (op_Task_write _)); cbn beta iota; [done|].
  destruct (existsb _ _); cbn beta iota; by intros [= <- <- <-].
Qed.

Lemma stored_replaced ts pk p :
  existsb (fun t => t_id t =? pk) ts = true -> t_id p = pk ->
  stored (map (fun t => if t_id t =? pk then p else t) ts) pk = Some p.
Proof.
  intros Hex Hp. unfold stored. induction ts as [|t ts IH]; [done|].
  cbn [map find]. cbn [existsb] in Hex.
  destruct (t_id t =? pk) eqn:Ht.
  - by rewrite Hp, Nat.eqb_refl.
  - rewrite Ht. apply IH. exact Hex.
Qed.

(** The task a save that returns has stored: the instance as the
    preparation of [Task.save] and the pre-save receiver leave it. *)
Lemma save_stored_task (E : env) (self : Task) (s s' : db) :
  signals.save self E s = Ok tt s' ->
  fault E (op_Task_get (t_id self)) = None ->
  exists t, stored (tasks s') (t_id self) = Some t
    /\ t_user t = t_user self
    /\ t_status t = t_status self
    /\ t_completed_at t
       = t_completed_at (pre_saved (tasks s) (now E) (save_prepare (now E) self)).
Proof.
  intros Hsave Hget. rewrite save_unfold in Hsave.
  destruct (save_until_written _ E s) as [[inst created] s1|e s1] eqn:Hw; [|done].
  pose proof (post_save_tasks E inst created s1) as Ht. rewrite Hsave in Ht.
  cbn [final] in Ht.
  destruct (save_prepare_fields (now E) self) as (Hid & Hu & Hst & _).
  apply save_until_written_spec in Hw; [|by rewrite Hid]. cbv zeta in Hw.
  set (p := pre_saved (tasks s) (now E) (save_prepare (now E) self)) in *.
  destruct (pre_saved_fields (tasks s) (now E) (save_prepare (now E) self))
    as (Hpid & Hpu & Hpst & _). fold p in Hpid, Hpu, Hpst.
  rewrite Ht, Hid in *.
  destruct (existsb _ (tasks s)) eqn:Hex.
  - destruct Hw as (-> & -> & ->). exists p. cbn [tasks set_tasks].
    rewrite stored_replaced by (done || congruence).
    repeat split; congruence.
  - destruct Hw as (-> & -> & ->). exists (set_created_at (now E) p).
    cbn [tasks set_tasks]. unfold stored. cbn [find set_created_at t_id].
    rewrite Hpid, Nat.eqb_refl. cbn. repeat split; congruence.
Qed.

(** X15.  [completed_at] after a save that returns: the stored task has the
    status of the saved instance; it has no [completed_at] unless it is
    completed; a task that was stored not completed is stamped with the time
    of the save; a task that was completed already, or is new, keeps the
    [completed_at] the instance carries, and gets the time of the save when
    it carries none. *)
Lemma save_sets_completed_at (E : env) (self : Task) (s s' : db) :
  signals.save self E s = Ok tt s' ->
  fault E (op_Task_get (t_id self)) = None ->
  exists t, stored (tasks s') (t_id self) = Some t
    /\ t_user t = t_user self
    /\ t_status t = t_status self
    /\ t_completed_at t
       = if bool_decide (t_status self = COMPLETED)
         then Some (if just_completed (tasks s) self then now E
                    else default (now E) (t_completed_at self))
         else None.
Proof.
  intros Hsave Hget.
  destruct (save_stored_task E self s s' Hsave Hget) as (t & Ht & Hu & Hs & Hc).
  exists t. split; [exact Ht|]. split; [exact Hu|]. split; [exact Hs|].
  rewrite Hc. clear.
  destruct (save_prepare_fields (now E) self) as (Hid & _ & Hst & _ & Hc).
  unfold pre_saved, just_completed. rewrite Hid, Hst.
  destruct (stored (tasks s) (t_id self)) as [old|]; [|exact Hc].
  destruct (decide (t_status self = COMPLETED)) as [Hs|Hs].
  - rewrite (bool_decide_eq_true_2 _ Hs) in *.
    rewrite (bool_decide_eq_false_2 (t_status self ≠ COMPLETED)) by auto.
    rewrite andb_true_r, andb_false_r.
    destruct (bool_decide (t_status old ≠ COMPLETED)); [done|exact Hc].
  - rewrite (bool_decide_eq_false_2 _ Hs) in *. rewrite andb_false_r.
    destruct (_ && _); [done|exact Hc].
Qed.

Lemma save_sets_completed_at_witness :
  exists t, stored (tasks one_done_db) 1 = Some t
    /\ t_user t = 1
    /\ t_status t = COMPLETED
    /\ t_completed_at t
       = if bool_decide (COMPLETED = COMPLETED)
         then Some (if just_completed (tasks empty_db)
                         (new_task 1 1 COMPLETED (Some work) None)
                    then now (calm (at_day day0))
                    else default (now (calm (at_day day0))) None)
         else None.
Proof.
  apply (save_sets_completed_at (calm (at_day day0))
           (new_task 1 1 COMPLETED (Some work) None) empty_db one_done_db);
    vm_compute; reflexivity.
Defined.

Lemma post_save_users_weekly E instance created s :
  users (final (post_save instance created E s)) = users s
  /\ weekly (final (post_save instance created E s)) = weekly s.
Proof.
  unfold post_save. rewrite final_bind.
  pose proof (update_analytics_on_task_change_cases E instance created s) as H.
  cbv zeta in H.
  destruct H as [[e ->]|[[e ->]| ->]]; [done..|].
  by destruct (update_category_analytics_cases E instance created
                 (set_daily (insert (t_user instance, dt_date (now E))
                    (changed_row (tasks s) E instance created
                       (row_before E (t_user instance) s))) s))
    as [->|(r & cd & Hr & ->)].
Qed.

(** What the pre-save receiver and the write leave of the instance. *)
Lemma save_until_written_fields E self s inst created s1 :
  save_until_written self E s = Ok (inst, created) s1 ->
  t_id inst = t_id self /\ t_user inst = t_user self
  /\ t_status inst = t_status self /\ t_category inst = t_category self.
Proof.
  unfold save_until_written. intros H. apply bind_Ok in H as (inst0 & s0 & Hpre & Hw).
  assert (H0 : t_id inst0 = t_id self /\ t_user inst0 = t_user self
               /\ t_status inst0 = t_status self /\ t_category inst0 = t_category self).
  { revert Hpre. unfold handle_task_completion, Task_get. munfold.
    destruct (fault E (op_Task_get _)) as [e|]; cbn beta iota.
    { destruct (decide (e = Task_DoesNotExist)); [|done]. by intros [= <- <-]. }
    destruct (find _ _) as [old|]; cbn beta iota; [|by intros [= <- <-]].
    destruct (bool_decide (t_status old ≠ COMPLETED) && _); [by intros [= <- <-]|].
    destruct (bool_decide (t_status old = COMPLETED) && _); by intros [= <- <-]. }
  destruct H0 as (Hid & Hu & Hst & Hcat).
  revert Hw. unfold Task_write. munfold.
  destruct (fault E (op_Task_write _)); cbn beta iota; [done|].
  destruct (existsb _ _); cbn beta iota; by intros [= <- <- <-].
Qed.

(** The task table after the pre-save receiver and the write, whatever
    their outcome: the tasks with another primary key are as they were. *)
Lemma save_until_written_others E self s :
  let s1 := final (save_until_written self E s) in
  users s1 = users s /\ weekly s1 = weekly s
  /\ List.filter (fun t => negb (t_id t =? t_id self)) (tasks s1)
     = List.filter (fun t => negb (t_id t =? t_id self)) (tasks s)
  /\ length (tasks s) <= length (tasks s1) <= S (length (tasks s)).
Proof.
  unfold save_until_written. rewrite final_bind.
  pose proof (handle_task_completion_state E self s) as H0.
  destruct (handle_task_completion self E s) as [inst s0|e s0] eqn:Hpre;
    cbn [final] in H0; subst s0; [|repeat split; lia].
  assert (Hid : t_id inst = t_id self).
  { revert Hpre. unfold handle_task_completion, Task_get. munfold.
    destruct (fault E (op_Task_get _)) as [e|]; cbn beta iota.
    { destruct (decide (e = Task_DoesNotExist)); [|done]. by intros [= <-]. }
    destruct (find _ _) as [old|]; cbn beta iota; [|by intros [= <-]].
    destruct (bool_decide (t_status old ≠ COMPLETED) && _); [by intros [= <-]|].
    destruct (bool_decide (t_status old = COMPLETED) && _); by intros [= <-]. }
  unfold Task_write. munfold. rewrite Hid.
  destruct (fault E (op_Task_write _)); cbn beta iota; [cbn; repeat split; lia|].
  destruct (existsb _ _); cbn [final users weekly tasks set_tasks].
  - repeat split; [|rewrite length_map; lia..].
    induction (tasks s) as [|t l IH]; [done|]. cbn [map List.filter].
    destruct (t_id t =? t_id self) eqn:Ht.
    + rewrite Hid, Nat.eqb_refl. exact IH.
    + rewrite Ht. cbn [negb]. by rewrite IH.
  - repeat split; [|cbn [length]; lia..].
    cbn [List.filter set_created_at t_id]. by rewrite Hid, Nat.eqb_refl.
Qed.

(** X16.  A task save, whatever its outcome, leaves every task with another
    primary key as it was, adds at most one task, and changes no user and no
    weekly row. *)
Lemma save_touches_only_its_task (E : env) (self : Task) (s : db) :
  let o := signals.save self E s in
  users (final o) = users s /\ weekly (final o) = weekly s
  /\ List.filter (fun t => negb (t_id t =? t_id self)) (tasks (final o))
     = List.filter (fun t => negb (t_id t =? t_id self)) (tasks s)
  /\ length (tasks s) <= length (tasks (final o)) <= S (length (tasks s)).
Proof.
  intros o. subst o. rewrite save_unfold.
  pose proof (save_until_written_others E (save_prepare (now E) self) s) as H.
  cbv zeta in H.
  replace (t_id (save_prepare (now E) self)) with (t_id self) in H
    by (symmetry; apply save_prepare_fields).
  destruct (save_until_written _ E s) as [[inst created] s1|e s1]; cbn [final] in *;
    [|exact H].
  rewrite post_save_tasks.
  destruct (post_save_users_weekly E inst created s1) as [-> ->]. exact H.
Qed.

(** The save of a task whose primary key is not stored inserts it. *)
Lemma save_until_written_new E self s inst created s1 :
  existsb (fun t => t_id t =? t_id self) (tasks s) = false ->
  save_until_written self E s = Ok (inst, created) s1 ->
  inst = set_created_at (now E) self /\ created = true
  /\ s1 = set_tasks (fun l => set_created_at (now E) self :: l) s.
Proof.
  intros Hnew H. unfold save_until_written in H.
  apply bind_Ok in H as (inst0 & s0 & Hpre & Hw).
  assert (Hfind : find (fun t => t_id t =? t_id self) (tasks s) = None).
  { destruct (find _ _) as [t|] eqn:Hf; [|done].
    apply find_some in Hf as [Hin Hid].
    assert (Hex : existsb (fun t => t_id t =? t_id self) (tasks s) = true)
      by (apply existsb_exists; eauto).
    congruence. }
  assert (H0 : inst0 = self /\ s0 = s).
  { revert Hpre. unfold handle_task_completion, Task_get. munfold.
    destruct (fault E (op_Task_get _)) as [e|]; cbn beta iota.
    { destruct (decide (e = Task_DoesNotExist)); [|done]. by intros [= <- <-]. }
    rewrite Hfind. cbn beta iota. by intros [= <- <-]. }
  destruct H0 as [-> ->].
  revert Hw. unfold Task_write. munfold.
  destruct (fault E (op_Task_write _)); cbn beta iota; [done|].
  rewrite Hnew. cbn beta iota. by intros [= <- <- <-].
Qed.

(** X17.  Creating a task keeps [tasks_created] of today exact.  When a task
    with a new primary key is saved and the save returns, the counter of the
    row of (user, today) is one more than it was (than 0 when there was no
    row); if it was the number of the user's tasks created today, it still
    is. *)
Lemma create_counts_the_task (E : env) (self : Task) (s s' : db) :
  signals.save self E s = Ok tt s' ->
  existsb (fun t => t_id t =? t_id self) (tasks s) = false ->
  let today := dt_date (now E) in
  let before := tasks_created (row_before E (t_user self) s) in
  exists r, daily s' !! (t_user self, today) = Some r
    /\ tasks_created r = S before
    /\ (before = recount_created (tasks s) (t_user self) today ->
        tasks_created r = recount_created (tasks s') (t_user self) today).
Proof.
  intros Hsave Hnew today before. rewrite save_unfold in Hsave.
  destruct (save_prepare_fields (now E) self) as (Hid & Hu & _).
  destruct (save_until_written _ E s) as [[inst created] s1|e s1] eqn:Hw; [|done].
  apply save_until_written_new in Hw as (-> & -> & ->); [|by rewrite Hid].
  destruct (post_save_Ok_row E _ _ _ _ Hsave) as (Ht & r & Hr & _ & Hn).
  cbn [t_user set_created_at] in Hr, Hn. rewrite Hu in Hr, Hn.
  exists r. split; [exact Hr|].
  assert (Hr1 : tasks_created r = S before).
  { rewrite Hn. unfold changed_row. cbn [tasks_created]. subst before.
    unfold row_before. cbn [daily set_tasks]. lia. }
  split; [exact Hr1|]. intros Hbefore. rewrite Hr1, Hbefore, Ht.
  unfold recount_created. cbn [tasks set_tasks List.filter]. subst today.
  unfold created_on. cbn [t_user t_created_at set_created_at].
  rewrite Hu, Nat.eqb_refl, Z.eqb_refl. reflexivity.
Qed.

Lemma create_counts_the_task_witness :
  let today := dt_date (now (calm (at_day day0))) in
  let before := tasks_created (row_before (calm (at_day day0)) 1 empty_db) in
  exists r, daily one_done_db !! (1, today) = Some r
    /\ tasks_created r = S before
    /\ (before = recount_created (tasks empty_db) 1 today ->
        tasks_created r = recount_created (tasks one_done_db) 1 today).
Proof.
  apply (create_counts_the_task (calm (at_day day0))
           (new_task 1 1 COMPLETED (Some work) None) empty_db one_done_db);
    vm_compute; reflexivity.
Defined.

(** The second receiver, when it returns for an instance with a category
    and a row of today: the entry of the category is there and its
    [tasks_completed] is the recount. *)
Lemma update_category_analytics_Ok E instance created s s' c row :
  (forall op, fault E op <> Some DailyStats_DoesNotExist) ->
  t_category instance = Some c ->
  daily s !! (t_user instance, dt_date (now E)) = Some row ->
  update_category_analytics instance created E s = Ok tt s' ->
  tasks s' = tasks s
  /\ exists r e, daily s' !! (t_user instance, dt_date (now E)) = Some r
       /\ categories_data r !! c_id c = Some e
       /\ ce_tasks_completed e
          = length (tasks_of (tasks s) (t_user instance)
                      (fun t => in_category c t && completed_on (dt_date (now E)) t)).
Proof.
  intros Hnot Hc Hrow. unfold update_category_analytics, instance_category. munfold.
  rewrite Hc. cbn beta iota.
  destruct (fault E (op_Category_fetch _)); [done|]. cbn beta iota.
  destruct (fault E (op_DailyStats_get _ _)) as [e|] eqn:Hg.
  { destruct (decide (e = DailyStats_DoesNotExist)) as [->|]; [|done].
    by destruct (Hnot _ Hg). }
  cbn beta iota. rewrite Hrow. cbn beta iota.
  destruct (fault E (op_Task_query _)) as [e|] eqn:Hq; cbn beta iota.
  { destruct (decide (e = DailyStats_DoesNotExist)) as [->|]; [|done].
    by destruct (Hnot _ Hq). }
  destruct (fault E (op_DailyStats_save _ _)) as [e|] eqn:Hs; cbn beta iota.
  { destruct (decide (e = DailyStats_DoesNotExist)) as [->|]; [|done].
    by destruct (Hnot _ Hs). }
  cbn [hours_worked productivity_score].
  destruct (decimal_fits 5 (hours_worked row) && _); cbn beta iota; [|done].
  intros [= <-]. cbn [tasks daily set_daily]. split; [done|].
  rewrite lookup_insert_eq.
  assert (Hsome : forall (cd : gmap nat CatEntry),
            is_Some ((if created
                      then alter (add_created 1) (c_id c)
                             (match cd !! c_id c with
                              | Some _ => cd
                              | None => <[c_id c := new_entry c]> cd
                              end)
                      else match cd !! c_id c with
                           | Some _ => cd
                           | None => <[c_id c := new_entry c]> cd
                           end) !! c_id c)).
  { intros cd. destruct created; rewrite ?lookup_alter_eq;
      destruct (cd !! c_id c) as [e0|] eqn:He; rewrite ?He, ?lookup_insert_eq; eauto. }
  destruct (Hsome (categories_data row)) as [e0 He0].
  eexists _, (set_completed _ e0). split; [reflexivity|].
  cbn [stamp_daily categories_data]. rewrite lookup_alter_eq, He0.
  split; reflexivity.
Qed.

(** X18.  The per-category counter is always a recount.  After a save that
    returns of a task with a category, whatever its status, the entry of the
    category in the row of (user, today) is there and its [tasks_completed]
    is the number of the user's tasks of the category completed today. *)
Lemma save_recounts_the_category (E : env) (self : Task) (s s' : db) (c : Category) :
  signals.save self E s = Ok tt s' ->
  t_category self = Some c ->
  (forall op, fault E op <> Some DailyStats_DoesNotExist) ->
  exists r e, daily s' !! (t_user self, dt_date (now E)) = Some r
    /\ categories_data r !! c_id c = Some e
    /\ ce_tasks_completed e
       = length (tasks_of (tasks s') (t_user self)
                   (fun t => in_category c t && completed_on (dt_date (now E)) t)).
Proof.
  intros Hsave Hc Hnot. rewrite save_unfold in Hsave.
  destruct (save_prepare_fields (now E) self) as (_ & Hu & _ & Hcat & _).
  destruct (save_until_written _ E s) as [[inst created] s1|e s1] eqn:Hw; [|done].
  apply save_until_written_fields in Hw as (_ & Hu' & _ & Hcat').
  rewrite Hu in Hu'. rewrite Hcat, Hc in Hcat'.
  unfold post_save in Hsave. apply bind_Ok in Hsave as ([] & s2 & H1 & H2).
  destruct (update_analytics_on_task_change_cases E inst created s1)
    as [[e He]|[[e He]|He]]; rewrite H1 in He; try discriminate.
  injection He as ->.
  eapply update_category_analytics_Ok in H2 as (Ht & r & e & Hr & He & Hn); [|done..| ].
  - rewrite Hu' in *. exists r, e. rewrite Ht. cbn [tasks set_daily] in *. done.
  - cbn [daily set_daily]. apply lookup_insert_eq.
Qed.

Lemma save_recounts_the_category_witness :
  exists r e, daily one_done_db !! (1, dt_date (now (calm (at_day day0)))) = Some r
    /\ categories_data r !! c_id work = Some e
    /\ ce_tasks_completed e
       = length (tasks_of (tasks one_done_db) 1
                   (fun t => in_category work t
                             && completed_on (dt_date (now (calm (at_day day0)))) t)).
Proof.
  apply (save_recounts_the_category (calm (at_day day0))
           (new_task 1 1 COMPLETED (Some work) None) empty_db one_done_db work);
    [vm_compute; reflexivity | reflexivity | intros op; discriminate].
Defined.


(** The score of the row of today after an invocation of the updater
    that returns: the second receiver leaves it as the first wrote it. *)
Lemma post_save_Ok_score E instance created s s' :
  post_save instance created E s = Ok tt s' ->
  exists r, daily s' !! (t_user instance, dt_date (now E)) = Some r
    /\ tasks_created r
       = (if created then S (tasks_created (row_before E (t_user instance) s))
          else tasks_created (row_before E (t_user instance) s))
    /\ productivity_score r
       = if 0 <? tasks_created r
         then score_of (tasks_completed r) (tasks_created r)
         else productivity_score (row_before E (t_user instance) s).
Proof.
  intros Hp.
  unfold post_save in Hp. apply bind_Ok in Hp as ([] & s1 & H1 & H2).
  destruct (update_analytics_on_task_change_cases E instance created s)
    as [[e He]|[[e He]|He]]; rewrite H1 in He; try discriminate.
  injection He as ->.
  set (k := (t_user instance, dt_date (now E))) in *.
  set (r0 := row_before E (t_user instance) s) in *.
  assert (Hrow : tasks_created (changed_row (tasks s) E instance created r0)
                 = (if created then S (tasks_created r0) else tasks_created r0)
                 /\ productivity_score (changed_row (tasks s) E instance created r0)
                    = if 0 <? tasks_created (changed_row (tasks s) E instance created r0)
                      then score_of
                             (tasks_completed (changed_row (tasks s) E instance created r0))
                             (tasks_created (changed_row (tasks s) E instance created r0))
                      else productivity_score r0).
  { unfold changed_row. cbn [tasks_created tasks_completed productivity_score].
    split; [destruct created; lia|done]. }
  set (row := changed_row _ _ _ _ _) in *.
  destruct (update_category_analytics_cases E instance created
              (set_daily (insert k row) s)) as [Hs|(r & cd & Hr & Ho)].
  - rewrite H2 in Hs. cbn [final] in Hs. subst s'. exists row. split; [|exact Hrow].
    cbn [daily set_daily]. apply lookup_insert_eq.
  - rewrite H2 in Ho. injection Ho as ->. fold k in Hr. cbn [daily set_daily] in Hr.
    rewrite lookup_insert_eq in Hr. injection Hr as <-.
    exists (recategorised cd (now E) row). split; [|exact Hrow].
    cbn [daily set_daily]. apply lookup_insert_eq.
Qed.

(** X19.  Every save that returns rescores the row of today.  When the row
    has a task created, its productivity score follows the completion rate
    of its own two counters, capped at 100; when it has none, the score is
    left as it was (0 for a row the save creates). *)
Lemma save_rescores_the_row (E : env) (self : Task) (s s' : db) :
  signals.save self E s = Ok tt s' ->
  exists r, daily s' !! (t_user self, dt_date (now E)) = Some r
    /\ (tasks_created r = 0 ->
        productivity_score r = productivity_score (row_before E (t_user self) s))
    /\ (0 < tasks_created r ->
        near_rate (productivity_score r) (tasks_completed r) (tasks_created r)).
Proof.
  intros Hsave. rewrite save_unfold in Hsave.
  destruct (save_prepare_fields (now E) self) as (_ & Hu & _).
  pose proof (save_until_written_state E (save_prepare (now E) self) s) as Hd.
  destruct (save_until_written _ E s) as [[inst created] s1|e s1] eqn:Hw; [|done].
  cbn [final] in Hd.
  apply save_until_written_fields in Hw as (_ & Hu' & _). rewrite Hu in Hu'.
  destruct (post_save_Ok_score E inst created s1 s' Hsave) as (r & Hr & _ & Hsc).
  rewrite Hu' in Hr, Hsc. exists r. split; [exact Hr|].
  rewrite Hsc. split.
  - intros ->. cbn [Nat.ltb Nat.leb]. unfold row_before. by rewrite Hd.
  - intros Hpos. rewrite (proj2 (Nat.ltb_lt _ _) Hpos). by apply score_of_near_rate.
Qed.

Lemma save_rescores_the_row_witness :
  exists r, daily one_done_db !! (1, dt_date (now (calm (at_day day0)))) = Some r
    /\ (tasks_created r = 0 ->
        productivity_score r
        = productivity_score (row_before (calm (at_day day0)) 1 empty_db))
    /\ (0 < tasks_created r ->
        near_rate (productivity_score r) (tasks_completed r) (tasks_created r)).
Proof.
  apply (save_rescores_the_row (calm (at_day day0))
           (new_task 1 1 COMPLETED (Some work) None) empty_db one_done_db).
  vm_compute. reflexivity.
Defined.

(* ===================================================================== *)
(** ** The views that save a task, and [Task]'s properties *)
(* ===================================================================== *)

Lemma toggle_complete_unfold E task s :
  TaskViewSet.toggle_complete task E s
  = signals.save
      (if bool_decide (t_status task = COMPLETED)
       then set_completed_at None (TaskViewSet.set_status PENDING task)
       else set_completed_at (Some (now E)) (TaskViewSet.set_status COMPLETED task))
      E s.
Proof.
  unfold TaskViewSet.toggle_complete. unfold bind at 1.
  destruct (bool_decide (t_status task = COMPLETED)); reflexivity.
Qed.

(** X20.  [toggle_complete] on a task that is not completed: when it
    returns, the task is stored as completed with [completed_at] the time of
    the request, and [tasks_completed] of the row of (user, today) is the
    number of the user's tasks completed today. *)
Lemma toggle_complete_completes (E : env) (task : Task) (s s' : db) :
  t_status task <> COMPLETED ->
  TaskViewSet.toggle_complete task E s = Ok tt s' ->
  fault E (op_Task_get (t_id task)) = None ->
  (exists t, stored (tasks s') (t_id task) = Some t
     /\ t_status t = COMPLETED /\ t_completed_at t = Some (now E))
  /\ exists r, daily s' !! (t_user task, dt_date (now E)) = Some r
       /\ tasks_completed r
          = recount_completed (tasks s') (t_user task) (dt_date (now E)).
Proof.
  intros Hst Hrun Hget. rewrite toggle_complete_unfold in Hrun.
  rewrite (bool_decide_eq_false_2 _ Hst) in Hrun.
  set (self := set_completed_at (Some (now E)) (TaskViewSet.set_status COMPLETED task)) in *.
  split.
  - destruct (save_stored_task E self s s' Hrun Hget) as (t & Ht & _ & Hs & Hc).
    exists t. split; [exact Ht|]. split; [exact Hs|]. rewrite Hc.
    change (save_prepare (now E) self) with self. unfold pre_saved.
    destruct (stored (tasks s) (t_id self)) as [old|]; [|reflexivity].
    rewrite (bool_decide_eq_false_2 (t_status self ≠ COMPLETED)) by (intros H; by apply H).
    rewrite andb_false_r. by destruct (_ && _).
  - rewrite save_unfold in Hrun.
    destruct (save_until_written _ E s) as [[instance created] s1|e s1] eqn:Hw; [|done].
    apply save_until_written_instance in Hw as (Hu & Hst' & Hc').
    assert (Hprep : save_prepare (now E) self = self) by reflexivity.
    rewrite Hprep in Hu, Hst', Hc'. cbn in Hu, Hst', Hc'.
    destruct (post_save_Ok_row E instance created s1 s' Hrun) as (Ht & r & Hr & Hn & _).
    rewrite <- Hu. exists r. split; [exact Hr|].
    rewrite Hn, Ht. unfold changed_row, completed_today. cbn [tasks_completed].
    rewrite Hst'. cbn.
    destruct (Hc' eq_refl) as [-> | ->]; cbn; by rewrite Z.eqb_refl.
Qed.

Lemma toggle_complete_completes_witness :
  (exists t, stored (tasks (final (TaskViewSet.toggle_complete
                                     (new_task 1 1 PENDING (Some work) None)
                                     (calm (at_day day0)) empty_db))) 1 = Some t
     /\ t_status t = COMPLETED /\ t_completed_at t = Some (now (calm (at_day day0))))
  /\ exists r, daily (final (TaskViewSet.toggle_complete
                              (new_task 1 1 PENDING (Some work) None)
                              (calm (at_day day0)) empty_db))
                 !! (1, dt_date (now (calm (at_day day0)))) = Some r
       /\ tasks_completed r
          = recount_completed
              (tasks (final (TaskViewSet.toggle_complete
                               (new_task 1 1 PENDING (Some work) None)
                               (calm (at_day day0)) empty_db)))
              1 (dt_date (now (calm (at_day day0)))).
Proof.
  apply (toggle_complete_completes (calm (at_day day0))
           (new_task 1 1 PENDING (Some work) None) empty_db);
    [discriminate | vm_compute; reflexivity | reflexivity].
Defined.

(** X21.  [toggle_complete] on a completed task: when it returns, the task
    is stored as pending with no [completed_at], and [tasks_completed] of
    the row of (user, today) is what it was before (0 when there was no
    row): reopening a task does not lower the counter. *)
Lemma toggle_complete_reopens (E : env) (task : Task) (s s' : db) :
  t_status task = COMPLETED ->
  TaskViewSet.toggle_complete task E s = Ok tt s' ->
  fault E (op_Task_get (t_id task)) = None ->
  (exists t, stored (tasks s') (t_id task) = Some t
     /\ t_status t = PENDING /\ t_completed_at t = None)
  /\ exists r, daily s' !! (t_user task, dt_date (now E)) = Some r
       /\ tasks_completed r = tasks_completed (row_before E (t_user task) s).
Proof.
  intros Hst Hrun Hget. rewrite toggle_complete_unfold in Hrun.
  rewrite (bool_decide_eq_true_2 _ Hst) in Hrun.
  set (self := set_completed_at None (TaskViewSet.set_status PENDING task)) in *.
  split.
  - destruct (save_stored_task E self s s' Hrun Hget) as (t & Ht & _ & Hs & Hc).
    exists t. split; [exact Ht|]. split; [exact Hs|]. rewrite Hc.
    change (save_prepare (now E) self) with self. unfold pre_saved.
    destruct (stored (tasks s) (t_id self)) as [old|]; [|reflexivity].
    rewrite (bool_decide_eq_false_2 (t_status self = COMPLETED)) by done.
    rewrite andb_false_r. by destruct (_ && _).
  - rewrite save_unfold in Hrun.
    pose proof (save_until_written_state E (save_prepare (now E) self) s) as Hd.
    destruct (save_until_written _ E s) as [[instance created] s1|e s1] eqn:Hw; [|done].
    cbn [final] in Hd.
    apply save_until_written_instance in Hw as (Hu & Hst' & _).
    assert (Hprep : save_prepare (now E) self = self) by reflexivity.
    rewrite Hprep in Hu, Hst'. cbn in Hu, Hst'.
    destruct (post_save_Ok_row E instance created s1 s' Hrun) as (Ht & r & Hr & Hn & _).
    rewrite <- Hu. exists r. split; [exact Hr|].
    rewrite Hn. unfold changed_row, completed_today, row_before.
    cbn [tasks_completed]. rewrite Hst', Hd. done.
Qed.

Lemma toggle_complete_reopens_witness :
  (exists t, stored (tasks (final (TaskViewSet.toggle_complete one_done_task
                                     (calm (at_day day0)) one_done_db))) 1 = Some t
     /\ t_status t = PENDING /\ t_completed_at t = None)
  /\ exists r, daily (final (TaskViewSet.toggle_complete one_done_task
                               (calm (at_day day0)) one_done_db))
                 !! (1, dt_date (now (calm (at_day day0)))) = Some r
       /\ tasks_completed r
          = tasks_completed (row_before (calm (at_day day0)) 1 one_done_db).
Proof.
  apply (toggle_complete_reopens (calm (at_day day0)) one_done_task one_done_db);
    [reflexivity | vm_compute; reflexivity | reflexivity].
Defined.

(** X22.  [Task.is_due_today] is the filter of the due-today count, every
    task the overdue filter of the counts and lists selects has [is_overdue]
    true, and a task with [is_overdue] true is not completed and was due
    today or earlier. *)
Lemma task_properties_agree_with_filters (E : env) (s : db) (t : Task) :
  task_models.is_due_today t E s = Ok (on_date (dt_date (now E)) (t_due_date t)) s
  /\ (overdue_on (dt_date (now E)) t = true -> task_models.is_overdue t E s = Ok true s)
  /\ (task_models.is_overdue t E s = Ok true s ->
      t_status t <> COMPLETED
      /\ exists due, t_due_date t = Some due /\ (dt_date due <= dt_date (now E))%Z).
Proof.
  unfold task_models.is_due_today, task_models.is_overdue, overdue_on, on_date,
    datetime_ltb, today, ask_now, bind, ret.
  destruct (t_due_date t) as [due|]; [|by repeat split].
  split; [done|]. split.
  - intros H. apply andb_true_iff in H as [Hd Hs]. apply Z.ltb_lt in Hd.
    rewrite bool_decide_eq_true_2.
    + by rewrite (proj2 (Z.ltb_lt _ _) Hd).
    + apply orb_true_iff in Hs as [Hs|Hs]; apply bool_decide_eq_true in Hs; congruence.
  - destruct (decide (t_status t = COMPLETED)) as [Hc|Hc].
    + rewrite bool_decide_eq_false_2 by auto. done.
    + rewrite bool_decide_eq_true_2 by done. intros [= H]. split; [done|].
      exists due. split; [done|].
      apply orb_true_iff in H as [H|H]; [apply Z.ltb_lt in H; lia|].
      apply andb_true_iff in H as [H _]. apply Z.eqb_eq in H. lia.
Qed.

(* ===================================================================== *)
(** ** The read side *)
(* ===================================================================== *)

Lemma round_half_even_exact (k den : Z) :
  (0 < den)%Z -> round_half_even (k * den) den = k.
Proof.
  intros Hden. unfold round_half_even.
  rewrite Z.div_mul, Z.mod_mul by lia.
  rewrite (proj2 (Z.ltb_lt _ _)) by lia. reflexivity.
Qed.

Lemma rate_of_bounds (completed total : nat) :
  completed <= total -> 0 < total ->
  (0 <= analytics_views.rate_of completed total <= 1000)%Z.
Proof.
  intros Hle Hpos. unfold analytics_views.rate_of.
  apply round_half_even_between; lia.
Qed.

Lemma count_le (P Q : Task -> bool) (l : list Task) :
  (forall t, P t = true -> Q t = true) ->
  length (List.filter P l) <= length (List.filter Q l).
Proof.
  intros HPQ. induction l as [|t l IH]; [done|]. cbn [List.filter].
  destruct (P t) eqn:HP.
  - rewrite (HPQ t HP). cbn [length]. lia.
  - destruct (Q t); cbn [length]; lia.
Qed.

Lemma count_by_status (user : nat) (l : list Task) :
  length (tasks_of l user (fun _ => true))
  = length (tasks_of l user (fun t => bool_decide (t_status t = COMPLETED)))
    + length (tasks_of l user (fun t => bool_decide (t_status t = PENDING)))
    + length (tasks_of l user (fun t => bool_decide (t_status t = IN_PROGRESS)))
    + length (tasks_of l user (fun t => bool_decide (t_status t = CANCELLED))).
Proof.
  unfold tasks_of. induction l as [|t l IH]; [done|]. cbn [List.filter].
  destruct (t_user t =? user); cbn [andb]; [|exact IH].
  destruct (t_status t);
    repeat first [rewrite bool_decide_eq_true_2 by done
                 | rewrite bool_decide_eq_false_2 by done];
    cbn [length]; lia.
Qed.

Lemma count_overdue (user : nat) (d : Z) (l : list Task) :
  length (tasks_of l user (overdue_on d))
  <= length (tasks_of l user (fun t => bool_decide (t_status t = PENDING)))
     + length (tasks_of l user (fun t => bool_decide (t_status t = IN_PROGRESS))).
Proof.
  unfold tasks_of, overdue_on. induction l as [|t l IH]; [done|]. cbn [List.filter].
  destruct (t_user t =? user); cbn [andb]; [|exact IH].
  destruct (t_due_date t) as [due|]; [destruct (dt_date due <? d)%Z|];
    destruct (t_status t);
    repeat first [rewrite bool_decide_eq_true_2 by done
                 | rewrite bool_decide_eq_false_2 by done];
    cbn [andb orb length]; lia.
Qed.

(** X23.  The counts of the dashboard overview are consistent: the four
    counts by status are of disjoint sets of the user's tasks, an overdue
    task is pending or in progress, and the counts of this week and of today
    are within the totals they belong to.  The view changes nothing. *)
Lemma overview_counts_are_consistent (E : env) (user : nat) (s s' : db)
    (st : analytics_views.OverviewStats) :
  analytics_views.OverviewStatsView_get user E s = Ok st s' ->
  s' = s
  /\ analytics_views.os_completed_tasks st + analytics_views.os_pending_tasks st
     + analytics_views.os_in_progress_tasks st + analytics_views.os_cancelled_tasks st
     <= analytics_views.os_total_tasks st
  /\ analytics_views.os_overdue_tasks st
     <= analytics_views.os_pending_tasks st + analytics_views.os_in_progress_tasks st
  /\ analytics_views.os_completed_this_week st <= analytics_views.os_completed_tasks st
  /\ analytics_views.os_tasks_this_week st <= analytics_views.os_total_tasks st
  /\ analytics_views.os_due_today st <= analytics_views.os_total_tasks st.
Proof.
  unfold analytics_views.OverviewStatsView_get. munfold.
  destruct (fault E (op_Task_query user)); cbn beta iota; [done|].
  intros [= <- <-]. cbn.
  split; [done|].
  split; [pose proof (count_by_status user (tasks s)) as Hsum; unfold tasks_of in Hsum; lia|].
  split; [apply (count_overdue user _ (tasks s))|].
  repeat split; apply count_le; intros t H;
    apply andb_true_iff in H as [Hu H]; rewrite Hu; cbn [andb]; [|done..].
  by apply andb_true_iff in H as [H _].
Qed.

Lemma overview_counts_are_consistent_witness :
  exists st,
    analytics_views.OverviewStatsView_get 1 (calm (at_day day0)) two_tasks_db
    = Ok st two_tasks_db
    /\ two_tasks_db = two_tasks_db
    /\ analytics_views.os_completed_tasks st + analytics_views.os_pending_tasks st
       + analytics_views.os_in_progress_tasks st + analytics_views.os_cancelled_tasks st
       <= analytics_views.os_total_tasks st
    /\ analytics_views.os_overdue_tasks st
       <= analytics_views.os_pending_tasks st + analytics_views.os_in_progress_tasks st
    /\ analytics_views.os_completed_this_week st <= analytics_views.os_completed_tasks st
    /\ analytics_views.os_tasks_this_week st <= analytics_views.os_total_tasks st
    /\ analytics_views.os_due_today st <= analytics_views.os_total_tasks st.
Proof.
  eexists. split; [vm_compute; reflexivity|].
  apply (overview_counts_are_consistent (calm (at_day day0)) 1 two_tasks_db two_tasks_db).
  vm_compute. reflexivity.
Defined.

(** X24.  The completion rate of the overview is between 0 and 100, it is 0
    when no task of the user is completed and 100 when all are; the
    productivity score of the overview is the completion rate, the cap at
    100 never applies. *)
Lemma overview_rate_is_a_percentage (E : env) (user : nat) (s s' : db)
    (st : analytics_views.OverviewStats) :
  analytics_views.OverviewStatsView_get user E s = Ok st s' ->
  (0 <= analytics_views.os_completion_rate st <= 1000)%Z
  /\ analytics_views.os_productivity_score st = analytics_views.os_completion_rate st
  /\ (analytics_views.os_completed_tasks st = 0 ->
      analytics_views.os_completion_rate st = 0%Z)
  /\ (0 < analytics_views.os_total_tasks st ->
      analytics_views.os_completed_tasks st = analytics_views.os_total_tasks st ->
      analytics_views.os_completion_rate st = 1000%Z).
Proof.
  pose proof (count_by_status user (tasks s)) as Hsum. unfold tasks_of in Hsum.
  revert Hsum. unfold analytics_views.OverviewStatsView_get. munfold.
  destruct (fault E (op_Task_query user)); cbn beta iota; [done|].
  intros Hsum [= <- <-]. revert Hsum. cbn [analytics_views.os_total_tasks analytics_views.os_completed_tasks
    analytics_views.os_pending_tasks analytics_views.os_in_progress_tasks
    analytics_views.os_cancelled_tasks analytics_views.os_completion_rate
    analytics_views.os_productivity_score].
  set (total := length _). set (completed := length _).
  generalize (length (List.filter (fun t => (t_user t =? user)
                 && bool_decide (t_status t = PENDING)) (tasks s))).
  generalize (length (List.filter (fun t => (t_user t =? user)
                 && bool_decide (t_status t = IN_PROGRESS)) (tasks s))).
  generalize (length (List.filter (fun t => (t_user t =? user)
                 && bool_decide (t_status t = CANCELLED)) (tasks s))).
  clearbody total completed. intros n1 n2 n3 Hsum.
  destruct (0 <? total) eqn:Hpos.
  - apply Nat.ltb_lt in Hpos.
    pose proof (rate_of_bounds completed total ltac:(lia) Hpos) as Hb.
    repeat split; try lia.
    + intros ->. unfold analytics_views.rate_of.
      change (1000 * Z.of_nat 0)%Z with (0 * Z.of_nat total)%Z.
      apply round_half_even_exact. lia.
    + intros _ ->. unfold analytics_views.rate_of. apply round_half_even_exact. lia.
  - apply Nat.ltb_ge in Hpos. repeat split; lia.
Qed.

Lemma overview_rate_is_a_percentage_witness :
  exists st,
    analytics_views.OverviewStatsView_get 1 (calm (at_day day0)) two_tasks_db
    = Ok st two_tasks_db
    /\ (0 <= analytics_views.os_completion_rate st <= 1000)%Z
    /\ analytics_views.os_productivity_score st = analytics_views.os_completion_rate st
    /\ (analytics_views.os_completed_tasks st = 0 ->
        analytics_views.os_completion_rate st = 0%Z)
    /\ (0 < analytics_views.os_total_tasks st ->
        analytics_views.os_completed_tasks st = analytics_views.os_total_tasks st ->
        analytics_views.os_completion_rate st = 1000%Z).
Proof.
  eexists. split; [vm_compute; reflexivity|].
  apply (overview_rate_is_a_percentage (calm (at_day day0)) 1 two_tasks_db two_tasks_db).
  vm_compute. reflexivity.
Defined.

(** X25.  The overview agrees with the batch aggregator on what is overdue.
    After a run for today that returns, the overdue count the overview shows
    a user of the run is the [tasks_overdue] of that user's row of today. *)
Lemma overview_overdue_is_the_batch_count (E : env) (email : option string)
    (days : Z) (weekly : bool) (s s' : db) (user : User) :
  calculate_analytics.handle None email days weekly E s = Ok tt s' ->
  user ∈ selected_users email s ->
  (0 < days)%Z ->
  exists st r,
    analytics_views.OverviewStatsView_get (u_id user) E s' = Ok st s'
    /\ daily s' !! (u_id user, dt_date (now E)) = Some r
    /\ tasks_overdue r = analytics_views.os_overdue_tasks st.
Proof.
  intros Hrun Hu Hdays. apply handle_Ok_rows in Hrun as (Ht & _ & Hall).
  destruct (Hall user 0%Z Hu ltac:(lia)) as [(r & Hr & Heq) Hok].
  cbn [target_of fst snd] in Hr, Heq, Hok. rewrite Z.sub_0_r in Hr, Heq, Hok.
  assert (Hq : fault E (op_Task_query (u_id user)) = None).
  { unfold daily_step_ok in Hok. apply andb_true_iff in Hok as [Hok _].
    apply andb_true_iff in Hok as [Hok _]. apply andb_true_iff in Hok as [_ Hok].
    by apply bool_decide_eq_true in Hok. }
  unfold analytics_views.OverviewStatsView_get. munfold. rewrite Hq. cbn beta iota.
  eexists _, r. split; [reflexivity|]. split; [exact Hr|].
  rewrite Heq, Ht. reflexivity.
Qed.

Lemma overview_overdue_is_the_batch_count_witness :
  let s' := final (calculate_analytics.handle None None 7 true (calm (at_day day0))
                     two_tasks_db) in
  exists st r,
    analytics_views.OverviewStatsView_get 1 (calm (at_day day0)) s' = Ok st s'
    /\ daily s' !! (1, dt_date (now (calm (at_day day0)))) = Some r
    /\ tasks_overdue r = analytics_views.os_overdue_tasks st.
Proof.
  apply (overview_overdue_is_the_batch_count (calm (at_day day0)) None 7 true
           two_tasks_db _ user1).
  - vm_compute. reflexivity.
  - apply list_elem_of_here.
  - lia.
Defined.

Lemma trends_Ok E user today offsets s :
  fault E (op_Task_query user) = None ->
  exists l, analytics_views.trends user today offsets E s = Ok l s
    /\ analytics_views.tr_date <$> l = (fun i => today - i)%Z <$> offsets
    /\ forall e, e ∈ l ->
         analytics_views.tr_tasks_created e
         = recount_created (tasks s) user (analytics_views.tr_date e)
         /\ analytics_views.tr_tasks_completed e
            = recount_completed (tasks s) user (analytics_views.tr_date e)
         /\ analytics_views.tr_completion_rate e
            = (if 0 <? analytics_views.tr_tasks_created e
               then analytics_views.rate_of (analytics_views.tr_tasks_completed e)
                      (analytics_views.tr_tasks_created e)
               else 0%Z)
         /\ analytics_views.tr_productivity_score e
            = Z.min (analytics_views.tr_completion_rate e) 1000.
Proof.
  intros Hq. induction offsets as [|i offsets IH].
  - exists []. split; [done|]. split; [done|].
    intros e He. by apply elem_of_nil in He.
  - destruct IH as (l & Hl & Hdates & Hall).
    cbn [analytics_views.trends]. unfold analytics_views.trend_entry. munfold.
    rewrite Hq. cbn beta iota.
    fold (bind (A := list analytics_views.TrendEntry)
               (B := list analytics_views.TrendEntry)).
    unfold bind, ret. rewrite Hl.
    eexists. split; [reflexivity|]. split.
    + cbn [fmap list_fmap analytics_views.tr_date]. f_equal. exact Hdates.
    + intros e He. apply elem_of_cons in He as [->|He]; [|by apply Hall].
      cbn. done.
Qed.

Lemma trend_dates (today days : Z) :
  (fun i => today - i)%Z <$> reverse (seqZ 0 days) = seqZ (today - days + 1) days.
Proof.
  destruct (Z_le_gt_dec days 0) as [Hle|Hgt].
  - by rewrite !seqZ_nil by lia.
  - rewrite <- (Z2Nat.id days) by lia. generalize (Z.to_nat days) as n. clear.
    induction n as [|n IH]; [done|].
    rewrite seqZ_S, reverse_app, fmap_app. cbn [reverse rev_append app fmap list_fmap].
    rewrite (seqZ_cons (today - Z.of_nat (S n) + 1)) by lia.
    f_equal; [lia|].
    replace (Z.pred (Z.of_nat (S n))) with (Z.of_nat n) by lia.
    rewrite IH. f_equal. lia.
Qed.

(** X26.  The productivity trend has one entry for each of the last [days]
    days, oldest first and ending today (none when [days] is not positive);
    an entry counts the tasks the user created and completed on its date,
    and its productivity score is between 0 and 100 and is 0 when no task
    was created on the date.  The view changes nothing. *)
Lemma trend_covers_the_last_days (E : env) (user : nat) (days : Z) (s s' : db)
    (l : list analytics_views.TrendEntry) :
  analytics_views.ProductivityTrendView_get user days E s = Ok l s' ->
  s' = s
  /\ analytics_views.tr_date <$> l = seqZ (dt_date (now E) - days + 1) days
  /\ forall e, e ∈ l ->
       analytics_views.tr_tasks_created e
       = recount_created (tasks s) user (analytics_views.tr_date e)
       /\ analytics_views.tr_tasks_completed e
          = recount_completed (tasks s) user (analytics_views.tr_date e)
       /\ (0 <= analytics_views.tr_productivity_score e <= 1000)%Z
       /\ (analytics_views.tr_tasks_created e = 0 ->
           analytics_views.tr_productivity_score e = 0%Z).
Proof.
  unfold analytics_views.ProductivityTrendView_get. unfold today, ask_now.
  unfold bind at 1. unfold bind at 1. unfold ret at 1. cbn beta iota.
  destruct (fault E (op_Task_query user)) as [e0|] eqn:Hq.
  - destruct (reverse (seqZ 0 days)) as [|i offsets] eqn:Hoff.
    + cbn. intros [= <- <-]. rewrite <- trend_dates, Hoff.
      split; [done|]. split; [done|].
      intros e1 He1. by apply elem_of_nil in He1.
    + cbn [analytics_views.trends]. unfold analytics_views.trend_entry. munfold.
      by rewrite Hq.
  - destruct (trends_Ok E user (dt_date (now E)) (reverse (seqZ 0 days)) s Hq)
      as (l0 & Hl0 & Hdates & Hall).
    rewrite Hl0. intros [= <- <-]. split; [done|]. split.
    + by rewrite Hdates, trend_dates.
    + intros e He. destruct (Hall e He) as (Hc & Hd & Hrate & Hscore).
      split; [exact Hc|]. split; [exact Hd|]. rewrite Hscore, Hrate.
      destruct (0 <? analytics_views.tr_tasks_created e) eqn:Hpos.
      * apply Nat.ltb_lt in Hpos. split; [|lia].
        unfold analytics_views.rate_of.
        assert (0 <= round_half_even (1000 * Z.of_nat (analytics_views.tr_tasks_completed e))
                        (Z.of_nat (analytics_views.tr_tasks_created e)))%Z; [|lia].
        unfold round_half_even.
        pose proof (Z.div_pos (1000 * Z.of_nat (analytics_views.tr_tasks_completed e))
                      (Z.of_nat (analytics_views.tr_tasks_created e))
                      ltac:(lia) ltac:(lia)).
        repeat case_match; lia.
      * split; [lia|]. intros _. lia.
Qed.

Lemma trend_covers_the_last_days_witness :
  exists l,
    analytics_views.ProductivityTrendView_get 1 14 (calm (at_day day0)) two_tasks_db
    = Ok l two_tasks_db
    /\ two_tasks_db = two_tasks_db
    /\ analytics_views.tr_date <$> l = seqZ (dt_date (now (calm (at_day day0))) - 14 + 1) 14
    /\ forall e, e ∈ l ->
         analytics_views.tr_tasks_created e
         = recount_created (tasks two_tasks_db) 1 (analytics_views.tr_date e)
         /\ analytics_views.tr_tasks_completed e
            = recount_completed (tasks two_tasks_db) 1 (analytics_views.tr_date e)
         /\ (0 <= analytics_views.tr_productivity_score e <= 1000)%Z
         /\ (analytics_views.tr_tasks_created e = 0 ->
             analytics_views.tr_productivity_score e = 0%Z).
Proof.
  eexists. split; [vm_compute; reflexivity|].
  apply (trend_covers_the_last_days (calm (at_day day0)) 1 14 two_tasks_db two_tasks_db).
  vm_compute. reflexivity.
Defined.

(** X27.  The trend agrees with the stored rows after a batch run.  After a
    run for today that returns, every entry of the trend of a user of the
    run over no more days than the run covered has the [tasks_created] and
    [tasks_completed] of the stored row of its date. *)
Lemma trend_agrees_with_batch_rows (E : env) (email : option string)
    (days days' : Z) (weekly : bool) (s s' : db) (user : User) :
  calculate_analytics.handle None email days weekly E s = Ok tt s' ->
  user ∈ selected_users email s ->
  (0 < days' <= days)%Z ->
  exists l,
    analytics_views.ProductivityTrendView_get (u_id user) days' E s' = Ok l s'
    /\ length l = Z.to_nat days'
    /\ forall e, e ∈ l ->
         exists r, daily s' !! (u_id user, analytics_views.tr_date e) = Some r
           /\ tasks_created r = analytics_views.tr_tasks_created e
           /\ tasks_completed r = analytics_views.tr_tasks_completed e.
Proof.
  intros Hrun Hu Hdays. apply handle_Ok_rows in Hrun as (Ht & _ & Hall).
  assert (Hq : fault E (op_Task_query (u_id user)) = None).
  { destruct (Hall user 0%Z Hu ltac:(lia)) as [_ Hok].
    unfold daily_step_ok in Hok. apply andb_true_iff in Hok as [Hok _].
    apply andb_true_iff in Hok as [Hok _]. apply andb_true_iff in Hok as [_ Hok].
    by apply bool_decide_eq_true in Hok. }
  destruct (trends_Ok E (u_id user) (dt_date (now E)) (reverse (seqZ 0 days')) s' Hq)
    as (l & Hl & Hdates & Hentries).
  exists l. split.
  { unfold analytics_views.ProductivityTrendView_get, today, ask_now.
    unfold bind at 1. unfold bind at 1. unfold ret at 1. exact Hl. }
  rewrite trend_dates in Hdates. split.
  { rewrite <- (length_fmap analytics_views.tr_date), Hdates. apply length_seqZ. }
  intros e He.
  assert (Hd : analytics_views.tr_date e ∈ seqZ (dt_date (now E) - days' + 1) days').
  { rewrite <- Hdates. by apply list_elem_of_fmap_2. }
  apply elem_of_seqZ in Hd.
  destruct (Hall user (dt_date (now E) - analytics_views.tr_date e)%Z Hu ltac:(lia))
    as [(r & Hr & Heq) _].
  cbn [target_of fst snd] in Hr, Heq.
  replace (dt_date (now E) - (dt_date (now E) - analytics_views.tr_date e))%Z
    with (analytics_views.tr_date e) in Hr, Heq by lia.
  exists r. split; [exact Hr|].
  destruct (Hentries e He) as (Hc & Hdn & _). rewrite Hc, Hdn, Ht, Heq. done.
Qed.

Lemma trend_agrees_with_batch_rows_witness :
  let s' := final (calculate_analytics.handle None None 7 true (calm (at_day day0))
                     two_tasks_db) in
  exists l,
    analytics_views.ProductivityTrendView_get 1 7 (calm (at_day day0)) s' = Ok l s'
    /\ length l = Z.to_nat 7
    /\ forall e, e ∈ l ->
         exists r, daily s' !! (1, analytics_views.tr_date e) = Some r
           /\ tasks_created r = analytics_views.tr_tasks_created e
           /\ tasks_completed r = analytics_views.tr_tasks_completed e.
Proof.
  apply (trend_agrees_with_batch_rows (calm (at_day day0)) None 7 7 true
           two_tasks_db _ user1).
  - vm_compute. reflexivity.
  - apply list_elem_of_here.
  - lia.
Defined.

(* ===================================================================== *)
(** ** The stats lists and the retention pruner *)
(* ===================================================================== *)

Lemma strictly_sorted_by_date {A} (l : list (Z * A)) :
  StronglySorted analytics_views.by_date l -> NoDup (fst <$> l) ->
  StronglySorted (fun x y => (x.1 < y.1)%Z) l.
Proof.
  induction 1 as [|x l Hl IH Hx]; intros Hnd; [constructor|].
  rewrite fmap_cons in Hnd. apply NoDup_cons in Hnd as [Hnotin Hnd].
  constructor; [by apply IH|].
  apply Forall_forall. intros y Hy.
  pose proof (proj1 (Forall_forall _ _) Hx y Hy) as Hle. unfold analytics_views.by_date in Hle.
  assert (x.1 <> y.1).
  { intros Heq. apply Hnotin. rewrite Heq. by apply list_elem_of_fmap_2. }
  lia.
Qed.

(** X28.  The list of daily stats holds exactly the user's rows dated [today
    - days] or later, each once, by ascending date.  The view changes
    nothing. *)
Lemma daily_view_rows (E : env) (user : nat) (days : Z) (s s' : db)
    (l : list (Z * DailyStats)) :
  analytics_views.DailyStatsView_get_queryset user days E s = Ok l s' ->
  s' = s
  /\ (forall d r, (d, r) ∈ l <->
        daily s !! (user, d) = Some r /\ (dt_date (now E) - days <= d)%Z)
  /\ StronglySorted (fun x y => (x.1 < y.1)%Z) l.
Proof.
  unfold analytics_views.DailyStatsView_get_queryset. munfold.
  destruct (fault E op_DailyStats_query); cbn beta iota; [done|].
  intros [= <- <-]. split; [done|].
  set (rows := map_to_list (analytics_views.daily_since user (dt_date (now E) - days)
                              (daily s))).
  assert (Hrows : forall k r, (k, r) ∈ rows <->
            daily s !! k = Some r /\ k.1 = user /\ (dt_date (now E) - days <= k.2)%Z).
  { intros k r. subst rows. rewrite elem_of_map_to_list.
    unfold analytics_views.daily_since. rewrite map_lookup_filter_Some. done. }
  split.
  - intros d r. rewrite merge_sort_Permutation, list_elem_of_fmap. split.
    + intros ([[u d'] r'] & [= -> ->] & Hin). apply Hrows in Hin as (Hm & Hu & Hd).
      cbn in Hu, Hd. by subst u.
    + intros [Hm Hd]. exists (user, d, r). split; [done|]. apply Hrows. done.
  - apply strictly_sorted_by_date; [apply StronglySorted_merge_sort; apply _|].
    rewrite merge_sort_Permutation, <- list_fmap_compose.
    apply NoDup_fmap_2_strong; [|apply NoDup_map_to_list].
    intros [[u1 d1] r1] [[u2 d2] r2] H1 H2 Heq. cbn in Heq. subst d2.
    apply Hrows in H1 as (Hm1 & Hu1 & _). apply Hrows in H2 as (Hm2 & Hu2 & _).
    cbn in Hu1, Hu2. subst u1 u2. congruence.
Qed.

Lemma daily_view_rows_witness :
  exists l,
    analytics_views.DailyStatsView_get_queryset 1 30 (calm (at_day day0)) one_done_db
    = Ok l one_done_db
    /\ one_done_db = one_done_db
    /\ (forall d r, (d, r) ∈ l <->
          daily one_done_db !! (1, d) = Some r
          /\ (dt_date (now (calm (at_day day0))) - 30 <= d)%Z)
    /\ StronglySorted (fun x y => (x.1 < y.1)%Z) l.
Proof.
  eexists. split; [vm_compute; reflexivity|].
  apply (daily_view_rows (calm (at_day day0)) 1 30 one_done_db one_done_db).
  vm_compute. reflexivity.
Defined.

(** The tables a pruner run leaves, whatever its flags and outcome: each
    is as it was, or without its old rows. *)
Lemma cleanup_final_tables (E : env) (days weeks : Z) (dry_run confirm : bool) (s : db) :
  let o := cleanup_analytics.handle days weeks dry_run confirm E s in
  (daily (final o) = daily s
   \/ daily (final o)
      = filter (fun kr => ¬ (kr.1.2 < dt_date (now E) - days)%Z) (daily s))
  /\ (weekly (final o) = weekly s
      \/ weekly (final o)
         = filter (fun kr => ¬ (start_date kr.2 < dt_date (now E) - 49 * weeks)%Z)
             (weekly s)).
Proof.
  pruner_unfold. replace (7 * (weeks * 7))%Z with (49 * weeks)%Z by lia.
  destruct dry_run, confirm; cbn [negb andb]; cbv beta;
    try (cbn; auto; fail);
    (destruct (fault E op_DailyStats_query); [cbn; auto|]);
    (destruct (fault E op_WeeklyStats_query); [cbn; auto|]); cbn [final].
  all: repeat first
    [ progress cbn [final daily weekly tasks users set_stdout set_daily set_weekly
                    stdout Nat.eqb andb]
    | match goal with
      | |- context [if ?b then _ else _] => destruct b
      | |- context [fault ?e ?op] => destruct (fault e op)
      end ];
    auto.
Qed.

(** X29.  The pruner does not take from the list of daily stats: a run that
    is asked to keep [n] days, whatever its flags and its outcome, leaves
    the list of the last [n] days of every user as it was. *)
Lemma cleanup_keeps_the_daily_view (E : env) (n weeks : Z) (dry_run confirm : bool)
    (user : nat) (s : db) (l : list (Z * DailyStats)) :
  let s' := final (cleanup_analytics.handle n weeks dry_run confirm E s) in
  analytics_views.DailyStatsView_get_queryset user n E s = Ok l s ->
  analytics_views.DailyStatsView_get_queryset user n E s' = Ok l s'.
Proof.
  intros s'. unfold analytics_views.DailyStatsView_get_queryset. munfold.
  destruct (fault E op_DailyStats_query); cbn beta iota; [done|].
  intros [= <-]. do 3 f_equal.
  destruct (cleanup_final_tables E n weeks dry_run confirm s) as [[Hd|Hd] _];
    fold s' in Hd; rewrite Hd; [done|].
  unfold analytics_views.daily_since. rewrite map_filter_filter. f_equal.
  apply map_filter_ext. intros k r _. cbn. lia.
Qed.

Lemma cleanup_keeps_the_daily_view_witness :
  let s' := final (cleanup_analytics.handle 120 1 false true (calm (at_day day0))
                     stale_db) in
  analytics_views.DailyStatsView_get_queryset 1 120 (calm (at_day day0)) s'
  = Ok [((day0 - 100)%Z,
         stamp_daily (at_day (day0 - 100)) (at_day (day0 - 100)) daily_defaults)] s'.
Proof.
  apply (cleanup_keeps_the_daily_view (calm (at_day day0)) 120 1 false true 1 stale_db
           [((day0 - 100)%Z,
             stamp_daily (at_day (day0 - 100)) (at_day (day0 - 100)) daily_defaults)]).
  vm_compute. reflexivity.
Defined.

(** X30.  The pruner does not take from the list of weekly stats either: a
    run that is asked to keep [n] weeks, [n] not negative, leaves the list
    of the last [n] weeks of every user as it was. *)
Lemma cleanup_keeps_the_weekly_view (E : env) (days n : Z) (dry_run confirm : bool)
    (user : nat) (s : db) (l : list (Z * WeeklyStats)) :
  (0 <= n)%Z ->
  let s' := final (cleanup_analytics.handle days n dry_run confirm E s) in
  analytics_views.WeeklyStatsView_get_queryset user n E s = Ok l s ->
  analytics_views.WeeklyStatsView_get_queryset user n E s' = Ok l s'.
Proof.
  intros Hn s'. unfold analytics_views.WeeklyStatsView_get_queryset. munfold.
  destruct (fault E op_WeeklyStats_query); cbn beta iota; [done|].
  intros [= <-]. do 3 f_equal.
  destruct (cleanup_final_tables E days n dry_run confirm s) as [_ [Hw|Hw]];
    fold s' in Hw; rewrite Hw; [done|].
  unfold analytics_views.weekly_since. rewrite map_filter_filter. f_equal.
  apply map_filter_ext. intros k r _. cbn. lia.
Qed.

Lemma cleanup_keeps_the_weekly_view_witness :
  let s' := final (cleanup_analytics.handle 90 60 false true (calm (at_day day0))
                     old_week_db) in
  analytics_views.WeeklyStatsView_get_queryset 1 60 (calm (at_day day0)) s'
  = Ok [(day0 - 403, sample_weekly (day0 - 403))%Z] s'.
Proof.
  apply (cleanup_keeps_the_weekly_view (calm (at_day day0)) 90 60 false true 1
           old_week_db [(day0 - 403, sample_weekly (day0 - 403))%Z]).
  - lia.
  - vm_compute. reflexivity.
Defined.

